(** * Verification of the WebSub-to-Telegram notification pipeline

    A shallow embedding of the TypeScript services of the bot
    (src/services/live-detector.ts, src/utils/deduplication.ts,
    src/services/youtube.ts, src/services/telegram.ts,
    src/handlers/websub.ts, src/config/index.ts) and the properties of its
    specification.

    Conventions of the embedding:
    - JavaScript strings are [string]s, one character for each UTF-16 code
      unit: an ASCII character is itself, a character above 127 stands for
      a code unit above 127.  Only ASCII characters take part in
      the marker pattern: without the [u] flag, case folding never maps a
      character above 127 onto an ASCII one and [\b] only knows the ASCII
      word characters, so every other character is an opaque non-word
      character in both views.  Where white space counts ([trim],
      [parseInt]) the character 160 is the no-break space U+00A0, as in
      Latin-1, and no other character above 127 is white space: the white
      space further up (U+1680, U+2000 to U+200A, U+2028, U+2029, U+202F,
      U+205F, U+3000 and U+FEFF) has no character here, and a text that
      holds it is outside the embedding.
    - JavaScript numbers that are always small integers (clocks, status
      codes, attempt counters and the delays made of them, a validated
      port) are [Z]; where the code computes with what [parseInt] returns,
      a number is a [JsNumber.t]: an integer-valued double, [NaN] or an
      infinity.
    - Promises are run sequentially (the code awaits every call), so an
      [async] function is a state transformer on a [World]; a rejected
      promise or a [throw] is the [Throw] result.
    - [logger] calls write to a winston logger, return nothing and take no
      part in control flow; they are left out. *)

From stdpp Require Import gmap strings list.
From Stdlib Require Import ZArith Ascii String DecimalString Lia.

Open Scope string_scope.
Open Scope list_scope.

(** ** Regular expressions (the fragment used by the live detector) *)

Module Regex.

(** A pattern is a sequence of terms: a literal character or the
    assertion [\b]. *)
Inductive term : Type :=
| Char (c : ascii)
| WordBoundary.

Record RegExp : Type := mkRegExp {
  source : list term;
  ignoreCase : bool
}.

Definition inRange (lo hi : N) (c : ascii) : bool :=
  (lo <=? N_of_ascii c)%N && (N_of_ascii c <=? hi)%N.

(** [IsWordChar]: the characters [a-z], [A-Z], [0-9] and [_]. *)
Definition isWordChar (c : ascii) : bool :=
  inRange 97 122 c || inRange 65 90 c || inRange 48 57 c
  || Ascii.eqb c "_"%char.

Definition toUpperCase (c : ascii) : ascii :=
  if inRange 97 122 c then ascii_of_N (N_of_ascii c - 32) else c.

(** [Canonicalize] of the ECMAScript matcher. *)
Definition canonicalize (ic : bool) (c : ascii) : ascii :=
  if ic then toUpperCase c else c.

Definition isWordCharOpt (o : option ascii) : bool :=
  match o with
  | Some c => isWordChar c
  | None => false
  end.

Definition peek (s : string) : option ascii :=
  match s with
  | String c _ => Some c
  | EmptyString => None
  end.

(** Match the pattern at the current position; [prev] is the character
    just before it (none at the start of the input). *)
Fixpoint matchHere (ic : bool) (p : list term) (prev : option ascii)
    (s : string) : bool :=
  match p with
  | [] => true
  | Char c :: p' =>
      match s with
      | String d s' =>
          Ascii.eqb (canonicalize ic c) (canonicalize ic d)
          && matchHere ic p' (Some d) s'
      | EmptyString => false
      end
  | WordBoundary :: p' =>
      xorb (isWordCharOpt prev) (isWordCharOpt (peek s))
      && matchHere ic p' prev s
  end.

(** Try every start position from left to right. *)
Fixpoint searchFrom (ic : bool) (p : list term) (prev : option ascii)
    (s : string) : bool :=
  matchHere ic p prev s
  || match s with
     | String d s' => searchFrom ic p (Some d) s'
     | EmptyString => false
     end.

(** [RegExp.prototype.test] of a pattern without the [g] or [y] flag. *)
Definition test (r : RegExp) (s : string) : bool :=
  searchFrom (ignoreCase r) (source r) None s.

Definition literal (s : string) : list term :=
  map Char (list_ascii_of_string s).

End Regex.

(** ** src/services/live-detector.ts *)

Module LiveDetector.
Import Regex.

(** [/#live\b/i] *)
Definition LIVE_TAG_PATTERN : RegExp :=
  mkRegExp (literal "#live" ++ [WordBoundary]) true.

Definition containsLiveTag (description : string) : bool :=
  test LIVE_TAG_PATTERN description.

End LiveDetector.

(** ** JavaScript numbers

    The numbers the code computes with are integers, [NaN] and the two
    infinities.  A finite number is kept as the integer it is; [Int 0]
    stands for both zeros, which the code only ever tests for truthiness. *)

Module JsNumber.

Inductive t : Type :=
| NaN
| Infinity (negative : bool)
| Int (z : Z).

(** The number for the integer [z]: the nearest double, a tie going to the
    even significand.  Up to 2^53 in magnitude every integer is a double;
    beyond, the 53 leading bits are kept and the rest is rounded; what
    rounds to 2^1024 or more is infinite. *)
Definition ofInteger (z : Z) : t :=
  let a := Z.abs z in
  if (a <? 2 ^ 53)%Z then Int z
  else
    let e := (Z.log2 a - 52)%Z in
    let q := (a / 2 ^ e)%Z in
    let r := (a mod 2 ^ e)%Z in
    let half := (2 ^ (e - 1))%Z in
    let q' :=
      if (r <? half)%Z then q
      else if (half <? r)%Z then (q + 1)%Z
      else if Z.even q then q else (q + 1)%Z in
    let v := (q' * 2 ^ e)%Z in
    if (2 ^ 1024 <=? v)%Z then Infinity (z <? 0)%Z
    else Int (Z.sgn z * v).

(** [a * b]: the exact product, rounded. *)
Definition mul (a b : t) : t :=
  match a, b with
  | NaN, _ | _, NaN => NaN
  | Int x, Int y => ofInteger (x * y)
  | Infinity n, Int y | Int y, Infinity n =>
      if (y =? 0)%Z then NaN else Infinity (xorb n (y <? 0)%Z)
  | Infinity n, Infinity m => Infinity (xorb n m)
  end.

(** [ToBoolean]: [NaN] and the zeros are falsy. *)
Definition truthy (a : t) : bool :=
  match a with
  | NaN => false
  | Infinity _ => true
  | Int z => negb (z =? 0)%Z
  end.

(** [a || b] *)
Definition or (a b : t) : t := if truthy a then a else b.

End JsNumber.

Coercion JsNumber.Int : Z >-> JsNumber.t.
Bind Scope Z_scope with JsNumber.t.

(** ** JavaScript values, errors and the world the services run in *)

(** The part of an axios error response the retry loop reads:
    [error.response.status] and [error.response.headers['retry-after']]. *)
Record ErrorResponse : Type := mkErrorResponse {
  status : Z;
  retry_after : option string
}.

Inductive JsError : Type :=
| AxiosError (message : string) (response : option ErrorResponse)
| Error (message : string).

Definition message_of (e : JsError) : string :=
  match e with
  | AxiosError m _ => m
  | Error m => m
  end.

(** [try]/[catch] outcome of an awaited call. *)
Inductive Res (A : Type) : Type :=
| Ok (a : A)
| Throw (e : JsError).
Arguments Ok {A} a.
Arguments Throw {A} e.

(** Effects that leave the process, in the order they happen. *)
Inductive Event : Type :=
| RedisExists (key : string)
| RedisSetex (key : string) (seconds : Z) (value : string)
| RedisDel (key : string)
| AxiosGet (url : string) (id : string)
| SendMessage (chatId : string) (text : string)
| Sleep (ms : JsNumber.t).

(** [now] is the clock in milliseconds; [redis] is the keyspace of the
    Redis server, every key with its value and the instant it expires;
    [calls] counts the requests sent so far to Redis, YouTube and Telegram;
    [trace] lists the effects so far. *)
Record World : Type := mkWorld {
  now : Z;
  redis : gmap string (string * Z);
  calls : nat;
  trace : list Event
}.

(** *** Types of src/types/index.ts *)

Module PlatformLinks.
Record t : Type := mk {
  youtube : string;
  x : string;
  kick : string;
  twitch : string;
  instagram : string;
  linkedin : string
}.
End PlatformLinks.

Record VideoMetadata : Type := mkVideoMetadata {
  id : string;
  title : string;
  description : string;
  publishedAt : string;
  thumbnailUrl : option string;
  channelTitle : string;
  channelId : string
}.

(** Dates are kept as the clock value they were taken at. *)
Record LivestreamNotification : Type := mkLivestreamNotification {
  video : VideoMetadata;
  platforms : PlatformLinks.t;
  detectedAt : Z
}.

Record NotificationResult : Type := mkNotificationResult {
  success : bool;
  chatId : string;
  error : option string;
  timestamp : Z
}.

(** One parsed [<entry>]; [yt_videoId] is [entry['yt:videoId']]. *)
Record FeedEntry : Type := mkFeedEntry {
  yt_videoId : option (list string);
  entry_title : list string;
  published : list string;
  updated : list string
}.

(** [parsedData.feed.entry]: missing (or falsy), an array, or one object. *)
Inductive EntryField : Type :=
| NoEntry
| EntryArray (es : list FeedEntry)
| EntryValue (e : FeedEntry).

Record Feed : Type := mkFeed { entry : EntryField }.

(** [feed] is [None] when [parsedData.feed] is missing or falsy. *)
Record WebSubPayload : Type := mkWebSubPayload { feed : option Feed }.

Record AppConfig : Type := mkAppConfig {
  youtube_channelId : string;
  youtube_apiKey : string;
  telegram_botToken : string;
  telegram_chatIds : list string;
  config_platforms : PlatformLinks.t;
  server_port : Z;
  server_webhookSecret : string;
  logging_level : string;
  redis_url : string
}.

(** *** The YouTube Data API response, as far as the code reads it *)

Record Thumbnails : Type := mkThumbnails {
  high : option string;
  medium : option string
}.

Record Snippet : Type := mkSnippet {
  snippet_title : string;
  snippet_description : string;
  snippet_publishedAt : string;
  thumbnails : option Thumbnails;
  snippet_channelTitle : string;
  snippet_channelId : string
}.

Record Item : Type := mkItem { snippet : option Snippet }.

(** [items] is [response.data.items]. *)
Record AxiosResponse : Type := mkAxiosResponse { items : option (list Item) }.

(** *** The collaborators outside the process

    The run is sequential, so the answer of a collaborator is a function of
    the position of the request in the run (and of the request): the [n]-th
    request, if it goes to Redis, is answered iff [redis_up n]; if it is a
    GET to YouTube it yields [axios_get n url id]; if it is a Telegram
    [sendMessage] it is delivered iff [api_sendMessage n chat text] is
    [None].  [setTimeout_elapsed ms] is how long the runtime's timer for
    [ms] milliseconds takes; [toLocaleString] renders a date for the
    [tr-TR] locale; [parseStringPromise] is xml2js ([inr None] is a
    [null] result, [inl] a rejected parse). *)
Record Services : Type := mkServices {
  redis_up : nat -> bool;
  axios_get : nat -> string -> string -> JsError + AxiosResponse;
  api_sendMessage : nat -> string -> string -> option JsError;
  setTimeout_elapsed : JsNumber.t -> Z;
  toLocaleString : string -> string;
  parseStringPromise : string -> JsError + option WebSubPayload
}.

(** ** Awaited computations *)

Definition M (A : Type) : Type := World -> Res A * World.

Definition ret {A : Type} (a : A) : M A := fun w => (Ok a, w).

Definition throw {A : Type} (e : JsError) : M A := fun w => (Throw e, w).

Definition bind {A B : Type} (m : M A) (k : A -> M B) : M B :=
  fun w =>
    match m w with
    | (Ok a, w') => k a w'
    | (Throw e, w') => (Throw e, w')
    end.

Definition try_catch {A : Type} (m : M A) (handler : JsError -> M A) : M A :=
  fun w =>
    match m w with
    | (Ok a, w') => (Ok a, w')
    | (Throw e, w') => handler e w'
    end.

Notation "'let*' x ':=' c1 'in' c2" := (bind c1 (fun x => c2))
  (at level 10, x pattern, c1 at level 100, c2 at level 200).

(** One request leaves the process: it is counted and recorded. *)
Definition request (ev : Event) (w : World) : World :=
  mkWorld (now w) (redis w) (S (calls w)) (trace w ++ [ev]).

Definition set_redis (m : gmap string (string * Z)) (w : World) : World :=
  mkWorld (now w) m (calls w) (trace w).

(** [new Promise(resolve => setTimeout(resolve, ms))] *)
Definition sleep (sv : Services) (ms : JsNumber.t) : M unit :=
  fun w =>
    (Ok tt,
     mkWorld (now w + setTimeout_elapsed sv ms) (redis w) (calls w)
       (trace w ++ [Sleep ms])).

(** [new Date()] *)
Definition new_Date : M Z := fun w => (Ok (now w), w).

(** ** The Redis server (ioredis commands used by the code)

    A key with a time to live is gone once the clock is past its expiry
    instant (the server tests [now > when]). *)

Module Redis.

Definition connection_error : JsError := Error "Connection is closed.".

Definition live (w : World) (key : string) : bool :=
  match redis w !! key with
  | Some (_, expiry) => (now w <=? expiry)%Z
  | None => false
  end.

(** [EXISTS key] *)
Definition exists_ (sv : Services) (key : string) : M Z :=
  fun w =>
    let w' := request (RedisExists key) w in
    if redis_up sv (calls w)
    then (Ok (if live w key then 1%Z else 0%Z), w')
    else (Throw connection_error, w').

(** [SETEX key seconds value] *)
Definition setex (sv : Services) (key : string) (seconds : Z)
    (value : string) : M unit :=
  fun w =>
    let w' := request (RedisSetex key seconds value) w in
    if redis_up sv (calls w)
    then (Ok tt,
          set_redis (<[key := (value, (now w + seconds * 1000)%Z)]> (redis w)) w')
    else (Throw connection_error, w').

(** [DEL key] *)
Definition del (sv : Services) (key : string) : M unit :=
  fun w =>
    let w' := request (RedisDel key) w in
    if redis_up sv (calls w)
    then (Ok tt, set_redis (delete key (redis w)) w')
    else (Throw connection_error, w').

End Redis.

(** ** src/utils/deduplication.ts *)

Module Deduplication.
Section Deduplication.
Context (sv : Services).

Definition KEY_PREFIX : string := "youtube-livestream:".
Definition TTL_SECONDS : Z := 24 * 60 * 60.

Definition hasBeenNotified (videoId : string) : M bool :=
  try_catch
    (let key := KEY_PREFIX +:+ videoId in
     let* result := Redis.exists_ sv key in
     ret (result =? 1)%Z)
    (fun _ => ret false).

Definition markAsNotified (videoId : string) : M unit :=
  try_catch
    (let key := KEY_PREFIX +:+ videoId in
     Redis.setex sv key TTL_SECONDS "1")
    (fun _ => ret tt).

Definition clearNotification (videoId : string) : M unit :=
  try_catch
    (let key := KEY_PREFIX +:+ videoId in
     Redis.del sv key)
    (fun _ => ret tt).

End Deduplication.
End Deduplication.

(** ** JavaScript built-ins used by the retry loops *)

Module Js.

(** [StrWhiteSpaceChar], the white space and the line terminators: tab,
    line feed, vertical tab, form feed, carriage return, space and the
    no-break space U+00A0 (character 160). *)
Definition isStrWhiteSpace (c : ascii) : bool :=
  Regex.inRange 9 13 c || Ascii.eqb c " "%char || Ascii.eqb c "160"%char.

Fixpoint trimStart (s : string) : string :=
  match s with
  | String c s' => if isStrWhiteSpace c then trimStart s' else s
  | EmptyString => EmptyString
  end.

Definition isDigit (c : ascii) : bool := Regex.inRange 48 57 c.

Definition digitValue (c : ascii) : Z := Z.of_N (N_of_ascii c) - 48.

(** Value of the longest prefix of decimal digits. *)
Fixpoint parseDigits (acc : Z) (s : string) : Z :=
  match s with
  | String c s' =>
      if isDigit c then parseDigits (acc * 10 + digitValue c) s' else acc
  | EmptyString => acc
  end.

(** [parseInt(s, 10)]: leading white space is skipped, then a sign, then
    the longest run of decimal digits is read ([NaN] when there is none);
    the result is the double nearest to the integer the digits denote, as
    V8 and JavaScriptCore compute it. *)
Definition parseInt10 (s : string) : JsNumber.t :=
  let s1 := trimStart s in
  let '(sign, s2) :=
    match s1 with
    | String "-"%char r => ((-1)%Z, r)
    | String "+"%char r => (1%Z, r)
    | _ => (1%Z, s1)
    end in
  match s2 with
  | String c _ =>
      if isDigit c then JsNumber.ofInteger (sign * parseDigits 0 s2)
      else JsNumber.NaN
  | EmptyString => JsNumber.NaN
  end.

(** A value that is a string or a number. *)
Inductive StrOrNum : Type :=
| Str (s : string)
| Num (n : Z).

(** [Number.prototype.toString] on an integer. *)
Definition toString (n : Z) : string := NilZero.string_of_int (Z.to_int n).

(** [parseInt(v as string, 10)]: the argument is converted to a string
    first. *)
Definition parseInt (v : StrOrNum) : JsNumber.t :=
  match v with
  | Str s => parseInt10 s
  | Num n => parseInt10 (toString n)
  end.

(** [h || d] for a header that may be missing; the empty string is
    falsy. *)
Definition header_or (h : option string) (d : Z) : StrOrNum :=
  match h with
  | Some EmptyString => Num d
  | Some s => Str s
  | None => Num d
  end.

(** [a || b] for strings that may be [undefined]. *)
Definition str_or (a b : option string) : option string :=
  match a with
  | Some EmptyString => b
  | Some s => Some s
  | None => b
  end.

(** [n * k || d] on numbers. *)
Definition times_or (n : JsNumber.t) (k d : Z) : JsNumber.t :=
  JsNumber.or (JsNumber.mul n k) d.

End Js.

(** ** src/services/youtube.ts *)

Module YouTube.
Section YouTube.
Context (sv : Services).

Definition API_BASE_URL : string := "https://www.googleapis.com/youtube/v3".
Definition MAX_RETRIES : nat := 3.
Definition RETRY_DELAY_MS : Z := 1000.

(** [axios.isAxiosError(error) && error.response?.status === 429] *)
Definition isRateLimited (e : JsError) : option ErrorResponse :=
  match e with
  | AxiosError _ (Some r) => if (status r =? 429)%Z then Some r else None
  | _ => None
  end.

(** The delay of the rate-limited branch of the [catch] block. *)
Definition rateLimitDelay (r : ErrorResponse) (attempt : nat) : JsNumber.t :=
  let retryAfter := Js.header_or (retry_after r) RETRY_DELAY_MS in
  Js.times_or (Js.parseInt retryAfter) 1000 (RETRY_DELAY_MS * Z.of_nat attempt).

(** The [catch] block of the retry loop. *)
Definition onRequestError (e : JsError) (attempt : nat) : M unit :=
  match isRateLimited e with
  | Some r => sleep sv (rateLimitDelay r attempt)
  | None =>
      if (attempt <? MAX_RETRIES)%nat
      then sleep sv (RETRY_DELAY_MS * Z.of_nat attempt)
      else ret tt
  end.

(** The loop [for (attempt = 1; attempt <= MAX_RETRIES; attempt++)]
    with [remaining = MAX_RETRIES + 1 - attempt] iterations to go, then
    [throw lastError!]. *)
Fixpoint attempts {T : Type} (requestFn : M T) (remaining attempt : nat)
    (lastError : option JsError) : M T :=
  match remaining with
  | O => throw (default (Error "undefined") lastError)
  | S remaining' =>
      try_catch requestFn
        (fun e =>
           let* _ := onRequestError e attempt in
           attempts requestFn remaining' (S attempt) (Some e))
  end.

Definition makeRequestWithRetry {T : Type} (requestFn : M T) : M T :=
  attempts requestFn MAX_RETRIES 1 None.

(** [axios.get(url, { params: { part: 'snippet', id, key } })] *)
Definition axios_get_videos (videoId : string) : M AxiosResponse :=
  fun w =>
    let url := API_BASE_URL +:+ "/videos" in
    let w' := request (AxiosGet url videoId) w in
    match axios_get sv (calls w) url videoId with
    | inl e => (Throw e, w')
    | inr r => (Ok r, w')
    end.

Definition getVideoMetadata (videoId : string) : M (option VideoMetadata) :=
  try_catch
    (let* response := makeRequestWithRetry (axios_get_videos videoId) in
     match items response with
     | None | Some [] => ret None
     | Some (item :: _) =>
         match snippet item with
         | None => throw (Error "TypeError: undefined is not an object")
         | Some sn =>
             ret (Some
               (mkVideoMetadata videoId
                  (snippet_title sn)
                  (snippet_description sn)
                  (snippet_publishedAt sn)
                  (Js.str_or (t ← thumbnails sn; high t)
                             (t ← thumbnails sn; medium t))
                  (snippet_channelTitle sn)
                  (snippet_channelId sn)))
         end
     end)
    (fun _ => ret None).

End YouTube.
End YouTube.

(** ** src/services/live-detector.ts, the asynchronous entry point *)

Module LiveDetectorService.

(** The [try] body computes [containsLiveTag] (the context extraction
    only feeds the log line). *)
Definition shouldNotifyForVideo (videoMetadata : VideoMetadata) : M bool :=
  try_catch
    (let hasLiveTag := LiveDetector.containsLiveTag (description videoMetadata) in
     ret hasLiveTag)
    (fun _ => ret false).

End LiveDetectorService.

(** ** src/services/telegram.ts *)

Module Telegram.
Section Telegram.
Context (sv : Services) (config : AppConfig).

Definition MAX_RETRIES : nat := 3.
Definition RETRY_DELAY_MS : Z := 2000.

Definition nl : string := String "010"%char EmptyString.
Definition dq : string := String "034"%char EmptyString.

(** The template literal after [.trim()]. *)
Definition formatNotificationMessage (notification : LivestreamNotification)
    : string :=
  let video := video notification in
  let platforms := platforms notification in
  let formattedDate := toLocaleString sv (publishedAt video) in
  let a (href label : string) : string :=
    "<a href=" +:+ dq +:+ href +:+ dq +:+ ">" +:+ label +:+ "</a>" in
  "🔴 <b>YAYINDA!</b>" +:+ nl +:+
  nl +:+
  "<b>" +:+ title video +:+ "</b>" +:+ nl +:+
  nl +:+
  "📅 " +:+ formattedDate +:+ nl +:+
  nl +:+
  "📺 <b>İzleme Linkleri:</b>" +:+ nl +:+
  "🔹 YouTube: " +:+ a (PlatformLinks.youtube platforms) "YouTube'da İzle" +:+ nl +:+
  "🔹 X (Twitter): " +:+ a (PlatformLinks.x platforms) "X'te İzle" +:+ nl +:+
  "🔹 Kick: " +:+ a (PlatformLinks.kick platforms) "Kick'te İzle" +:+ nl +:+
  "🔹 Twitch: " +:+ a (PlatformLinks.twitch platforms) "Twitch'te İzle" +:+ nl +:+
  "🔹 Instagram: " +:+ a (PlatformLinks.instagram platforms) "Instagram'da İzle" +:+ nl +:+
  "🔹 LinkedIn: " +:+ a (PlatformLinks.linkedin platforms) "LinkedIn'de İzle" +:+ nl +:+
  nl +:+
  "👉 Canlı yayını kaçırmayın! Tüm platformlarda aynı anda yayındayız." +:+ nl +:+
  nl +:+
  "#1453ai #yayın #canlı".

(** [this.bot.api.sendMessage(chatId, message, { parse_mode: 'HTML', ... })] *)
Definition bot_api_sendMessage (chatId : string) (message : string) : M unit :=
  fun w =>
    let w' := request (SendMessage chatId message) w in
    match api_sendMessage sv (calls w) chatId message with
    | None => (Ok tt, w')
    | Some e => (Throw e, w')
    end.

(** [lastError?.message || 'Unknown error'] *)
Definition errorText (lastError : option JsError) : string :=
  default "Unknown error" (Js.str_or (message_of <$> lastError) None).

(** The loop [for (attempt = 1; attempt <= MAX_RETRIES; attempt++)] of
    [sendToChatWithRetry] with [remaining] iterations to go, followed by
    the failure result. *)
Fixpoint sendAttempts (chatId : string) (notification : LivestreamNotification)
    (timestamp : Z) (remaining attempt : nat) (lastError : option JsError)
    : M NotificationResult :=
  match remaining with
  | O =>
      ret (mkNotificationResult false chatId (Some (errorText lastError)) timestamp)
  | S remaining' =>
      try_catch
        (let message := formatNotificationMessage notification in
         let* _ := bot_api_sendMessage chatId message in
         ret (mkNotificationResult true chatId None timestamp))
        (fun e =>
           let* _ :=
             (if (attempt <? MAX_RETRIES)%nat
              then sleep sv (RETRY_DELAY_MS * Z.of_nat attempt)
              else ret tt) in
           sendAttempts chatId notification timestamp remaining' (S attempt) (Some e))
  end.

Definition sendToChatWithRetry (chatId : string)
    (notification : LivestreamNotification) : M NotificationResult :=
  let* timestamp := new_Date in
  sendAttempts chatId notification timestamp MAX_RETRIES 1 None.

(** The loop [for (const chatId of config.telegram.chatIds)], pushing
    onto [results]. *)
Fixpoint forEachChat (notification : LivestreamNotification)
    (chatIds : list string) (results : list NotificationResult)
    : M (list NotificationResult) :=
  match chatIds with
  | [] => ret results
  | chatId :: rest =>
      let* result := sendToChatWithRetry chatId notification in
      forEachChat notification rest (results ++ [result])
  end.

Definition sendLivestreamNotification (notification : LivestreamNotification)
    : M (list NotificationResult) :=
  forEachChat notification (telegram_chatIds config) [].

End Telegram.
End Telegram.

(** ** src/handlers/websub.ts *)

Module WebSub.
Section WebSub.
Context (sv : Services) (config : AppConfig).

Definition TOPIC_URL : string :=
  "https://www.youtube.com/xml/feeds/videos.xml?channel_id="
  +:+ youtube_channelId config.

(** What [c.text(body, status)] answers. *)
Record Response : Type := text { body : string; status_code : Z }.

(** The request context [c]: the [X-Hub-Signature] header and the
    outcome of reading the body with [c.req.text()]. *)
Record PostRequest : Type := mkPostRequest {
  header_X_Hub_Signature : option string;
  req_text : JsError + string
}.

(** [c.req.query()] is the map of the query parameters. *)
Definition handleSubscriptionVerification (query : gmap string string)
    : Response :=
  let challenge := query !! "hub.challenge" in
  let mode := query !! "hub.mode" in
  let topic := query !! "hub.topic" in
  if bool_decide (mode = Some "subscribe") && bool_decide (topic = Some TOPIC_URL)
  then text (default "" (Js.str_or challenge (Some ""))) 200
  else text "Invalid request" 400.

Definition parseXmlPayload (xmlString : string) : M (option WebSubPayload) :=
  try_catch
    (match parseStringPromise sv xmlString with
     | inl e => throw e
     | inr result => ret result
     end)
    (fun _ => ret None).

(** [entry['yt:videoId']?.[0]], [None] when it is [undefined]. *)
Definition videoId_of (e : FeedEntry) : option string :=
  l ← yt_videoId e; head l.

Definition successfulSends (results : list NotificationResult) : nat :=
  List.length (filter (fun r => success r = true) results).

Definition failedSends (results : list NotificationResult) : nat :=
  List.length (filter (fun r => success r = false) results).

Definition processFeedEntry (e : FeedEntry) : M unit :=
  try_catch
    (match videoId_of e with
     | None | Some EmptyString => ret tt
     | Some videoId =>
         let* alreadyNotified := Deduplication.hasBeenNotified sv videoId in
         if alreadyNotified then ret tt else
         let* videoMetadata := YouTube.getVideoMetadata sv videoId in
         match videoMetadata with
         | None => ret tt
         | Some videoMetadata =>
             let* shouldNotify :=
               LiveDetectorService.shouldNotifyForVideo videoMetadata in
             if negb shouldNotify then ret tt else
             let* detectedAt := new_Date in
             let notification :=
               mkLivestreamNotification videoMetadata (config_platforms config)
                 detectedAt in
             let* results :=
               Telegram.sendLivestreamNotification sv config notification in
             Deduplication.markAsNotified sv videoId
         end
     end)
    (fun _ => ret tt).

(** The loop [for (const entry of entries)]. *)
Fixpoint forEachEntry (entries : list FeedEntry) : M unit :=
  match entries with
  | [] => ret tt
  | e :: rest =>
      let* _ := processFeedEntry e in
      forEachEntry rest
  end.

Definition handleWebSubCallback (c : PostRequest) : M Response :=
  try_catch
    (let signature := header_X_Hub_Signature c in
     let* body :=
       (match req_text c with
        | inl e => throw e
        | inr b => ret b
        end) in
     let* parsedData := parseXmlPayload body in
     match parsedData with
     | None => ret (text "Invalid payload" 400)
     | Some parsedData =>
         match feed parsedData with
         | None => ret (text "Invalid payload" 400)
         | Some f =>
             match entry f with
             | NoEntry => ret (text "Invalid payload" 400)
             | EntryArray es =>
                 let* _ := forEachEntry es in ret (text "OK" 200)
             | EntryValue e =>
                 let* _ := forEachEntry [e] in ret (text "OK" 200)
             end
         end
     end)
    (fun _ => ret (text "Internal Server Error" 500)).

End WebSub.
End WebSub.

(** ** Vocabulary of the specification *)

(** *** Duplicate suppressor under a controllable clock *)

Module Clock.

(** What may happen to the store between a mark and a later query: the
    test clock is moved forward, or another identifier is marked,
    cleared or queried. *)
Inductive StoreOp : Type :=
| Tick (dt : Z)
| Mark (videoId : string)
| Clear (videoId : string)
| Query (videoId : string).

Definition advance (dt : Z) (w : World) : World :=
  mkWorld (now w + dt) (redis w) (calls w) (trace w).

Definition runOp (sv : Services) (op : StoreOp) (w : World) : World :=
  match op with
  | Tick dt => advance dt w
  | Mark v => snd (Deduplication.markAsNotified sv v w)
  | Clear v => snd (Deduplication.clearNotification sv v w)
  | Query v => snd (Deduplication.hasBeenNotified sv v w)
  end.

Definition runOps (sv : Services) (ops : list StoreOp) (w : World) : World :=
  foldl (fun w op => runOp sv op w) w ops.

Definition elapsed (ops : list StoreOp) : Z :=
  foldr (fun op acc => match op with Tick dt => dt + acc | _ => acc end)%Z 0%Z ops.

(** The operation leaves the entry of [videoId] alone and does not move
    the clock backwards. *)
Definition foreign (videoId : string) (op : StoreOp) : Prop :=
  match op with
  | Tick dt => (0 <= dt)%Z
  | Mark v | Clear v => v ≠ videoId
  | Query _ => True
  end.

End Clock.

(** *** Counting effects in a trace *)

Definition countb (p : Event -> bool) (evs : list Event) : nat :=
  List.length (List.filter p evs).

(** The effects a computation adds to the trace when run from [w]. *)
Definition events_of {A : Type} (m : M A) (w : World) : list Event :=
  drop (List.length (trace w)) (trace (snd (m w))).

(** Every run of [m] appends at most [n] effects selected by [p]. *)
Definition emits_at_most (p : Event -> bool) {A : Type} (m : M A) (n : nat)
    : Prop :=
  forall w, exists evs,
    trace (snd (m w)) = trace w ++ evs /\ countb p evs <= n.

(** The stages of the pipeline as they show in the trace: the duplicate
    check is the [EXISTS] on the key of the identifier, a metadata fetch
    attempt is a GET for the identifier, and a completed fan-out is
    followed by the [SETEX] on the key. *)
Definition isDuplicateCheck (videoId : string) (ev : Event) : bool :=
  match ev with
  | RedisExists k => bool_decide (k = Deduplication.KEY_PREFIX +:+ videoId)
  | _ => false
  end.

Definition isFetchAttempt (videoId : string) (ev : Event) : bool :=
  match ev with
  | AxiosGet _ v => bool_decide (v = videoId)
  | _ => false
  end.

Definition isMark (videoId : string) (ev : Event) : bool :=
  match ev with
  | RedisSetex k _ _ => bool_decide (k = Deduplication.KEY_PREFIX +:+ videoId)
  | _ => false
  end.

Definition isAnyDuplicateCheck (ev : Event) : bool :=
  match ev with RedisExists _ => true | _ => false end.

Definition isAnyFetchAttempt (ev : Event) : bool :=
  match ev with AxiosGet _ _ => true | _ => false end.

Definition isAnyMark (ev : Event) : bool :=
  match ev with RedisSetex _ _ _ => true | _ => false end.

Definition isSleep (ev : Event) : bool :=
  match ev with Sleep _ => true | _ => false end.

Definition isSend (ev : Event) : bool :=
  match ev with SendMessage _ _ => true | _ => false end.

(** The entry carries a usable identifier equal to [videoId]. *)
Definition names (videoId : string) (e : FeedEntry) : bool :=
  match WebSub.videoId_of e with
  | Some EmptyString | None => false
  | Some v => bool_decide (v = videoId)
  end.

(** Number of entries of the payload that carry [videoId]. *)
Definition occurrences (videoId : string) (entries : list FeedEntry) : nat :=
  List.length (List.filter (names videoId) entries).

(** *** Backoff of the metadata fetcher *)

(** The delay the [catch] block of the fetcher sleeps after a failed
    attempt that is followed by another one. *)
Definition backoff (e : JsError) (attempt : nat) : JsNumber.t :=
  match YouTube.isRateLimited e with
  | Some r => YouTube.rateLimitDelay r attempt
  | None => (YouTube.RETRY_DELAY_MS * Z.of_nat attempt)%Z
  end.

(** *** Outcomes of the fan-out, read off the collaborators *)

(** Is the send to [chat] delivered when it is request number [n]? *)
Definition delivered (sv : Services) (chat text : string) (n : nat) : bool :=
  match api_sendMessage sv n chat text with
  | None => true
  | Some _ => false
  end.

(** With [remaining] attempts left for [chat], the next being request
    number [n]: is one of them delivered, and how many are made. *)
Fixpoint delivered_within (sv : Services) (chat text : string)
    (n remaining : nat) : bool :=
  match remaining with
  | O => false
  | S r => delivered sv chat text n || delivered_within sv chat text (S n) r
  end.

Fixpoint sends_used (sv : Services) (chat text : string)
    (n remaining : nat) : nat :=
  match remaining with
  | O => O
  | S r =>
      if delivered sv chat text n then 1
      else S (sends_used sv chat text (S n) r)
  end.

(** Every destination in turn gets its own attempts (at most three); the
    attempts of the next destination start where those of the previous one
    stopped. *)
Fixpoint fanout_outcomes (sv : Services) (text : string) (n : nat)
    (chats : list string) : list (string * bool) :=
  match chats with
  | [] => []
  | chat :: rest =>
      (chat, delivered_within sv chat text n Telegram.MAX_RETRIES)
      :: fanout_outcomes sv text
           (n + sends_used sv chat text n Telegram.MAX_RETRIES) rest
  end.

Definition outcome (r : NotificationResult) : string * bool :=
  (chatId r, success r).

(** *** Structure of a parsed payload *)

(** The entries the callback loops over, [None] when the parse failed,
    returned [null], or the [feed] or its [entry] is missing. *)
Definition payload_entries (parsed : JsError + option WebSubPayload)
    : option (list FeedEntry) :=
  match parsed with
  | inr (Some parsedData) =>
      match feed parsedData with
      | Some f =>
          match entry f with
          | NoEntry => None
          | EntryArray es => Some es
          | EntryValue e => Some [e]
          end
      | None => None
      end
  | _ => None
  end.

(** *** The marker token in a description *)

Module Marker.

Definition token : string := "#live".

(** The text with its ASCII letters in upper case. *)
Fixpoint upper (s : string) : string :=
  match s with
  | String c s' => String (Regex.toUpperCase c) (upper s')
  | EmptyString => EmptyString
  end.

(** [t] is the token in some letter case. *)
Definition isToken (t : string) : bool := String.eqb (upper t) (upper token).

(** The words of a text: the maximal runs between white space ([cur] is
    the run being read). *)
Fixpoint split_ws (cur : string) (s : string) : list string :=
  match s with
  | EmptyString => [cur]
  | String c s' =>
      if Js.isStrWhiteSpace c then cur :: split_ws EmptyString s'
      else split_ws (cur +:+ String c EmptyString) s'
  end.

Definition words (s : string) : list string := split_ws EmptyString s.

(** The token is one of the words of the description. *)
Definition occursAsWord (d : string) : bool := existsb isToken (words d).

(** The token is at the start of the text, in some letter case. *)
Definition startsWithToken (s : string) : bool :=
  isToken (String.substring 0 (String.length token) s)
  && (String.length token <=? String.length s)%nat.

(** The token is somewhere in the text. *)
Fixpoint occurs (s : string) : bool :=
  startsWithToken s
  || match s with
     | String _ s' => occurs s'
     | EmptyString => false
     end.

(** The token is in the description, but never as a word of its own. *)
Definition occursOnlyInsideLongerWord (d : string) : bool :=
  occurs d && negb (occursAsWord d).

(** No word character follows: the text [s] after the token is empty or
    starts with a character other than a letter, a digit or [_]. *)
Definition boundaryAhead (s : string) : Prop :=
  Regex.isWordCharOpt (Regex.peek s) = false.

End Marker.

(** *** Reading the specification on a trace *)

(** The pipeline ran at most once for [videoId] beyond its duplicate
    check: the attempts of one metadata fetch, one fan-out with its mark. *)
Definition once_per_identifier (evs : list Event) (videoId : string) : Prop :=
  countb (isFetchAttempt videoId) evs <= YouTube.MAX_RETRIES
  /\ countb (isMark videoId) evs <= 1.

(** The rate-limit delay is set by the response (its header) alone: it is
    the same whatever the attempt number. *)
Definition delay_set_by_header (r : ErrorResponse) : Prop :=
  forall attempt attempt' : nat,
    YouTube.rateLimitDelay r attempt = YouTube.rateLimitDelay r attempt'.

(** What one entry may add to the effects selected by [p]: its duplicate
    check, the attempts of its metadata fetch and its mark. *)
Definition entry_budget (p : Event -> bool) (e : FeedEntry) : nat :=
  match WebSub.videoId_of e with
  | None | Some EmptyString => 0
  | Some videoId =>
      Nat.b2n (p (RedisExists (Deduplication.KEY_PREFIX +:+ videoId)))
      + (YouTube.MAX_RETRIES
         * Nat.b2n (p (AxiosGet (YouTube.API_BASE_URL +:+ "/videos") videoId))
         + Nat.b2n (p (RedisSetex (Deduplication.KEY_PREFIX +:+ videoId)
                         Deduplication.TTL_SECONDS "1")))
  end.

(** One run of the downstream pipeline for [videoId], stage by stage as
    the specification lists them: the duplicate check; unless it reports
    the identifier as notified, one metadata fetch; when there is metadata
    and the tag filter accepts its description, one fan-out and then the
    mark.  The result is the world the run leaves. *)
Definition pipeline_run (sv : Services) (config : AppConfig)
    (videoId : string) (w : World) : World :=
  match Deduplication.hasBeenNotified sv videoId w with
  | (Ok true, w1) => w1
  | (_, w1) =>
      match YouTube.getVideoMetadata sv videoId w1 with
      | (Ok (Some md), w2) =>
          if LiveDetector.containsLiveTag (description md)
          then
            let notification :=
              mkLivestreamNotification md (config_platforms config) (now w2) in
            let w3 :=
              snd (Telegram.sendLivestreamNotification sv config notification w2) in
            snd (Deduplication.markAsNotified sv videoId w3)
          else w2
      | (_, w2) => w2
      end
  end.

(** The identifier the pipeline is run for: the first [yt:videoId] of the
    entry, when there is one and it is not empty. *)
Definition identifier (e : FeedEntry) : option string :=
  match WebSub.videoId_of e with
  | None | Some EmptyString => None
  | Some videoId => Some videoId
  end.

(** What the specification asks of one entry: one run of the pipeline for
    its identifier, nothing when it has none. *)
Definition entry_run (sv : Services) (config : AppConfig) (e : FeedEntry)
    (w : World) : World :=
  match identifier e with
  | Some videoId => pipeline_run sv config videoId w
  | None => w
  end.

(** The entries of a payload one after the other, each run once, in the
    order of the payload. *)
Definition payload_run (sv : Services) (config : AppConfig)
    (entries : list FeedEntry) (w : World) : World :=
  foldl (fun w e => entry_run sv config e w) w entries.

(** Effects only ever get appended. *)
Definition extends {A : Type} (m : M A) : Prop :=
  emits_at_most (fun _ => false) m 0.

(** The first effect of [m] is [ev]. *)
Definition starts_with (ev : Event) {A : Type} (m : M A) : Prop :=
  forall w, exists evs, trace (snd (m w)) = trace w ++ ev :: evs.

(** The character before the position reached after reading [t]. *)
Definition lastOr (prev : option ascii) (t : string) : option ascii :=
  foldl (fun _ c => Some c) prev (list_ascii_of_string t).

(** ** Scenarios *)

Module Scenario.

Definition links : PlatformLinks.t :=
  PlatformLinks.mk "https://youtube.com/@1453ai" "https://x.com/1453ai"
    "https://kick.com/1453ai" "https://twitch.tv/1453ai"
    "https://instagram.com/1453ai" "https://linkedin.com/company/1453ai".

Definition cfg : AppConfig :=
  mkAppConfig "UC1453" "key" "token" ["A"; "B"; "C"] links 3000 "secret"
    "info" "redis://localhost:6379".

Definition w0 : World := mkWorld 0 ∅ 0 [].

(** Timers like those of Node: a delay that is not between 1 and
    2^31 - 1 milliseconds is taken as 1 millisecond. *)
Definition timer (ms : JsNumber.t) : Z :=
  match ms with
  | JsNumber.Int z => if (1 <=? z)%Z && (z <=? 2147483647)%Z then z else 1%Z
  | _ => 1%Z
  end.

Definition response (description : string) : AxiosResponse :=
  mkAxiosResponse
    (Some [mkItem (Some (mkSnippet "Episode 12" description
                           "2024-05-01T18:00:00Z" None "1453 AI" "UC1453"))]).

Definition entry_abc : FeedEntry := mkFeedEntry (Some ["abc123"]) [] [] [].

(** A payload that carries the same entry twice. *)
Definition payload_twice : WebSubPayload :=
  mkWebSubPayload (Some (mkFeed (EntryArray [entry_abc; entry_abc]))).

Definition post : WebSub.PostRequest :=
  WebSub.mkPostRequest None (inr "<feed>...</feed>").

(** Redis answers, the video carries the tag, destination B refuses
    every message. *)
Definition svB : Services :=
  mkServices (fun _ => true)
    (fun _ _ _ => inr (response "new episode #live today"))
    (fun _ chat _ =>
       if bool_decide (chat = "B") then Some (Error "Forbidden") else None)
    timer (fun s => s) (fun _ => inr (Some payload_twice)).

(** Redis answers, the video does not carry the tag. *)
Definition svUntagged : Services :=
  mkServices (fun _ => true)
    (fun _ _ _ => inr (response "recorded yesterday"))
    (fun _ _ _ => None)
    timer (fun s => s) (fun _ => inr (Some payload_twice)).

(** Redis never answers; everything else works. *)
Definition svDown : Services :=
  mkServices (fun _ => false)
    (fun _ _ _ => inr (response "new episode #live today"))
    (fun _ _ _ => None)
    timer (fun s => s) (fun _ => inr (Some payload_twice)).

(** YouTube fails the first request with a network error, the second
    with a 429 that asks for 7 seconds, and answers the third. *)
Definition svFlaky : Services :=
  mkServices (fun _ => true)
    (fun n _ _ =>
       match n with
       | 0 => inl (Error "socket hang up")
       | 1 => inl (AxiosError "Request failed with status code 429"
                     (Some (mkErrorResponse 429 (Some "7"))))
       | _ => inr (response "new episode #live today")
       end)
    (fun _ _ _ => None)
    timer (fun s => s) (fun _ => inr (Some payload_twice)).

End Scenario.

(** * Further parts of the services *)

(** ** [String.prototype.match] and [String.prototype.substring]

    Positions count the characters of the [string]: a string stands for
    its sequence of UTF-16 code units, a unit above 127 being some
    character above 127 (which one does not matter to the pattern). *)

Module RegexExec.
Import Regex.

(** The number of characters the pattern consumes when it matches at the
    current position. *)
Fixpoint matchLength (ic : bool) (p : list term) (prev : option ascii)
    (s : string) : option nat :=
  match p with
  | [] => Some 0
  | Char c :: p' =>
      match s with
      | String d s' =>
          if Ascii.eqb (canonicalize ic c) (canonicalize ic d)
          then S <$> matchLength ic p' (Some d) s'
          else None
      | EmptyString => None
      end
  | WordBoundary :: p' =>
      if xorb (isWordCharOpt prev) (isWordCharOpt (peek s))
      then matchLength ic p' prev s
      else None
  end.

(** The leftmost match from position [index] on: its position and its
    length. *)
Fixpoint execFrom (ic : bool) (p : list term) (prev : option ascii)
    (s : string) (index : nat) : option (nat * nat) :=
  match matchLength ic p prev s with
  | Some n => Some (index, n)
  | None =>
      match s with
      | String d s' => execFrom ic p (Some d) s' (S index)
      | EmptyString => None
      end
  end.

(** [s.match(r)] for a pattern without the [g] flag: [match.index] and
    [match[0]], or [None] for [null]. *)
Definition match_ (r : RegExp) (s : string) : option (nat * string) :=
  '(index, n) ← execFrom (ignoreCase r) (source r) None s 0;
  Some (index, String.substring index n s).

End RegexExec.

Module JsString.

(** An integer argument clamped to the positions of a string of length
    [len]. *)
Definition clamp (len : nat) (z : Z) : nat :=
  Z.to_nat (Z.min (Z.max z 0) (Z.of_nat len)).

(** [s.substring(indexStart, indexEnd)] on integer arguments: both are
    clamped and swapped when out of order. *)
Definition substring (s : string) (indexStart indexEnd : Z) : string :=
  let len := String.length s in
  let a := clamp len indexStart in
  let b := clamp len indexEnd in
  String.substring (Nat.min a b) (Nat.max a b - Nat.min a b) s.

End JsString.

(** ** src/services/live-detector.ts, the context of the tag *)

Module LiveDetectorContext.

(** [contextLength] defaults to 50 at the call in [shouldNotifyForVideo]. *)
Definition extractLiveTagContext (description : string) (contextLength : Z)
    : option string :=
  match RegexExec.match_ LiveDetector.LIVE_TAG_PATTERN description with
  | None => None
  | Some (index, match0) =>
      let startIndex := Z.max 0 (Z.of_nat index - contextLength) in
      let endIndex :=
        Z.min (Z.of_nat (String.length description))
              (Z.of_nat index + Z.of_nat (String.length match0) + contextLength) in
      Some (JsString.substring description startIndex endIndex)
  end.

(** [shouldNotifyForVideo] with the context it computes for the log line
    when the tag is there. *)
Definition shouldNotifyForVideo (videoMetadata : VideoMetadata) : M bool :=
  try_catch
    (let hasLiveTag := LiveDetector.containsLiveTag (description videoMetadata) in
     let context :=
       if hasLiveTag
       then extractLiveTagContext (description videoMetadata) 50
       else None in
     ret hasLiveTag)
    (fun _ => ret false).

End LiveDetectorContext.

(** ** src/services/youtube.ts, the channel listing *)

(** One item of a search answer: [search_videoId] is [item.id.videoId]
    ([None] when [item.id] is missing), [search_snippet] is
    [item.snippet]. *)
Record SearchItem : Type := mkSearchItem {
  search_videoId : option string;
  search_snippet : option Snippet
}.

Record SearchResponse : Type := mkSearchResponse {
  search_items : option (list SearchItem)
}.

(** The collaborators of the manual path: those of the pipeline and the
    search endpoint, [axios_get_search n url channelId maxResults] being the
    answer to the GET when it is request number [n]. *)
Record ChannelServices : Type := mkChannelServices {
  base : Services;
  axios_get_search : nat -> string -> string -> Z -> JsError + SearchResponse
}.

Module YouTubeSearch.
Section YouTubeSearch.
Context (cs : ChannelServices).

(** [axios.get(url, { params: { part, channelId, maxResults, order, type, key } })] *)
Definition axios_get_search_ (channelId : string) (maxResults : Z)
    : M SearchResponse :=
  fun w =>
    let url := YouTube.API_BASE_URL +:+ "/search" in
    let w' := request (AxiosGet url channelId) w in
    match axios_get_search cs (calls w) url channelId maxResults with
    | inl e => (Throw e, w')
    | inr r => (Ok r, w')
    end.

(** The arrow function given to [items.map]: reading a field of a missing
    [id] or [snippet] throws. *)
Definition toVideoMetadata (item : SearchItem) : Res VideoMetadata :=
  match search_videoId item, search_snippet item with
  | Some videoId, Some sn =>
      Ok (mkVideoMetadata videoId
            (snippet_title sn)
            (snippet_description sn)
            (snippet_publishedAt sn)
            (Js.str_or (t ← thumbnails sn; high t)
                       (t ← thumbnails sn; medium t))
            (snippet_channelTitle sn)
            (snippet_channelId sn))
  | _, _ => Throw (Error "TypeError: undefined is not an object")
  end.

(** [items.map(...)]: the first throw ends it. *)
Fixpoint mapItems (items : list SearchItem) : Res (list VideoMetadata) :=
  match items with
  | [] => Ok []
  | item :: rest =>
      match toVideoMetadata item with
      | Throw e => Throw e
      | Ok v =>
          match mapItems rest with
          | Throw e => Throw e
          | Ok vs => Ok (v :: vs)
          end
      end
  end.

(** [maxResults] defaults to 10. *)
Definition getChannelVideos (channelId : string) (maxResults : Z)
    : M (list VideoMetadata) :=
  try_catch
    (let* response :=
       YouTube.makeRequestWithRetry (base cs)
         (axios_get_search_ channelId maxResults) in
     match search_items response with
     | None | Some [] => ret []
     | Some items => fun w => (mapItems items, w)
     end)
    (fun _ => ret []).

End YouTubeSearch.
End YouTubeSearch.

(** ** src/services/telegram.ts, the manual override *)

Module TelegramCommands.
Section TelegramCommands.
Context (cs : ChannelServices) (config : AppConfig).

Definition sendManualNotification (videoId : string)
    : M (list NotificationResult) :=
  try_catch
    (let* videoMetadata := YouTube.getVideoMetadata (base cs) videoId in
     match videoMetadata with
     | None => ret []
     | Some videoMetadata =>
         let* shouldNotify :=
           LiveDetectorService.shouldNotifyForVideo videoMetadata in
         if negb shouldNotify then ret [] else
         let* detectedAt := new_Date in
         let notification :=
           mkLivestreamNotification videoMetadata (config_platforms config)
             detectedAt in
         let* results :=
           Telegram.sendLivestreamNotification (base cs) config notification in
         let* _ := Deduplication.markAsNotified (base cs) videoId in
         ret results
     end)
    (fun _ => ret []).

(** [if (!userId) return false; return true]: a missing identifier and the
    identifier 0 are refused. *)
Definition isAuthorizedUser (userId : option Z) : bool :=
  match userId with
  | None => false
  | Some u => negb (u =? 0)%Z
  end.

(** What the handler reads of the update: [ctx.from?.id] and the chat the
    command came from. *)
Record CommandContext : Type := mkCommandContext {
  from_id : option Z;
  chat_id : string
}.

(** [ctx.reply(text)] is [sendMessage] to the chat of the update. *)
Definition reply (ctx : CommandContext) (text : string) : M unit :=
  Telegram.bot_api_sendMessage (base cs) (chat_id ctx) text.

Definition countSuccessful (results : list NotificationResult) : nat :=
  List.length (filter (fun r => success r = true) results).

Definition countFailed (results : list NotificationResult) : nat :=
  List.length (filter (fun r => success r = false) results).

Definition when (b : bool) (m : M unit) : M unit := if b then m else ret tt.

(** The handler of [/notify]. *)
Definition notifyCommand (ctx : CommandContext) : M unit :=
  try_catch
    (if negb (isAuthorizedUser (from_id ctx))
     then reply ctx "⚠️ Bu komutu kullanma yetkiniz yok."
     else
       let* videos :=
         YouTubeSearch.getChannelVideos cs (youtube_channelId config) 1 in
       match videos with
       | [] => reply ctx "⚠️ Kanalda video bulunamadı."
       | latestVideo :: _ =>
           let* _ :=
             reply ctx
               ("🔔 " +:+ Telegram.dq +:+ title latestVideo +:+ Telegram.dq
                +:+ " videosi için bildirim gönderiliyor...") in
           let* results := sendManualNotification (id latestVideo) in
           let successfulSends := countSuccessful results in
           let failedSends := countFailed results in
           let* _ :=
             when (0 <? successfulSends)%nat
               (reply ctx
                  ("✅ Bildirim " +:+ Js.toString (Z.of_nat successfulSends)
                   +:+ " kanala başarıyla gönderildi.")) in
           when (0 <? failedSends)%nat
             (reply ctx
                ("⚠️ " +:+ Js.toString (Z.of_nat failedSends)
                 +:+ " kanala bildirim gönderilemedi."))
       end)
    (fun _ => reply ctx "⚠️ Bildirim gönderilirken bir hata oluştu.").

End TelegramCommands.
End TelegramCommands.

(** ** Vocabulary of the further properties *)

(** The answer of YouTube to the [k]-th request after those already made
    in [w], when it is a GET of the metadata of [videoId]. *)
Definition answer (sv : Services) (videoId : string) (w : World) (k : nat)
    : JsError + AxiosResponse :=
  axios_get sv (calls w + k) (YouTube.API_BASE_URL +:+ "/videos") videoId.

(** What the [catch] block of the fetcher adds to the trace after the
    failure [e] of attempt [attempt]. *)
Definition sleeps_after (e : JsError) (attempt : nat) : list Event :=
  match YouTube.isRateLimited e with
  | Some r => [Sleep (YouTube.rateLimitDelay r attempt)]
  | None =>
      if (attempt <? YouTube.MAX_RETRIES)%nat
      then [Sleep (YouTube.RETRY_DELAY_MS * Z.of_nat attempt)]
      else []
  end.

(** The course of the retry loop read off the answers: [out n] is the
    outcome of the request when it is request number [n] and [ev] the
    effect it leaves; the result of the loop and the effects it adds. *)
Fixpoint retry_script {T : Type} (out : nat -> Res T) (ev : Event)
    (n remaining attempt : nat) (lastError : option JsError)
    : Res T * list Event :=
  match remaining with
  | O => (Throw (default (Error "undefined") lastError), [])
  | S r =>
      match out n with
      | Ok x => (Ok x, [ev])
      | Throw e =>
          let '(res, evs) := retry_script out ev (S n) r (S attempt) (Some e) in
          (res, ev :: sleeps_after e attempt ++ evs)
      end
  end.

Definition res_of {T : Type} (a : JsError + T) : Res T :=
  match a with
  | inl e => Throw e
  | inr r => Ok r
  end.

(** The effects of the attempts for one destination, read off the
    collaborators: [remaining] attempts are left, the next is attempt
    number [attempt] and request number [n]. *)
Fixpoint send_script (sv : Services) (chat text : string)
    (n remaining attempt : nat) : list Event :=
  match remaining with
  | O => []
  | S r =>
      SendMessage chat text
      :: if delivered sv chat text n then []
         else (if (attempt <? Telegram.MAX_RETRIES)%nat
               then [Sleep (Telegram.RETRY_DELAY_MS * Z.of_nat attempt)]
               else [])
              ++ send_script sv chat text (S n) r (S attempt)
  end.

(** The effects of the fan-out over [chats], the first request being
    number [n]. *)
Fixpoint fanout_script (sv : Services) (text : string) (n : nat)
    (chats : list string) : list Event :=
  match chats with
  | [] => []
  | chat :: rest =>
      send_script sv chat text n Telegram.MAX_RETRIES 1
      ++ fanout_script sv text
           (n + sends_used sv chat text n Telegram.MAX_RETRIES) rest
  end.

(** An effect the fan-out may have: a send of [text] to one of [chats], or
    one of the two backoff timers. *)
Definition fanout_effect (chats : list string) (text : string) (ev : Event)
    : Prop :=
  (exists chat, chat ∈ chats /\ ev = SendMessage chat text)
  \/ ev = Sleep 2000 \/ ev = Sleep 4000.

(** ** src/config/index.ts

    [JSON.parse] and the URL check of zod are libraries: the configuration
    is read for any behaviour of theirs.  The rest of zod ([string().min],
    [number().min().max()], [enum], [object]) is written out. *)

Module Json.

(** A value [JSON.parse] returns; a number is kept as its text, the
    members of an object in the order of the text. *)
#[warnings="-register-all"] Inductive value : Type :=
| Null
| Bool (b : bool)
| Number (literal : string)
| Str (s : string)
| Array (items : list value)
| Object (members : list (string * value)).

(** [object[key]]: of two members of the same name the later one is the
    property. *)
Fixpoint get (members : list (string * value)) (key : string) : option value :=
  match members with
  | [] => None
  | (k, v) :: rest =>
      match get rest key with
      | Some v' => Some v'
      | None => if String.eqb k key then Some v else None
      end
  end.

End Json.

Module Config.

Definition requiredEnvVars : list string :=
  ["YOUTUBE_CHANNEL_ID"; "YOUTUBE_API_KEY"; "TELEGRAM_BOT_TOKEN";
   "TELEGRAM_CHAT_IDS"; "PLATFORM_LINKS"; "PORT"; "WEBHOOK_SECRET";
   "LOG_LEVEL"; "REDIS_URL"].

(** [process.env[name]!], the empty string standing for [undefined]. *)
Definition env_get (env : gmap string string) (name : string) : string :=
  default "" (env !! name).

(** [!process.env[envVar]]: unset or empty. *)
Definition unset (env : gmap string string) (name : string) : bool :=
  bool_decide (env_get env name = "").

(** [Array.prototype.join] *)
Fixpoint join (sep : string) (l : list string) : string :=
  match l with
  | [] => ""
  | [a] => a
  | a :: rest => a +:+ sep +:+ join sep rest
  end.

(** [s.split(sep)] for a separator of one character ([cur] is the piece
    being read). *)
Fixpoint split_on (sep : ascii) (cur : string) (s : string) : list string :=
  match s with
  | EmptyString => [cur]
  | String c s' =>
      if Ascii.eqb c sep then cur :: split_on sep EmptyString s'
      else split_on sep (cur +:+ String c EmptyString) s'
  end.

Definition split (sep : ascii) (s : string) : list string :=
  split_on sep EmptyString s.

Definition reverse (s : string) : string :=
  string_of_list_ascii (rev (list_ascii_of_string s)).

Definition trimEnd (s : string) : string := reverse (Js.trimStart (reverse s)).

(** [s.trim()]: the white space of [Js.isStrWhiteSpace] is taken off both
    ends. *)
Definition trim (s : string) : string := trimEnd (Js.trimStart s).

(** The libraries: [JSON_parse s] is [JSON.parse(s)] ([inl] when it
    throws); [isUrl] is the [url()] check of the schema. *)
Record Parsers : Type := mkParsers {
  JSON_parse : string -> JsError + Json.value;
  isUrl : string -> bool
}.

Section Config.
Context (ps : Parsers).

(** [z.string().url()] on the property [key] of an object. *)
Definition urlField (members : list (string * Json.value)) (key : string)
    : option string :=
  match Json.get members key with
  | Some (Json.Str s) => if isUrl ps s then Some s else None
  | _ => None
  end.

(** [platformLinksSchema.parse(parsed)]: the value has to be an object
    with the six links; other members are dropped. *)
Definition platformLinksSchema_parse (parsed : Json.value)
    : Res PlatformLinks.t :=
  match parsed with
  | Json.Object members =>
      match urlField members "youtube", urlField members "x",
            urlField members "kick", urlField members "twitch",
            urlField members "instagram", urlField members "linkedin" with
      | Some youtube, Some x, Some kick, Some twitch, Some instagram,
        Some linkedin =>
          Ok (PlatformLinks.mk youtube x kick twitch instagram linkedin)
      | _, _, _, _, _, _ => Throw (Error "ZodError")
      end
  | _ => Throw (Error "ZodError")
  end.

Definition parsePlatformLinks (platformLinksJson : string)
    : Res PlatformLinks.t :=
  let wrap (e : JsError) : Res PlatformLinks.t :=
    Throw (Error ("Invalid PLATFORM_LINKS format: " +:+ message_of e)) in
  match JSON_parse ps platformLinksJson with
  | inl e => wrap e
  | inr parsed =>
      match platformLinksSchema_parse parsed with
      | Ok l => Ok l
      | Throw e => wrap e
      end
  end.

Definition levels : list string := ["error"; "warn"; "info"; "debug"].

Definition nonEmpty (s : string) : bool := negb (String.eqb s "").

(** The [platforms] part of [appConfigSchema]: the six links are checked
    once more. *)
Definition platformLinks_valid (l : PlatformLinks.t) : bool :=
  isUrl ps (PlatformLinks.youtube l) && isUrl ps (PlatformLinks.x l)
  && isUrl ps (PlatformLinks.kick l) && isUrl ps (PlatformLinks.twitch l)
  && isUrl ps (PlatformLinks.instagram l) && isUrl ps (PlatformLinks.linkedin l).

(** [appConfigSchema.parse(config)] on the object [loadConfig] builds:
    [number()] refuses [NaN], [min(1)] and [max(65535)] the infinities. *)
Definition appConfigSchema_parse (channelId apiKey botToken : string)
    (chatIds : list string) (links : PlatformLinks.t) (port : JsNumber.t)
    (webhookSecret level url : string) : Res AppConfig :=
  match port with
  | JsNumber.Int p =>
      if nonEmpty channelId && nonEmpty apiKey && nonEmpty botToken
         && forallb nonEmpty chatIds
         && platformLinks_valid links
         && (1 <=? p)%Z && (p <=? 65535)%Z
         && nonEmpty webhookSecret
         && existsb (String.eqb level) levels
         && nonEmpty url
      then Ok (mkAppConfig channelId apiKey botToken chatIds links p
                 webhookSecret level url)
      else Throw (Error "ZodError")
  | _ => Throw (Error "ZodError")
  end.

Definition loadConfig (env : gmap string string) : Res AppConfig :=
  let missingEnvVars := List.filter (unset env) requiredEnvVars in
  if (0 <? List.length missingEnvVars)%nat
  then Throw (Error ("Missing required environment variables: "
                     +:+ join ", " missingEnvVars))
  else
    let chatIds := trim <$> split ","%char (env_get env "TELEGRAM_CHAT_IDS") in
    match parsePlatformLinks (env_get env "PLATFORM_LINKS") with
    | Throw e => Throw e
    | Ok links =>
        appConfigSchema_parse
          (env_get env "YOUTUBE_CHANNEL_ID") (env_get env "YOUTUBE_API_KEY")
          (env_get env "TELEGRAM_BOT_TOKEN") chatIds links
          (Js.parseInt10 (env_get env "PORT"))
          (env_get env "WEBHOOK_SECRET") (env_get env "LOG_LEVEL")
          (env_get env "REDIS_URL")
    end.

End Config.

(** The value is made of characters that are neither white space nor a
    comma. *)
Definition plain (s : string) : Prop :=
  Forall (fun c => Js.isStrWhiteSpace c = false /\ c <> ","%char)
         (list_ascii_of_string s).

End Config.

(** ** Further scenarios *)

Module Scenario2.
Import Scenario.

(** YouTube fails every request: two network errors, then a rate limit
    without a [retry-after] header. *)
Definition svFailing : Services :=
  mkServices (fun _ => true)
    (fun n _ _ =>
       match n with
       | 0 | 1 => inl (Error "socket hang up")
       | _ => inl (AxiosError "Request failed with status code 429"
                     (Some (mkErrorResponse 429 None)))
       end)
    (fun _ _ _ => None)
    timer (fun s => s) (fun _ => inr (Some payload_twice)).

(** The channel listing comes back without items. *)
Definition csEmpty : ChannelServices :=
  mkChannelServices svB (fun _ _ _ _ => inr (mkSearchResponse (Some []))).

Definition stranger : TelegramCommands.CommandContext :=
  TelegramCommands.mkCommandContext (Some 0%Z) "4242".

Definition admin : TelegramCommands.CommandContext :=
  TelegramCommands.mkCommandContext (Some 77%Z) "4242".

Definition unreadable : WebSub.PostRequest :=
  WebSub.mkPostRequest None (inl (Error "aborted")).

Definition untagged_metadata : VideoMetadata :=
  mkVideoMetadata "abc123" "Episode 12" "recorded yesterday"
    "2024-05-01T18:00:00Z" None "1453 AI" "UC1453".

Definition tagged_metadata : VideoMetadata :=
  mkVideoMetadata "abc123" "Episode 12" "new episode #live today"
    "2024-05-01T18:00:00Z" None "1453 AI" "UC1453".

(** The links of the scenario as the JSON text of [PLATFORM_LINKS]. *)
Definition member (key value : string) : string :=
  Telegram.dq +:+ key +:+ Telegram.dq +:+ ": "
  +:+ Telegram.dq +:+ value +:+ Telegram.dq.

Definition links_json : string :=
  "{" +:+ member "youtube" "https://youtube.com/@1453ai"
  +:+ ", " +:+ member "x" "https://x.com/1453ai"
  +:+ ", " +:+ member "kick" "https://kick.com/1453ai"
  +:+ ", " +:+ member "twitch" "https://twitch.tv/1453ai"
  +:+ ", " +:+ member "instagram" "https://instagram.com/1453ai"
  +:+ ", " +:+ member "linkedin" "https://linkedin.com/company/1453ai"
  +:+ "}".

Definition env : gmap string string :=
  list_to_map
    [("YOUTUBE_CHANNEL_ID", "UC1453"); ("YOUTUBE_API_KEY", "key");
     ("TELEGRAM_BOT_TOKEN", "token"); ("TELEGRAM_CHAT_IDS", "-1001, @team");
     ("PLATFORM_LINKS", links_json); ("PORT", "3000");
     ("WEBHOOK_SECRET", "secret"); ("LOG_LEVEL", "info");
     ("REDIS_URL", "redis://localhost:6379")].

(** A reader for the JSON texts that are one object whose members are
    strings without escape sequences, as the text above is; it refuses
    every other text. *)
Definition isJsonWhiteSpace (c : ascii) : bool :=
  Ascii.eqb c " "%char || Ascii.eqb c "009"%char
  || Ascii.eqb c "010"%char || Ascii.eqb c "013"%char.

Fixpoint skipWhiteSpace (s : string) : string :=
  match s with
  | String c s' => if isJsonWhiteSpace c then skipWhiteSpace s' else s
  | EmptyString => EmptyString
  end.

(** The characters of a string up to its closing quote, and the rest of
    the text. *)
Fixpoint readChars (acc : string) (s : string) : option (string * string) :=
  match s with
  | EmptyString => None
  | String c s' =>
      if Ascii.eqb c "034"%char then Some (acc, s')
      else if Ascii.eqb c "\"%char || (N_of_ascii c <? 32)%N then None
      else readChars (acc +:+ String c EmptyString) s'
  end.

Definition readString (s : string) : option (string * string) :=
  match s with
  | String c s' => if Ascii.eqb c "034"%char then readChars "" s' else None
  | EmptyString => None
  end.

Fixpoint readMembers (fuel : nat) (s : string)
    : option (list (string * Json.value)) :=
  match fuel with
  | O => None
  | S fuel' =>
      '(key, s1) ← readString (skipWhiteSpace s);
      match skipWhiteSpace s1 with
      | String ":" s2 =>
          '(v, s3) ← readString (skipWhiteSpace s2);
          match skipWhiteSpace s3 with
          | String "," s4 =>
              rest ← readMembers fuel' s4;
              Some ((key, Json.Str v) :: rest)
          | String "}" s4 =>
              if String.eqb (skipWhiteSpace s4) "" then Some [(key, Json.Str v)]
              else None
          | _ => None
          end
      | _ => None
      end
  end.

Definition readObject (s : string) : JsError + Json.value :=
  let unexpected := Error "SyntaxError: Unexpected token" in
  match skipWhiteSpace s with
  | String "{" s1 =>
      match skipWhiteSpace s1 with
      | String "}" s2 =>
          if String.eqb (skipWhiteSpace s2) "" then inr (Json.Object [])
          else inl unexpected
      | _ =>
          match readMembers (String.length s) s1 with
          | Some members => inr (Json.Object members)
          | None => inl unexpected
          end
      end
  | _ => inl unexpected
  end.

(** A check that only lets URLs through: [https://], a host of labels of
    lower-case letters, and a path of letters, digits and [@ / . _ -]. *)
Definition isLower (c : ascii) : bool := Regex.inRange 97 122 c.

Definition isPathChar (c : ascii) : bool :=
  Regex.isWordChar c || Ascii.eqb c "@"%char || Ascii.eqb c "/"%char
  || Ascii.eqb c "."%char || Ascii.eqb c "-"%char.

Fixpoint hostAndPath (afterLetter : bool) (s : string) : bool :=
  match s with
  | EmptyString => afterLetter
  | String c s' =>
      if isLower c then hostAndPath true s'
      else if Ascii.eqb c "."%char then afterLetter && hostAndPath false s'
      else if Ascii.eqb c "/"%char
           then afterLetter && forallb isPathChar (list_ascii_of_string s')
           else false
  end.

Definition httpsUrl (s : string) : bool :=
  String.prefix "https://" s
  && hostAndPath false (String.substring 8 (String.length s - 8) s).

Definition parsers : Config.Parsers := Config.mkParsers readObject httpsUrl.

End Scenario2.

(** * Properties *)

Example containsLiveTag_separate_word :
  LiveDetector.containsLiveTag "new episode #live today" = true.
Proof. reflexivity. Qed.

Example containsLiveTag_any_case :
  LiveDetector.containsLiveTag "new #LiVe, now" = true.
Proof. reflexivity. Qed.

Example containsLiveTag_longer_word :
  LiveDetector.containsLiveTag "#livestream tonight" = false.
Proof. reflexivity. Qed.

Example parseInt_examples :
  Js.parseInt (Js.Num 1000) = 1000%Z
  /\ Js.parseInt (Js.Str " 12abc") = 12%Z
  /\ Js.parseInt (Js.Str "Wed, 21 Oct 2015 07:28:00 GMT") = JsNumber.NaN
  /\ Js.parseInt (Js.Str (String "160" "-7 s")) = (-7)%Z
  /\ Js.parseInt (Js.Str "9007199254740993") = 9007199254740992%Z.
Proof. repeat split. Qed.

Example ofInteger_examples :
  JsNumber.ofInteger (2 ^ 53 + 1) = (2 ^ 53)%Z
  /\ JsNumber.ofInteger (2 ^ 53 + 3) = (2 ^ 53 + 4)%Z
  /\ JsNumber.ofInteger (- (2 ^ 60 + 129)) = (- (2 ^ 60 + 256))%Z
  /\ JsNumber.ofInteger (2 ^ 1024 - 2 ^ 970 - 1) = (2 ^ 1024 - 2 ^ 971)%Z
  /\ JsNumber.ofInteger (2 ^ 1024 - 2 ^ 970) = JsNumber.Infinity false
  /\ JsNumber.mul 9007199254740992%Z 1000%Z = 9007199254740992000%Z.
Proof. repeat split; vm_compute; reflexivity. Qed.

Example rateLimitDelay_examples :
  YouTube.rateLimitDelay (mkErrorResponse 429 None) 2 = 1000000%Z
  /\ YouTube.rateLimitDelay (mkErrorResponse 429 (Some "7")) 2 = 7000%Z
  /\ YouTube.rateLimitDelay (mkErrorResponse 429 (Some "0")) 2 = 2000%Z.
Proof. repeat split. Qed.

(** ** The tag filter *)

Section TagFilterFacts.
Import Regex Marker LiveDetector.

Lemma append_cons (c : ascii) (a b : string) :
  String c a +:+ b = String c (a +:+ b).
Proof. done. Qed.

Lemma append_nil_l (b : string) : "" +:+ b = b.
Proof. done. Qed.

Lemma append_nil_r (s : string) : s +:+ "" = s.
Proof.
  induction s as [| c s IH]; [done |]. by rewrite append_cons, IH.
Qed.

Lemma append_assoc (a b c : string) : (a +:+ b) +:+ c = a +:+ (b +:+ c).
Proof.
  induction a as [| x a IH]; [done |]. by rewrite !append_cons, IH.
Qed.

Lemma lastOr_append prev a b : lastOr prev (a +:+ b) = lastOr (lastOr prev a) b.
Proof.
  revert prev. induction a as [| x a IH]; intros prev; [done |].
  rewrite append_cons. apply IH.
Qed.

Lemma matchHere_literal (lits : string) (rest : list term) :
  forall prev s,
    matchHere true (literal lits ++ rest) prev s = true
    <-> exists t s',
          s = t +:+ s' /\ upper t = upper lits
          /\ matchHere true rest (lastOr prev t) s' = true.
Proof.
  induction lits as [| c lits IH]; intros prev s.
  - change (literal "" ++ rest) with rest. split.
    + intros H. by exists "", s.
    + intros (t & s' & -> & Ht & H). by destruct t.
  - change (literal (String c lits) ++ rest)
      with (Char c :: (literal lits ++ rest)).
    cbn [matchHere]. destruct s as [| d s1].
    + split; [done |]. intros (t & s' & Hs & Ht & _). by destruct t.
    + rewrite andb_true_iff, IH. split.
      * intros (Hc & t & s' & -> & Ht & H).
        exists (String d t), s'. repeat split; [| done].
        cbn [upper]. apply Ascii.eqb_eq in Hc. cbn in Hc. by rewrite Ht, Hc.
      * intros (t & s' & Hs & Ht & H). destruct t as [| d' t]; [done |].
        rewrite append_cons in Hs. cbn [upper] in Ht.
        injection Hs as <- ->. injection Ht as Hc Ht.
        split; [apply Ascii.eqb_eq; cbn; done |]. by exists t, s'.
Qed.

Lemma searchFrom_spec (p : list term) : forall s prev,
  searchFrom true p prev s = true
  <-> exists pre suf,
        s = pre +:+ suf /\ matchHere true p (lastOr prev pre) suf = true.
Proof.
  induction s as [| d s IH]; intros prev; cbn [searchFrom].
  - rewrite orb_false_r. split.
    + intros H. by exists "", "".
    + intros (pre & suf & Hs & H). by destruct pre, suf.
  - rewrite orb_true_iff, IH. split.
    + intros [H | (pre & suf & -> & H)].
      * by exists "", (String d s).
      * by exists (String d pre), suf.
    + intros (pre & suf & Hs & H). destruct pre as [| d' pre].
      * left. rewrite append_nil_l in Hs. by subst suf.
      * right. rewrite append_cons in Hs. injection Hs as <- ->.
        by exists pre, suf.
Qed.

Lemma upper_E_word (c : ascii) : toUpperCase c = "E"%char -> isWordChar c = true.
Proof.
  destruct c as [[] [] [] [] [] [] [] []]; vm_compute; intros H;
    first [reflexivity | discriminate H].
Qed.

Lemma token_ends_in_word (prev : option ascii) (t : string) :
  upper t = upper token -> isWordCharOpt (lastOr prev t) = true.
Proof.
  destruct t as [| c1 [| c2 [| c3 [| c4 [| c5 [| c6 t]]]]]]; try done.
  intros [= _ _ _ _ H]. cbn. by apply upper_E_word.
Qed.

(** The matcher finds the pattern exactly when the token, in some letter
    case, stands somewhere in the description with no word character
    after it. *)
Lemma containsLiveTag_iff (d : string) :
  containsLiveTag d = true
  <-> exists pre t suf,
        d = pre +:+ t +:+ suf /\ upper t = upper token /\ boundaryAhead suf.
Proof.
  unfold containsLiveTag, test, LIVE_TAG_PATTERN. cbn [source ignoreCase].
  rewrite searchFrom_spec. split.
  - intros (pre & rest & -> & H).
    apply matchHere_literal in H as (t & suf & -> & Ht & H).
    exists pre, t, suf. repeat split; [done |].
    cbn [matchHere] in H. rewrite andb_true_r in H.
    rewrite (token_ends_in_word _ t Ht) in H. unfold boundaryAhead.
    by destruct (isWordCharOpt (peek suf)).
  - intros (pre & t & suf & -> & Ht & Hb).
    exists pre, (t +:+ suf). split; [done |].
    apply matchHere_literal. exists t, suf. repeat split; [done |].
    cbn [matchHere]. rewrite (token_ends_in_word _ t Ht).
    unfold boundaryAhead in Hb. by rewrite Hb.
Qed.

Lemma split_ws_decompose (wd : string) : forall s cur,
  wd ∈ split_ws cur s ->
  exists pre suf,
    cur +:+ s = pre +:+ wd +:+ suf
    /\ (suf = "" \/ exists c suf', suf = String c suf' /\ Js.isStrWhiteSpace c = true).
Proof.
  induction s as [| c s IH]; intros cur; cbn [split_ws].
  - intros ->%list_elem_of_singleton. exists "", "". split; [| by left].
    by rewrite !append_nil_r.
  - destruct (Js.isStrWhiteSpace c) eqn:Hc.
    + intros [-> | Hin]%elem_of_cons.
      * exists "", (String c s). split; [done |]. right. by exists c, s.
      * destruct (IH "" Hin) as (pre & suf & Heq & Hsuf).
        rewrite append_nil_l in Heq.
        exists (cur +:+ String c pre), suf. split; [| done].
        by rewrite append_assoc, append_cons, Heq.
    + intros Hin. destruct (IH _ Hin) as (pre & suf & Heq & Hsuf).
      exists pre, suf. split; [| done].
      rewrite <- Heq, append_assoc. done.
Qed.

Lemma whitespace_not_word (c : ascii) :
  Js.isStrWhiteSpace c = true -> isWordChar c = false.
Proof.
  destruct c as [[] [] [] [] [] [] [] []]; vm_compute; intros H;
    first [reflexivity | discriminate H].
Qed.

(** C4 (as amended). [containsLiveTag] is [true] for every description in
    which the token, in any letter case, is directly followed by the end
    of the text or by a character that is not a letter, digit or
    underscore, in particular whenever the token is a word of its own
    between white space; it is [false] for every description in which
    every occurrence of the token is directly followed by a letter, digit
    or underscore.  What stands before the token plays no part. *)
Theorem containsLiveTag_boundary (d : string) :
  (occursAsWord d = true -> containsLiveTag d = true)
  /\ (forall pre t suf,
        d = pre +:+ t +:+ suf -> isToken t = true -> boundaryAhead suf ->
        containsLiveTag d = true)
  /\ ((forall pre t suf,
         d = pre +:+ t +:+ suf -> isToken t = true -> ~ boundaryAhead suf) ->
      containsLiveTag d = false).
Proof.
  split; [| split].
  - unfold occursAsWord, words. intros H.
    apply existsb_exists in H as (wd & Hin & Htok).
    apply list_elem_of_In, split_ws_decompose in Hin as (pre & suf & Hd & Hsuf).
    rewrite append_nil_l in Hd. apply containsLiveTag_iff. exists pre, wd, suf.
    split; [done |]. split; [by apply String.eqb_eq |].
    unfold boundaryAhead.
    destruct Hsuf as [-> | (c & suf' & -> & Hc)]; [done |].
    cbn. by apply whitespace_not_word.
  - intros pre t suf Hd Htok Hb. apply containsLiveTag_iff.
    exists pre, t, suf. split; [done |]. split; [by apply String.eqb_eq | done].
  - intros Hall. apply not_true_is_false. intros H.
    apply containsLiveTag_iff in H as (pre & t & suf & Hd & Ht & Hb).
    apply (Hall pre t suf Hd); [by apply String.eqb_eq | done].
Qed.

End TagFilterFacts.

(** ** The duplicate suppressor *)

Section DeduplicationFacts.
Context (sv : Services).
Import Deduplication.

Lemma hasBeenNotified_up videoId w :
  redis_up sv (calls w) = true ->
  hasBeenNotified sv videoId w =
    (Ok (Redis.live w (KEY_PREFIX +:+ videoId)),
     request (RedisExists (KEY_PREFIX +:+ videoId)) w).
Proof.
  intros Hup. unfold hasBeenNotified, try_catch, bind, Redis.exists_, ret.
  rewrite Hup. by destruct (Redis.live w _).
Qed.

Lemma hasBeenNotified_down videoId w :
  redis_up sv (calls w) = false ->
  hasBeenNotified sv videoId w =
    (Ok false, request (RedisExists (KEY_PREFIX +:+ videoId)) w).
Proof.
  intros Hdown. unfold hasBeenNotified, try_catch, bind, Redis.exists_, ret.
  by rewrite Hdown.
Qed.

Lemma markAsNotified_up videoId w :
  redis_up sv (calls w) = true ->
  markAsNotified sv videoId w =
    (Ok tt,
     set_redis
       (<[KEY_PREFIX +:+ videoId := ("1", (now w + TTL_SECONDS * 1000)%Z)]> (redis w))
       (request (RedisSetex (KEY_PREFIX +:+ videoId) TTL_SECONDS "1") w)).
Proof.
  intros Hup. unfold markAsNotified, try_catch, Redis.setex.
  by rewrite Hup.
Qed.

Lemma markAsNotified_down videoId w :
  redis_up sv (calls w) = false ->
  markAsNotified sv videoId w =
    (Ok tt, request (RedisSetex (KEY_PREFIX +:+ videoId) TTL_SECONDS "1") w).
Proof.
  intros Hdown. unfold markAsNotified, try_catch, Redis.setex, ret.
  by rewrite Hdown.
Qed.

Lemma append_inv_head (p a b : string) : p +:+ a = p +:+ b -> a = b.
Proof. induction p as [| c p IH]; cbn; [done | intros [= H]; auto]. Qed.

Lemma key_inj (a b : string) : KEY_PREFIX +:+ a = KEY_PREFIX +:+ b -> a = b.
Proof. apply append_inv_head. Qed.

(** A foreign operation keeps the entry of [videoId] and never moves the
    clock backwards. *)
Lemma runOp_foreign videoId op w :
  Clock.foreign videoId op ->
  redis (Clock.runOp sv op w) !! (KEY_PREFIX +:+ videoId)
    = redis w !! (KEY_PREFIX +:+ videoId)
  /\ now (Clock.runOp sv op w)
     = (now w + Clock.elapsed [op])%Z.
Proof.
  destruct op as [dt | v | v | v]; cbn; intros Hf.
  - split; [done | lia].
  - unfold markAsNotified, try_catch, Redis.setex, ret.
    destruct (redis_up sv (calls w)); cbn; (split; [| lia]); [| done].
    apply lookup_insert_ne. intros Heq. by apply key_inj in Heq.
  - unfold clearNotification, try_catch, Redis.del, ret.
    destruct (redis_up sv (calls w)); cbn; (split; [| lia]); [| done].
    apply lookup_delete_ne. intros Heq. by apply key_inj in Heq.
  - unfold hasBeenNotified, try_catch, bind, Redis.exists_, ret.
    destruct (redis_up sv (calls w)), (Redis.live w (KEY_PREFIX +:+ v));
      cbn; (split; [done | lia]).
Qed.

Lemma elapsed_cons op ops :
  Clock.elapsed (op :: ops) = (Clock.elapsed [op] + Clock.elapsed ops)%Z.
Proof. unfold Clock.elapsed. destruct op; cbn [foldr]; lia. Qed.

Lemma runOps_foreign videoId ops : forall w,
  Forall (Clock.foreign videoId) ops ->
  redis (Clock.runOps sv ops w) !! (KEY_PREFIX +:+ videoId)
    = redis w !! (KEY_PREFIX +:+ videoId)
  /\ now (Clock.runOps sv ops w) = (now w + Clock.elapsed ops)%Z.
Proof.
  induction ops as [| op ops IH]; intros w Hall.
  - cbn. split; [done | lia].
  - inversion Hall as [| ? ? Hop Hops]; subst.
    destruct (runOp_foreign videoId op w Hop) as [Hr Hn].
    destruct (IH (Clock.runOp sv op w) Hops) as [Hr' Hn'].
    change (Clock.runOps sv (op :: ops) w)
      with (Clock.runOps sv ops (Clock.runOp sv op w)).
    rewrite Hr', Hn', Hr, Hn, (elapsed_cons op ops). split; [done | lia].
Qed.

(** C3. Once [markAsNotified] has succeeded for an identifier, a later
    [hasBeenNotified] on it (with the store reachable, and only clock
    movements and operations on other identifiers in between) answers
    [true] as long as no more than the 24 hours of [TTL_SECONDS] have
    elapsed on the clock, and [false] once more than that has elapsed. *)
Theorem notified_until_expiry videoId ops w :
  redis_up sv (calls w) = true ->
  Forall (Clock.foreign videoId) ops ->
  let marked := snd (markAsNotified sv videoId w) in
  let later := Clock.runOps sv ops marked in
  redis_up sv (calls later) = true ->
  TTL_SECONDS = 86400%Z /\
  fst (hasBeenNotified sv videoId later)
    = Ok (Clock.elapsed ops <=? TTL_SECONDS * 1000)%Z.
Proof.
  intros Hup Hall marked later Hup'. split; [reflexivity |].
  rewrite (hasBeenNotified_up _ _ Hup'). cbn [fst]. f_equal.
  unfold Redis.live.
  destruct (runOps_foreign videoId ops marked Hall) as [Hr Hn].
  fold later in Hr, Hn. rewrite Hr, Hn.
  unfold marked. rewrite (markAsNotified_up _ _ Hup). cbn.
  rewrite lookup_insert_eq.
  destruct (Z.leb_spec (Clock.elapsed ops) (TTL_SECONDS * 1000));
    [apply Z.leb_le | apply Z.leb_gt]; lia.
Qed.

End DeduplicationFacts.

(** ** Effects added to the trace *)

Section Emits.
Context (p : Event -> bool).

Lemma countb_app (a b : list Event) : countb p (a ++ b) = countb p a + countb p b.
Proof. unfold countb. by rewrite List.filter_app, List.length_app. Qed.

Lemma countb_one (ev : Event) : countb p [ev] = Nat.b2n (p ev).
Proof. unfold countb. cbn. by destruct (p ev). Qed.

Lemma events_of_spec {A} (m : M A) (n : nat) w :
  emits_at_most p m n ->
  trace (snd (m w)) = trace w ++ events_of m w /\ countb p (events_of m w) <= n.
Proof.
  intros H. destruct (H w) as (evs & Htr & Hn). unfold events_of.
  rewrite Htr, drop_app_length. done.
Qed.

Lemma emits_mono {A} (m : M A) (n n' : nat) :
  n <= n' -> emits_at_most p m n -> emits_at_most p m n'.
Proof.
  intros Hle H w. destruct (H w) as (evs & Htr & Hn).
  exists evs. split; [done | lia].
Qed.

Lemma emits_ret {A} (a : A) : emits_at_most p (ret a) 0.
Proof. intros w. exists []. cbn. by rewrite app_nil_r. Qed.

Lemma emits_throw {A} (e : JsError) : emits_at_most p (@throw A e) 0.
Proof. intros w. exists []. cbn. by rewrite app_nil_r. Qed.

Lemma emits_bind {A B} (m : M A) (k : A -> M B) (n1 n2 : nat) :
  emits_at_most p m n1 ->
  (forall a, emits_at_most p (k a) n2) ->
  emits_at_most p (bind m k) (n1 + n2).
Proof.
  intros Hm Hk w. unfold bind.
  destruct (Hm w) as (evs1 & Htr1 & Hn1).
  destruct (m w) as [[a | e] w1]; cbn in *.
  - destruct (Hk a w1) as (evs2 & Htr2 & Hn2).
    exists (evs1 ++ evs2). rewrite Htr2, Htr1, countb_app, <- app_assoc.
    split; [done | lia].
  - exists evs1. split; [done | lia].
Qed.

Lemma emits_try_catch {A} (m : M A) (h : JsError -> M A) (n1 n2 : nat) :
  emits_at_most p m n1 ->
  (forall e, emits_at_most p (h e) n2) ->
  emits_at_most p (try_catch m h) (n1 + n2).
Proof.
  intros Hm Hh w. unfold try_catch.
  destruct (Hm w) as (evs1 & Htr1 & Hn1).
  destruct (m w) as [[a | e] w1]; cbn in *.
  - exists evs1. split; [done | lia].
  - destruct (Hh e w1) as (evs2 & Htr2 & Hn2).
    exists (evs1 ++ evs2). rewrite Htr2, Htr1, countb_app, <- app_assoc.
    split; [done | lia].
Qed.

Lemma emits_ret_any {A} (a : A) (n : nat) : emits_at_most p (ret a) n.
Proof. eapply emits_mono; [| apply emits_ret]. lia. Qed.

Lemma emits_bind_quiet {A B} (m : M A) (k : A -> M B) (n : nat) :
  emits_at_most p m 0 ->
  (forall a, emits_at_most p (k a) n) ->
  emits_at_most p (bind m k) n.
Proof. intros Hm Hk. apply (emits_bind m k 0 n Hm Hk). Qed.

Lemma emits_try_quiet {A} (m : M A) (h : JsError -> M A) (n : nat) :
  emits_at_most p m n ->
  (forall e, emits_at_most p (h e) 0) ->
  emits_at_most p (try_catch m h) n.
Proof.
  intros Hm Hh. eapply emits_mono; [| apply (emits_try_catch m h n 0 Hm Hh)]. lia.
Qed.

Lemma emits_sleep sv ms : emits_at_most p (sleep sv ms) (Nat.b2n (p (Sleep ms))).
Proof. intros w. exists [Sleep ms]. by rewrite countb_one. Qed.

Lemma emits_new_Date : emits_at_most p new_Date 0.
Proof. intros w. exists []. cbn. by rewrite app_nil_r. Qed.

Lemma emits_exists sv key :
  emits_at_most p (Redis.exists_ sv key) (Nat.b2n (p (RedisExists key))).
Proof.
  intros w. exists [RedisExists key]. rewrite countb_one.
  unfold Redis.exists_. by destruct (redis_up sv (calls w)).
Qed.

Lemma emits_setex sv key seconds value :
  emits_at_most p (Redis.setex sv key seconds value)
    (Nat.b2n (p (RedisSetex key seconds value))).
Proof.
  intros w. exists [RedisSetex key seconds value]. rewrite countb_one.
  unfold Redis.setex. by destruct (redis_up sv (calls w)).
Qed.

Lemma emits_hasBeenNotified sv videoId :
  emits_at_most p (Deduplication.hasBeenNotified sv videoId)
    (Nat.b2n (p (RedisExists (Deduplication.KEY_PREFIX +:+ videoId)))).
Proof.
  apply emits_try_quiet; [| intros; apply emits_ret].
  eapply emits_mono; [| apply emits_bind;
    [apply emits_exists | intros; apply emits_ret]].
  lia.
Qed.

Lemma emits_markAsNotified sv videoId :
  emits_at_most p (Deduplication.markAsNotified sv videoId)
    (Nat.b2n (p (RedisSetex (Deduplication.KEY_PREFIX +:+ videoId)
                   Deduplication.TTL_SECONDS "1"))).
Proof. apply emits_try_quiet; [apply emits_setex | intros; apply emits_ret]. Qed.

(** From here on [p] selects neither timers nor Telegram sends. *)
Context (p_sleep : forall ms, p (Sleep ms) = false).
Context (p_send : forall chat text, p (SendMessage chat text) = false).

Lemma emits_sleep0 sv ms : emits_at_most p (sleep sv ms) 0.
Proof. generalize (emits_sleep sv ms). by rewrite p_sleep. Qed.

Lemma emits_onRequestError sv e attempt :
  emits_at_most p (YouTube.onRequestError sv e attempt) 0.
Proof.
  unfold YouTube.onRequestError.
  destruct (YouTube.isRateLimited e); [apply emits_sleep0 |].
  case_match; [apply emits_sleep0 | apply emits_ret].
Qed.

Lemma emits_attempts sv {T} (requestFn : M T) (c remaining : nat) :
  emits_at_most p requestFn c ->
  forall attempt lastError,
    emits_at_most p (YouTube.attempts sv requestFn remaining attempt lastError)
      (remaining * c).
Proof.
  intros Hreq. induction remaining as [| r IH]; intros attempt lastError; cbn.
  - apply emits_throw.
  - apply emits_try_catch; [apply Hreq |].
    intros e. apply emits_bind_quiet; [apply emits_onRequestError |].
    intros _. apply IH.
Qed.

Lemma emits_axios_get_videos sv videoId :
  emits_at_most p (YouTube.axios_get_videos sv videoId)
    (Nat.b2n (p (AxiosGet (YouTube.API_BASE_URL +:+ "/videos") videoId))).
Proof.
  intros w. exists [AxiosGet (YouTube.API_BASE_URL +:+ "/videos") videoId].
  rewrite countb_one. unfold YouTube.axios_get_videos.
  by destruct (axios_get sv (calls w) _ videoId).
Qed.

Lemma emits_getVideoMetadata sv videoId :
  emits_at_most p (YouTube.getVideoMetadata sv videoId)
    (YouTube.MAX_RETRIES
     * Nat.b2n (p (AxiosGet (YouTube.API_BASE_URL +:+ "/videos") videoId))).
Proof.
  apply emits_try_quiet; [| intros; apply emits_ret].
  eapply emits_mono; [| apply emits_bind with (n2 := 0);
    [apply emits_attempts, emits_axios_get_videos |]].
  - lia.
  - intros r. destruct (items r) as [[| item ?] |]; try apply emits_ret.
    destruct (snippet item); [apply emits_ret | apply emits_throw].
Qed.

Lemma emits_bot_api_sendMessage sv chat message :
  emits_at_most p (Telegram.bot_api_sendMessage sv chat message) 0.
Proof.
  intros w. exists [SendMessage chat message].
  rewrite countb_one, p_send. unfold Telegram.bot_api_sendMessage.
  by destruct (api_sendMessage sv (calls w) chat message).
Qed.

Lemma emits_sendAttempts sv chat notification ts remaining :
  forall attempt lastError,
    emits_at_most p
      (Telegram.sendAttempts sv chat notification ts remaining attempt lastError) 0.
Proof.
  induction remaining as [| r IH]; intros attempt lastError; cbn.
  - apply emits_ret.
  - apply emits_try_quiet.
    + apply emits_bind_quiet;
        [apply emits_bot_api_sendMessage | intros; apply emits_ret].
    + intros e. apply emits_bind_quiet; [| intros; apply IH].
      case_match; [apply emits_sleep0 | apply emits_ret].
Qed.

Lemma emits_sendToChatWithRetry sv chat notification :
  emits_at_most p (Telegram.sendToChatWithRetry sv chat notification) 0.
Proof.
  apply emits_bind_quiet;
    [apply emits_new_Date | intros; apply emits_sendAttempts].
Qed.

Lemma emits_forEachChat sv notification chats :
  forall results,
    emits_at_most p (Telegram.forEachChat sv notification chats results) 0.
Proof.
  induction chats as [| chat rest IH]; intros results; cbn.
  - apply emits_ret.
  - apply emits_bind_quiet;
      [apply emits_sendToChatWithRetry | intros; apply IH].
Qed.

Lemma emits_shouldNotifyForVideo md :
  emits_at_most p (LiveDetectorService.shouldNotifyForVideo md) 0.
Proof. apply emits_try_quiet; intros; apply emits_ret. Qed.

Lemma emits_processFeedEntry sv config e :
  emits_at_most p (WebSub.processFeedEntry sv config e) (entry_budget p e).
Proof.
  unfold WebSub.processFeedEntry, entry_budget.
  apply emits_try_quiet; [| intros; apply emits_ret].
  destruct (WebSub.videoId_of e) as [[| c v] |]; try apply emits_ret.
  apply emits_bind; [apply emits_hasBeenNotified |].
  intros [|]; [apply emits_ret_any |].
  apply emits_bind; [apply emits_getVideoMetadata |].
  intros [md |]; [| apply emits_ret_any].
  apply emits_bind_quiet; [apply emits_shouldNotifyForVideo |].
  intros [|]; cbn [negb]; [| apply emits_ret_any].
  apply emits_bind_quiet; [apply emits_new_Date |].
  intros detectedAt.
  apply emits_bind_quiet; [apply emits_forEachChat |].
  intros _. apply emits_markAsNotified.
Qed.

Lemma emits_forEachEntry sv config entries :
  emits_at_most p (WebSub.forEachEntry sv config entries)
    (sum_list (entry_budget p <$> entries)).
Proof.
  induction entries as [| e rest IH]; cbn.
  - apply emits_ret.
  - apply emits_bind; [apply emits_processFeedEntry | intros; apply IH].
Qed.

End Emits.

(** ** The metadata fetcher *)

Section YouTubeFacts.
Context (sv : Services).
Import YouTube.

Lemma events_of_eq {A} (m : M A) w (evs : list Event) :
  trace (snd (m w)) = trace w ++ evs -> events_of m w = evs.
Proof. intros H. unfold events_of. by rewrite H, drop_app_length. Qed.

Lemma onRequestError_backoff e attempt w :
  (attempt < MAX_RETRIES)%nat ->
  onRequestError sv e attempt w = sleep sv (backoff e attempt) w.
Proof.
  intros Hlt. unfold onRequestError, backoff.
  destruct (isRateLimited e); [done |].
  by destruct (Nat.ltb_spec attempt MAX_RETRIES); [| lia].
Qed.

Lemma ofInteger_exact (z : Z) :
  (Z.abs z <= 2 ^ 53)%Z -> JsNumber.ofInteger z = z.
Proof.
  intros H. unfold JsNumber.ofInteger.
  destruct (Z.ltb_spec (Z.abs z) (2 ^ 53)) as [| Hge]; [done |].
  assert (Hz : z = (2 ^ 53)%Z \/ z = (- 2 ^ 53)%Z) by lia.
  destruct Hz as [-> | ->]; vm_compute; reflexivity.
Qed.

Lemma ofInteger_truthy (z : Z) :
  z <> 0%Z -> JsNumber.truthy (JsNumber.ofInteger z) = true.
Proof.
  intros Hz. unfold JsNumber.ofInteger.
  destruct (Z.ltb_spec (Z.abs z) (2 ^ 53)) as [| Hge].
  { cbn. by destruct (Z.eqb_spec z 0). }
  cbv zeta.
  set (a := Z.abs z) in *. set (e := (Z.log2 a - 52)%Z).
  assert (Ha : (0 < a)%Z) by lia.
  assert (Hlog : (53 <= Z.log2 a)%Z) by (apply Z.log2_le_pow2; lia).
  assert (He : (0 <= e)%Z) by (unfold e; lia).
  assert (Hpow : (0 < 2 ^ e)%Z) by (apply Z.pow_pos_nonneg; lia).
  assert (Hq : (1 <= a / 2 ^ e)%Z).
  { apply Z.div_le_lower_bound; [done |].
    pose proof (Z.log2_spec a Ha) as [Hlo _].
    etrans; [| exact Hlo]. rewrite Z.mul_1_r.
    apply Z.pow_le_mono_r; unfold e; lia. }
  match goal with
  | |- JsNumber.truthy (if _ then _ else JsNumber.Int (_ * (?q * _))) = _ =>
      assert (Hq' : (1 <= q)%Z) by (repeat case_match; lia);
      generalize dependent q; intros q' Hq'
  end.
  destruct (2 ^ 1024 <=? q' * 2 ^ e)%Z; [done |].
  cbn. apply negb_true_iff, Z.eqb_neq. nia.
Qed.

Lemma mul_1000_truthy (n : JsNumber.t) :
  JsNumber.truthy (JsNumber.mul n 1000) = JsNumber.truthy n.
Proof.
  destruct n as [| negative | z]; [done | done |].
  cbn [JsNumber.mul JsNumber.truthy].
  destruct (Z.eqb_spec z 0) as [-> | Hz]; [done |].
  apply ofInteger_truthy. lia.
Qed.

Lemma rateLimitDelay_header (r : ErrorResponse) (attempt : nat) (h : string) :
  retry_after r = Some h -> h <> "" ->
  rateLimitDelay r attempt
  = JsNumber.or (JsNumber.mul (Js.parseInt10 h) 1000)
      (RETRY_DELAY_MS * Z.of_nat attempt)%Z.
Proof.
  intros Hh Hne. unfold rateLimitDelay. rewrite Hh.
  by destruct h as [| c h].
Qed.

(** C6 (as amended). After a failure with status 429 the fetcher sleeps
    for a delay that is computed from the [retry-after] header when the
    header is present and [parseInt] reads from it a number other than
    zero: the delay is then that number times 1000, as JavaScript numbers
    multiply (the nearest double; the product itself as long as it does not
    exceed 2^53).  When the header is present but reads as no number or as
    zero, the delay is [attempt * RETRY_DELAY_MS]; when the header is
    missing or empty it is a fixed default (1000000 ms).  After any other
    failure the delay is [attempt * RETRY_DELAY_MS]; there is none after
    the last attempt, which no retry follows. *)
Theorem retry_delay_rules (e : JsError) (attempt : nat) (w : World) :
  (forall r, isRateLimited e = Some r ->
     onRequestError sv e attempt w = sleep sv (rateLimitDelay r attempt) w
     /\ (forall h, retry_after r = Some h ->
           Js.parseInt10 h <> JsNumber.NaN -> Js.parseInt10 h <> 0%Z ->
           rateLimitDelay r attempt = JsNumber.mul (Js.parseInt10 h) 1000
           /\ forall n, Js.parseInt10 h = JsNumber.Int n ->
                 (Z.abs n * 1000 <= 2 ^ 53)%Z ->
                 rateLimitDelay r attempt = (n * 1000)%Z)
     /\ (forall h, retry_after r = Some h -> h <> "" ->
           Js.parseInt10 h = JsNumber.NaN \/ Js.parseInt10 h = 0%Z ->
           rateLimitDelay r attempt = (RETRY_DELAY_MS * Z.of_nat attempt)%Z)
     /\ (retry_after r = None \/ retry_after r = Some "" ->
           rateLimitDelay r attempt = 1000000%Z))
  /\ (isRateLimited e = None ->
        ((attempt < MAX_RETRIES)%nat ->
           onRequestError sv e attempt w
             = sleep sv (RETRY_DELAY_MS * Z.of_nat attempt)%Z w)
        /\ ((MAX_RETRIES <= attempt)%nat ->
              onRequestError sv e attempt w = (Ok tt, w))).
Proof.
  split.
  - intros r Hr. unfold onRequestError. rewrite Hr.
    split; [done |]. split; [| split].
    + intros h Hh Hnan Hzero.
      assert (Hne : h <> "") by (by intros ->).
      assert (Hdelay : rateLimitDelay r attempt
                       = JsNumber.mul (Js.parseInt10 h) 1000).
      { rewrite (rateLimitDelay_header r attempt h Hh Hne).
        unfold JsNumber.or. rewrite mul_1000_truthy.
        destruct (Js.parseInt10 h) as [| negative | z]; [done | done |].
        cbn. destruct (Z.eqb_spec z 0) as [-> | _]; done. }
      split; [done |].
      intros n Hn Hsmall. rewrite Hdelay, Hn. cbn [JsNumber.mul].
      apply ofInteger_exact. lia.
    + intros h Hh Hne Hp.
      rewrite (rateLimitDelay_header r attempt h Hh Hne).
      by destruct Hp as [-> | ->].
    + unfold rateLimitDelay. by intros [-> | ->].
  - intros Hr. unfold onRequestError. rewrite Hr. split; intros Hlt.
    + by destruct (Nat.ltb_spec attempt MAX_RETRIES); [| lia].
    + by destruct (Nat.ltb_spec attempt MAX_RETRIES); [lia |].
Qed.

(** C7. The fetcher never makes more than three attempts for one
    operation; and when the request fails on the first two attempts and
    succeeds on the third, it makes exactly three attempts, sleeps
    exactly the two backoff delays (one after each failure) and returns
    the metadata of the fetched response. *)
Theorem fetch_third_attempt (videoId : string) (w : World) :
  let url := API_BASE_URL +:+ "/videos" in
  countb isAnyFetchAttempt (events_of (getVideoMetadata sv videoId) w) <= 3
  /\ forall e1 e2 r item rest sn,
       axios_get sv (calls w) url videoId = inl e1 ->
       axios_get sv (S (calls w)) url videoId = inl e2 ->
       axios_get sv (S (S (calls w))) url videoId = inr r ->
       items r = Some (item :: rest) ->
       snippet item = Some sn ->
       fst (makeRequestWithRetry sv (axios_get_videos sv videoId) w) = Ok r
       /\ events_of (getVideoMetadata sv videoId) w
          = [AxiosGet url videoId; Sleep (backoff e1 1);
             AxiosGet url videoId; Sleep (backoff e2 2);
             AxiosGet url videoId]
       /\ exists md,
            fst (getVideoMetadata sv videoId w) = Ok (Some md)
            /\ id md = videoId
            /\ title md = snippet_title sn
            /\ description md = snippet_description sn
            /\ publishedAt md = snippet_publishedAt sn
            /\ channelTitle md = snippet_channelTitle sn
            /\ channelId md = snippet_channelId sn.
Proof.
  intros url. split.
  - apply (events_of_spec isAnyFetchAttempt _ 3 w).
    eapply emits_mono; [| apply emits_getVideoMetadata; done].
    cbn. lia.
  - intros e1 e2 r item rest sn H1 H2 H3 Hitems Hsn.
    assert (Hrun : makeRequestWithRetry sv (axios_get_videos sv videoId) w
              = (Ok r,
                 mkWorld
                   (now w + setTimeout_elapsed sv (backoff e1 1)
                    + setTimeout_elapsed sv (backoff e2 2))
                   (redis w) (S (S (S (calls w))))
                   (trace w ++
                      [AxiosGet url videoId; Sleep (backoff e1 1);
                       AxiosGet url videoId; Sleep (backoff e2 2);
                       AxiosGet url videoId]))).
    { unfold makeRequestWithRetry, MAX_RETRIES. cbn [attempts].
      unfold try_catch at 1. unfold axios_get_videos at 1. fold url.
      rewrite H1. unfold bind at 1.
      rewrite onRequestError_backoff by (unfold MAX_RETRIES; lia).
      cbn [sleep]. unfold try_catch at 1. unfold axios_get_videos at 1.
      cbn [request calls]. fold url. rewrite H2. unfold bind at 1.
      rewrite onRequestError_backoff by (unfold MAX_RETRIES; lia).
      cbn [sleep]. unfold try_catch at 1. unfold axios_get_videos at 1.
      cbn [request calls trace now redis]. fold url. rewrite H3.
      unfold request. cbn [now redis calls trace].
      repeat rewrite <- app_assoc. done. }
    split; [by rewrite Hrun |].
    assert (Hget : getVideoMetadata sv videoId w
              = (Ok (Some (mkVideoMetadata videoId (snippet_title sn)
                       (snippet_description sn) (snippet_publishedAt sn)
                       (Js.str_or (t ← thumbnails sn; high t)
                                  (t ← thumbnails sn; medium t))
                       (snippet_channelTitle sn) (snippet_channelId sn))),
                 snd (makeRequestWithRetry sv (axios_get_videos sv videoId) w))).
    { unfold getVideoMetadata, try_catch, bind. rewrite Hrun, Hitems, Hsn. done. }
    split.
    + apply events_of_eq. by rewrite Hget, Hrun.
    + eexists. rewrite Hget. cbn. done.
Qed.

End YouTubeFacts.

(** ** The delivery fan-out *)

Section TelegramFacts.
Context (sv : Services) (config : AppConfig).
Import Telegram.

Lemma sendAttempts_spec chat notification ts remaining :
  forall attempt lastError w,
    exists r w',
      sendAttempts sv chat notification ts remaining attempt lastError w
        = (Ok r, w')
      /\ chatId r = chat
      /\ timestamp r = ts
      /\ success r
         = delivered_within sv chat (formatNotificationMessage sv notification)
             (calls w) remaining
      /\ calls w'
         = calls w + sends_used sv chat (formatNotificationMessage sv notification)
                       (calls w) remaining.
Proof.
  induction remaining as [| rem IH]; intros attempt lastError w.
  - eexists _, w. cbn. repeat split; first [done | lia].
  - cbn [sendAttempts delivered_within sends_used].
    unfold try_catch, bind at 1, bot_api_sendMessage, delivered.
    destruct (api_sendMessage sv (calls w) chat _) as [e |].
    + set (w1 := snd ((if (attempt <? MAX_RETRIES)%nat
                       then sleep sv (RETRY_DELAY_MS * Z.of_nat attempt)
                       else ret tt) (request (SendMessage chat
                         (formatNotificationMessage sv notification)) w))).
      assert (Hc : calls w1 = S (calls w)).
      { unfold w1. by destruct (attempt <? MAX_RETRIES)%nat. }
      destruct (IH (S attempt) (Some e) w1) as (r & w' & Hrun & ? & ? & Hs & Hcalls).
      exists r, w'. unfold bind.
      replace ((if (attempt <? MAX_RETRIES)%nat
                then sleep sv (RETRY_DELAY_MS * Z.of_nat attempt)
                else ret tt) (request (SendMessage chat
                  (formatNotificationMessage sv notification)) w))
        with (@Ok unit tt, w1)
        by (unfold w1; by destruct (attempt <? MAX_RETRIES)%nat).
      rewrite Hrun, Hs, Hcalls, Hc. cbn. repeat split; try done; lia.
    + eexists _, _. cbn. repeat split; first [done | cbn; lia].
Qed.

Lemma sendToChatWithRetry_spec chat notification w :
  exists r w',
    sendToChatWithRetry sv chat notification w = (Ok r, w')
    /\ outcome r
       = (chat, delivered_within sv chat (formatNotificationMessage sv notification)
                  (calls w) MAX_RETRIES)
    /\ calls w'
       = calls w + sends_used sv chat (formatNotificationMessage sv notification)
                     (calls w) MAX_RETRIES.
Proof.
  unfold sendToChatWithRetry, bind, new_Date.
  destruct (sendAttempts_spec chat notification (now w) MAX_RETRIES 1 None w)
    as (r & w' & Hrun & Hchat & _ & Hs & Hcalls).
  exists r, w'. rewrite Hrun. unfold outcome. by rewrite Hchat, Hs.
Qed.

Lemma forEachChat_spec notification chats :
  forall results w,
    exists rs w',
      forEachChat sv notification chats results w = (Ok (results ++ rs), w')
      /\ outcome <$> rs
         = fanout_outcomes sv (formatNotificationMessage sv notification)
             (calls w) chats.
Proof.
  induction chats as [| chat rest IH]; intros results w.
  - exists [], w. cbn. by rewrite app_nil_r.
  - cbn [forEachChat fanout_outcomes]. unfold bind.
    destruct (sendToChatWithRetry_spec chat notification w)
      as (r & w1 & Hrun & Hout & Hcalls).
    rewrite Hrun.
    destruct (IH (results ++ [r]) w1) as (rs & w' & Hrest & Houts).
    exists (r :: rs), w'. rewrite Hrest, <- app_assoc. split; [done |].
    cbn. by rewrite Hout, Houts, Hcalls.
Qed.

Lemma fanout_outcomes_fst text chats : forall n,
  (fanout_outcomes sv text n chats).*1 = chats.
Proof. induction chats as [| c rest IH]; intros n; cbn; by rewrite ?IH. Qed.

Lemma delivered_within_const chat text (ok : bool) remaining : forall n,
  (forall k, delivered sv chat text k = ok) ->
  delivered_within sv chat text n (S remaining) = ok.
Proof.
  induction remaining as [| r IH]; intros n Hok.
  - cbn. rewrite Hok. by destruct ok.
  - change (delivered sv chat text n
            || delivered_within sv chat text (S n) (S r) = ok).
    rewrite IH, Hok by done. by destruct ok.
Qed.

Lemma fanout_outcomes_const text (ok : string -> bool) chats : forall n,
  (forall chat k, delivered sv chat text k = ok chat) ->
  fanout_outcomes sv text n chats = (fun chat => (chat, ok chat)) <$> chats.
Proof.
  induction chats as [| c rest IH]; intros n Hok; [done |].
  cbn [fanout_outcomes fmap list_fmap]. unfold MAX_RETRIES.
  rewrite (delivered_within_const c text (ok c)) by (intros; apply Hok).
  by rewrite IH.
Qed.

Lemma sendLivestreamNotification_run (notification : LivestreamNotification)
    (w : World) :
  exists results w',
    sendLivestreamNotification sv config notification w = (Ok results, w')
    /\ outcome <$> results
       = fanout_outcomes sv (formatNotificationMessage sv notification)
           (calls w) (telegram_chatIds config)
    /\ List.length results = List.length (telegram_chatIds config).
Proof.
  unfold sendLivestreamNotification.
  destruct (forEachChat_spec notification (telegram_chatIds config) [] w)
    as (rs & w' & Hrun & Houts).
  exists rs, w'. cbn in Hrun. repeat split; [done | done |].
  rewrite <- (length_fmap outcome), Houts, <- (length_fmap fst).
  by rewrite fanout_outcomes_fst.
Qed.

(** C2. The fan-out returns one outcome per configured destination, in
    the configured order; the success flag of each says whether one of
    that destination's own attempts (at most three) was delivered, so a
    destination whose attempts all fail is a failed outcome in its place
    and the other outcomes are what their destinations did. *)
Theorem fan_out_outcomes (notification : LivestreamNotification) (w : World) :
  exists results w',
    sendLivestreamNotification sv config notification w = (Ok results, w')
    /\ chatId <$> results = telegram_chatIds config
    /\ List.length results = List.length (telegram_chatIds config)
    /\ outcome <$> results
       = fanout_outcomes sv (formatNotificationMessage sv notification)
           (calls w) (telegram_chatIds config)
    /\ forall ok : string -> bool,
         (forall chat k,
            delivered sv chat (formatNotificationMessage sv notification) k
            = ok chat) ->
         success <$> results = ok <$> telegram_chatIds config.
Proof.
  unfold sendLivestreamNotification.
  destruct (forEachChat_spec notification (telegram_chatIds config) [] w)
    as (rs & w' & Hrun & Houts).
  exists rs, w'. cbn in Hrun.
  assert (Hids : chatId <$> rs = telegram_chatIds config).
  { rewrite <- (fanout_outcomes_fst (formatNotificationMessage sv notification)
                 (telegram_chatIds config) (calls w)), <- Houts.
    rewrite <- list_fmap_compose. done. }
  repeat split; try done.
  - by rewrite <- Hids, length_fmap.
  - intros ok Hok.
    rewrite (fanout_outcomes_const _ ok _ _ Hok) in Houts.
    apply (f_equal (fmap snd)) in Houts.
    rewrite <- !list_fmap_compose in Houts. done.
Qed.

End TelegramFacts.

(** ** The feed ingestion controller *)

Section WebSubFacts.
Context (sv : Services) (config : AppConfig).
Import WebSub.

Lemma starts_with_bind ev {A B} (m : M A) (k : A -> M B) :
  starts_with ev m -> (forall a, extends (k a)) -> starts_with ev (bind m k).
Proof.
  intros Hm Hk w. unfold bind. destruct (Hm w) as (evs & Htr).
  destruct (m w) as [[a | e] w1]; cbn in *; [| by exists evs].
  destruct (Hk a w1) as (evs2 & Htr2 & _).
  exists (evs ++ evs2). by rewrite Htr2, Htr, <- app_assoc.
Qed.

Lemma starts_with_try ev {A} (m : M A) (h : JsError -> M A) :
  starts_with ev m -> (forall e, extends (h e)) -> starts_with ev (try_catch m h).
Proof.
  intros Hm Hh w. unfold try_catch. destruct (Hm w) as (evs & Htr).
  destruct (m w) as [[a | e] w1]; cbn in *; [by exists evs |].
  destruct (Hh e w1) as (evs2 & Htr2 & _).
  exists (evs ++ evs2). by rewrite Htr2, Htr, <- app_assoc.
Qed.

Lemma extends_of (p : Event -> bool) {A} (m : M A) n :
  emits_at_most p m n -> extends m.
Proof.
  intros H w. destruct (H w) as (evs & Htr & _). exists evs.
  split; [done |]. unfold countb. clear Htr.
  induction evs as [| ev evs IH]; [done | exact IH].
Qed.

Lemma attempts_S {T} (requestFn : M T) remaining attempt lastError :
  YouTube.attempts sv requestFn (S remaining) attempt lastError
  = try_catch requestFn
      (fun e =>
         let* _ := YouTube.onRequestError sv e attempt in
         YouTube.attempts sv requestFn remaining (S attempt) (Some e)).
Proof. done. Qed.

Lemma getVideoMetadata_starts videoId :
  starts_with (AxiosGet (YouTube.API_BASE_URL +:+ "/videos") videoId)
    (YouTube.getVideoMetadata sv videoId).
Proof.
  unfold YouTube.getVideoMetadata, YouTube.makeRequestWithRetry.
  apply starts_with_try; [| intros; apply (emits_ret _ None)].
  apply starts_with_bind.
  - unfold YouTube.MAX_RETRIES. rewrite attempts_S. apply starts_with_try.
    + intros w. exists []. unfold YouTube.axios_get_videos.
      by destruct (axios_get sv (calls w) _ videoId).
    + intros e. apply emits_bind_quiet; [by apply emits_onRequestError |].
      intros _.
      apply (extends_of (fun _ => false) _ (2 * 0)).
      apply emits_attempts; [done |].
      apply (emits_axios_get_videos (fun _ => false)).
  - intros r. destruct (items r) as [[| item ?] |]; try apply emits_ret.
    destruct (snippet item); [apply emits_ret | apply emits_throw].
Qed.

Lemma try_catch_unit (m : M unit) w :
  fst (try_catch m (fun _ => ret tt) w) = Ok tt.
Proof. unfold try_catch. by destruct (m w) as [[[] | e] w1]. Qed.

Lemma processFeedEntry_ok e w : fst (processFeedEntry sv config e w) = Ok tt.
Proof. apply try_catch_unit. Qed.

Lemma forEachEntry_ok entries : forall w,
  fst (forEachEntry sv config entries w) = Ok tt.
Proof.
  induction entries as [| e rest IH]; intros w; [done |].
  cbn [forEachEntry]. unfold bind.
  generalize (processFeedEntry_ok e w).
  destruct (processFeedEntry sv config e w) as [[[] | err] w1]; [| done].
  intros _. apply IH.
Qed.

Lemma shouldNotifyForVideo_eq md w :
  LiveDetectorService.shouldNotifyForVideo md w
    = (Ok (LiveDetector.containsLiveTag (description md)), w).
Proof. done. Qed.

(** C1. For an entry that passes the duplicate check, the metadata fetch
    and the tag filter, the controller runs the fan-out and then, whatever
    the outcomes are (any number of failed destinations, all of them
    included), calls [markAsNotified] for the identifier: the [SETEX] is
    the last effect of the entry, and with the store reachable the
    identifier is reported as notified afterwards. *)
Theorem mark_after_fan_out (e : FeedEntry) (videoId : string)
    (md : VideoMetadata) (w w1 w2 : World) :
  videoId_of e = Some videoId ->
  videoId <> "" ->
  Deduplication.hasBeenNotified sv videoId w = (Ok false, w1) ->
  YouTube.getVideoMetadata sv videoId w1 = (Ok (Some md), w2) ->
  LiveDetector.containsLiveTag (description md) = true ->
  exists results w3,
    Telegram.sendLivestreamNotification sv config
      (mkLivestreamNotification md (config_platforms config) (now w2)) w2
      = (Ok results, w3)
    /\ failedSends results <= List.length (telegram_chatIds config)
    /\ processFeedEntry sv config e w
       = Deduplication.markAsNotified sv videoId w3
    /\ last (trace (snd (processFeedEntry sv config e w)))
       = Some (RedisSetex (Deduplication.KEY_PREFIX +:+ videoId)
                 Deduplication.TTL_SECONDS "1")
    /\ (redis_up sv (calls w3) = true ->
        redis_up sv (calls (snd (processFeedEntry sv config e w))) = true ->
        fst (Deduplication.hasBeenNotified sv videoId
               (snd (processFeedEntry sv config e w))) = Ok true).
Proof.
  intros Hid Hne Hdup Hfetch Htag.
  destruct (sendLivestreamNotification_run sv config
              (mkLivestreamNotification md (config_platforms config) (now w2)) w2)
    as (results & w3 & Hsend & _ & Hlen).
  exists results, w3.
  assert (Hrun : processFeedEntry sv config e w
                 = Deduplication.markAsNotified sv videoId w3).
  { unfold processFeedEntry. rewrite Hid.
    destruct videoId as [| c v]; [done |].
    unfold try_catch at 1, bind at 1. rewrite Hdup.
    unfold bind at 1. rewrite Hfetch.
    unfold bind at 1. rewrite shouldNotifyForVideo_eq, Htag. cbn [negb].
    unfold bind at 1, new_Date at 1. unfold bind at 1. rewrite Hsend.
    by destruct (Deduplication.markAsNotified sv (String c v) w3) as [[[] | err] w4] eqn:Hm;
      [| unfold Deduplication.markAsNotified, try_catch, Redis.setex, ret in Hm;
         destruct (redis_up sv (calls w3))]. }
  split; [done |]. split.
  { rewrite <- Hlen. unfold failedSends. apply length_filter. }
  split; [done |]. rewrite Hrun. split.
  - unfold Deduplication.markAsNotified, try_catch, Redis.setex, ret.
    destruct (redis_up sv (calls w3)); cbn; by rewrite last_snoc.
  - intros Hup Hup4.
    rewrite (hasBeenNotified_up sv _ _ Hup4). cbn [fst]. f_equal.
    rewrite (markAsNotified_up sv _ _ Hup). unfold Redis.live. cbn.
    rewrite lookup_insert_eq. apply Z.leb_le. unfold Deduplication.TTL_SECONDS. lia.
Qed.

Lemma handleWebSubCallback_eq c body w :
  req_text c = inr body ->
  handleWebSubCallback sv config c w
  = match payload_entries (parseStringPromise sv body) with
    | Some entries =>
        (Ok (text "OK" 200), snd (forEachEntry sv config entries w))
    | None => (Ok (text "Invalid payload" 400), w)
    end.
Proof.
  intros Hbody. unfold handleWebSubCallback, try_catch, bind at 1.
  rewrite Hbody. cbn [ret]. unfold bind at 1, parseXmlPayload, try_catch.
  unfold payload_entries.
  destruct (parseStringPromise sv body) as [err | [pd |]]; cbn; try done.
  destruct (feed pd) as [f |]; [| done].
  destruct (entry f) as [| es | e]; [done | |].
  - unfold bind. generalize (forEachEntry_ok es w).
    by destruct (forEachEntry sv config es w) as [[[] | err] w1].
  - generalize (processFeedEntry_ok e w). cbn [forEachEntry]. unfold bind, ret.
    by destruct (processFeedEntry sv config e w) as [[[] | err] w1].
Qed.

(** C8. A POST whose body parses into a feed with an entry structure is
    answered 200 whatever happens to its entries; a body that does not
    parse, or lacks the feed or the entry structure, is answered 400; in
    neither case does the handler throw or answer anything else. *)
Theorem callback_status (c : PostRequest) (body : string) (w : World) :
  req_text c = inr body ->
  exists response,
    fst (handleWebSubCallback sv config c w) = Ok response
    /\ status_code response
       = match payload_entries (parseStringPromise sv body) with
         | Some _ => 200%Z
         | None => 400%Z
         end.
Proof.
  intros Hbody. rewrite (handleWebSubCallback_eq c body w Hbody).
  destruct (payload_entries (parseStringPromise sv body)); by eexists.
Qed.

(** C10. A verification GET with [hub.mode=subscribe] and the expected
    [hub.topic] but no [hub.challenge] is answered 200 with an empty
    body. *)
Theorem verification_without_challenge (query : gmap string string) :
  query !! "hub.mode" = Some "subscribe" ->
  query !! "hub.topic" = Some (TOPIC_URL config) ->
  query !! "hub.challenge" = None ->
  handleSubscriptionVerification config query = text "" 200.
Proof.
  intros Hmode Htopic Hch. unfold handleSubscriptionVerification.
  rewrite Hmode, Htopic, Hch.
  rewrite !bool_decide_eq_true_2 by done. done.
Qed.


Lemma sum_budget_le (budget : FeedEntry -> nat) (q : FeedEntry -> bool)
    (c : nat) (entries : list FeedEntry) :
  (forall e, budget e <= c * Nat.b2n (q e)) ->
  sum_list (budget <$> entries) <= c * List.length (List.filter q entries).
Proof.
  intros Hb. induction entries as [| e rest IH]; cbn; [lia |].
  specialize (Hb e). destruct (q e); cbn in *; lia.
Qed.

Lemma filter_all_length (entries : list FeedEntry) :
  List.length (List.filter (fun _ => true) entries) = List.length entries.
Proof. induction entries; cbn; lia. Qed.

Lemma key_eq_decide (a b : string) :
  bool_decide (Deduplication.KEY_PREFIX +:+ a = Deduplication.KEY_PREFIX +:+ b)
  = bool_decide (a = b).
Proof.
  apply bool_decide_ext. split; [apply key_inj | by intros ->].
Qed.

Lemma budget_any_check e : entry_budget isAnyDuplicateCheck e <= 1 * Nat.b2n true.
Proof. unfold entry_budget. destruct (videoId_of e) as [[|] |]; cbn; lia. Qed.

Lemma budget_any_fetch e : entry_budget isAnyFetchAttempt e <= 3 * Nat.b2n true.
Proof. unfold entry_budget. destruct (videoId_of e) as [[|] |]; cbn; lia. Qed.

Lemma budget_any_mark e : entry_budget isAnyMark e <= 1 * Nat.b2n true.
Proof. unfold entry_budget. destruct (videoId_of e) as [[|] |]; cbn; lia. Qed.

Lemma budget_check videoId e :
  entry_budget (isDuplicateCheck videoId) e <= 1 * Nat.b2n (names videoId e).
Proof.
  unfold entry_budget, names. destruct (videoId_of e) as [[| c v] |]; [lia | | lia].
  cbn [isDuplicateCheck]. rewrite key_eq_decide. cbn. lia.
Qed.

Lemma budget_fetch videoId e :
  entry_budget (isFetchAttempt videoId) e <= 3 * Nat.b2n (names videoId e).
Proof.
  unfold entry_budget, names. destruct (videoId_of e) as [[| c v] |]; [lia | | lia].
  cbn [isFetchAttempt isMark]. destruct (bool_decide _); cbn; lia.
Qed.

Lemma budget_mark videoId e :
  entry_budget (isMark videoId) e <= 1 * Nat.b2n (names videoId e).
Proof.
  unfold entry_budget, names. destruct (videoId_of e) as [[| c v] |]; [lia | | lia].
  cbn [isMark isDuplicateCheck isFetchAttempt]. rewrite key_eq_decide. cbn. lia.
Qed.

Lemma forEachEntry_bound (p : Event -> bool) (q : FeedEntry -> bool) (c : nat)
    entries w :
  (forall ms, p (Sleep ms) = false) ->
  (forall chat text, p (SendMessage chat text) = false) ->
  (forall e, entry_budget p e <= c * Nat.b2n (q e)) ->
  countb p (events_of (forEachEntry sv config entries) w)
    <= c * List.length (List.filter q entries).
Proof.
  intros Hsleep Hsend Hb.
  destruct (events_of_spec p (forEachEntry sv config entries) _ w
              (emits_forEachEntry p Hsleep Hsend sv config entries)) as [_ Hn].
  etrans; [apply Hn | by apply sum_budget_le].
Qed.

Lemma processFeedEntry_notified e videoId w :
  names videoId e = true ->
  fst (Deduplication.hasBeenNotified sv videoId w) = Ok true ->
  events_of (processFeedEntry sv config e) w
    = [RedisExists (Deduplication.KEY_PREFIX +:+ videoId)].
Proof.
  unfold names. intros Hname Hdup. apply events_of_eq.
  unfold processFeedEntry.
  destruct (videoId_of e) as [[| c v] |]; try done.
  apply bool_decide_eq_true_1 in Hname as ->.
  unfold try_catch, bind.
  destruct (emits_hasBeenNotified (fun _ => false) sv videoId w) as (evs & _).
  revert Hdup. unfold Deduplication.hasBeenNotified, try_catch, bind, Redis.exists_, ret.
  destruct (redis_up sv (calls w)); [| done].
  by destruct (Redis.live w _).
Qed.

Lemma countb_cons_ge (p : Event -> bool) ev evs :
  p ev = true -> 1 <= countb p (ev :: evs).
Proof. intros H. unfold countb. cbn. rewrite H. cbn. lia. Qed.

(** C9. When the store does not answer the lookup, [hasBeenNotified]
    returns [false] instead of throwing, and the entry goes on to its
    metadata fetch. *)
Theorem hasBeenNotified_fails_open (videoId : string) (w : World) :
  redis_up sv (calls w) = false ->
  Deduplication.hasBeenNotified sv videoId w
    = (Ok false, request (RedisExists (Deduplication.KEY_PREFIX +:+ videoId)) w)
  /\ forall e,
       names videoId e = true ->
       exists evs,
         events_of (processFeedEntry sv config e) w
         = RedisExists (Deduplication.KEY_PREFIX +:+ videoId)
           :: AxiosGet (YouTube.API_BASE_URL +:+ "/videos") videoId
           :: evs.
Proof.
  intros Hdown. split; [by apply hasBeenNotified_down |].
  intros e Hname. unfold names in Hname.
  destruct (videoId_of e) as [[| c v] |] eqn:Hid; try done.
  apply bool_decide_eq_true_1 in Hname as <-.
  assert (Hrest : starts_with
            (AxiosGet (YouTube.API_BASE_URL +:+ "/videos") (String c v))
            (try_catch
               (let* videoMetadata := YouTube.getVideoMetadata sv (String c v) in
                match videoMetadata with
                | None => ret tt
                | Some videoMetadata =>
                    let* shouldNotify :=
                      LiveDetectorService.shouldNotifyForVideo videoMetadata in
                    if negb shouldNotify then ret tt else
                    let* detectedAt := new_Date in
                    let* results :=
                      Telegram.sendLivestreamNotification sv config
                        (mkLivestreamNotification videoMetadata
                           (config_platforms config) detectedAt) in
                    Deduplication.markAsNotified sv (String c v)
                end)
               (fun _ => ret tt))).
  { apply starts_with_try; [| intros; apply emits_ret].
    apply starts_with_bind; [apply getVideoMetadata_starts |].
    intros [md |]; [| apply emits_ret].
    apply emits_bind_quiet; [by apply emits_shouldNotifyForVideo |].
    intros [|]; cbn [negb]; [| apply emits_ret].
    apply emits_bind_quiet; [apply emits_new_Date |]. intros detectedAt.
    apply emits_bind_quiet; [by apply emits_forEachChat |]. intros _.
    apply (extends_of isSleep _ _ (emits_markAsNotified isSleep sv (String c v))). }
  destruct (Hrest (request (RedisExists (Deduplication.KEY_PREFIX +:+ String c v)) w))
    as (evs & Htr).
  exists evs. apply events_of_eq.
  unfold processFeedEntry. rewrite Hid.
  unfold try_catch at 1, bind at 1. rewrite (hasBeenNotified_down sv _ _ Hdown).
  unfold try_catch in Htr. rewrite Htr. cbn [request trace].
  by rewrite <- app_assoc.
Qed.

End WebSubFacts.

(** ** The properties on the scenarios *)

Section Scenarios.
Import Scenario.

Lemma containsLiveTag_boundary_witness :
  Marker.occursAsWord "new episode #live today" = true
  /\ LiveDetector.containsLiveTag "new episode #live today" = true
  /\ LiveDetector.containsLiveTag "#livestream tonight" = false.
Proof.
  split; [reflexivity |]. split.
  - apply (containsLiveTag_boundary "new episode #live today"). reflexivity.
  - reflexivity.
Defined.

(** The token only occurs inside the longer word [x#live], and the
    filter matches. *)
Lemma suffix_of_longer_word_matches :
  ~ (Marker.occursOnlyInsideLongerWord "x#live" = true ->
     LiveDetector.containsLiveTag "x#live" = false).
Proof. intros H. specialize (H eq_refl). discriminate H. Qed.

Lemma notified_until_expiry_witness :
  Clock.elapsed [Clock.Tick 3600000; Clock.Mark "other"; Clock.Tick 82799999]
    = 86399999%Z
  /\ fst (Deduplication.hasBeenNotified svB "abc123"
            (Clock.runOps svB
               [Clock.Tick 3600000; Clock.Mark "other"; Clock.Tick 82799999]
               (snd (Deduplication.markAsNotified svB "abc123" w0))))
     = Ok true.
Proof.
  split; [reflexivity |].
  refine (proj2 (notified_until_expiry svB "abc123"
           [Clock.Tick 3600000; Clock.Mark "other"; Clock.Tick 82799999] w0
           eq_refl _ eq_refl)).
  repeat constructor; cbn; first [lia | discriminate].
Defined.

Example notified_expired_after_window :
  fst (Deduplication.hasBeenNotified svB "abc123"
         (Clock.runOps svB [Clock.Tick 86400001]
            (snd (Deduplication.markAsNotified svB "abc123" w0))))
  = Ok false.
Proof. reflexivity. Qed.

Lemma retry_delay_rules_witness :
  YouTube.isRateLimited
    (AxiosError "Request failed with status code 429"
       (Some (mkErrorResponse 429 (Some "7"))))
    = Some (mkErrorResponse 429 (Some "7"))
  /\ YouTube.rateLimitDelay (mkErrorResponse 429 (Some "7")) 2 = 7000%Z.
Proof.
  split; [reflexivity |].
  refine (proj2 (proj1 (proj2 (proj1 (retry_delay_rules svFlaky
            (AxiosError "Request failed with status code 429"
               (Some (mkErrorResponse 429 (Some "7")))) 2 w0)
            (mkErrorResponse 429 (Some "7")) eq_refl))
          "7" eq_refl _ _) 7%Z eq_refl _).
  - discriminate.
  - discriminate.
  - vm_compute. discriminate.
Defined.

(** With the header present and equal to [0], the delay follows the
    attempt number. *)
Lemma zero_retry_after_ignored :
  ~ delay_set_by_header (mkErrorResponse 429 (Some "0")).
Proof. intros H. specialize (H 1 2). vm_compute in H. discriminate H. Qed.

Lemma fetch_third_attempt_witness :
  fst (YouTube.getVideoMetadata svFlaky "abc123" w0)
    = Ok (Some (mkVideoMetadata "abc123" "Episode 12" "new episode #live today"
                  "2024-05-01T18:00:00Z" None "1453 AI" "UC1453"))
  /\ events_of (YouTube.getVideoMetadata svFlaky "abc123") w0
     = [AxiosGet "https://www.googleapis.com/youtube/v3/videos" "abc123";
        Sleep 1000;
        AxiosGet "https://www.googleapis.com/youtube/v3/videos" "abc123";
        Sleep 7000;
        AxiosGet "https://www.googleapis.com/youtube/v3/videos" "abc123"].
Proof.
  split; [reflexivity |].
  exact (proj1 (proj2 (proj2 (fetch_third_attempt svFlaky "abc123" w0)
           _ _ _ _ _ _ eq_refl eq_refl eq_refl eq_refl eq_refl))).
Defined.

Lemma fan_out_outcomes_witness :
  success <$>
    match fst (Telegram.sendLivestreamNotification svB cfg
                 (mkLivestreamNotification
                    (mkVideoMetadata "abc123" "Episode 12"
                       "new episode #live today" "2024-05-01T18:00:00Z" None
                       "1453 AI" "UC1453") links 0) w0) with
    | Ok results => results
    | Throw _ => []
    end
  = [true; false; true].
Proof.
  destruct (fan_out_outcomes svB cfg
              (mkLivestreamNotification
                 (mkVideoMetadata "abc123" "Episode 12"
                    "new episode #live today" "2024-05-01T18:00:00Z" None
                    "1453 AI" "UC1453") links 0) w0)
    as (results & w' & Hrun & _ & _ & _ & Hok).
  rewrite Hrun. cbn [fst].
  exact (Hok (fun chat => negb (bool_decide (chat = "B")))
           (fun chat k =>
              match bool_decide (chat = "B") as b
                return (match (if b then Some (Error "Forbidden") else None) with
                        | None => true | Some _ => false end = negb b)
              with true => eq_refl | false => eq_refl end)).
Defined.

Lemma mark_after_fan_out_witness :
  let w1 := snd (Deduplication.hasBeenNotified svB "abc123" w0) in
  let w2 := snd (YouTube.getVideoMetadata svB "abc123" w1) in
  exists results w3,
    Telegram.sendLivestreamNotification svB cfg
      (mkLivestreamNotification
         (mkVideoMetadata "abc123" "Episode 12" "new episode #live today"
            "2024-05-01T18:00:00Z" None "1453 AI" "UC1453")
         links (now w2)) w2 = (Ok results, w3)
    /\ WebSub.processFeedEntry svB cfg entry_abc w0
       = Deduplication.markAsNotified svB "abc123" w3
    /\ last (trace (snd (WebSub.processFeedEntry svB cfg entry_abc w0)))
       = Some (RedisSetex "youtube-livestream:abc123" 86400 "1").
Proof.
  intros w1 w2.
  destruct (mark_after_fan_out svB cfg entry_abc "abc123"
              (mkVideoMetadata "abc123" "Episode 12" "new episode #live today"
                 "2024-05-01T18:00:00Z" None "1453 AI" "UC1453")
              w0 w1 w2 eq_refl ltac:(discriminate) eq_refl eq_refl eq_refl)
    as (results & w3 & Hsend & _ & Hrun & Hlast & _).
  exists results, w3. repeat split; assumption.
Defined.

(** A payload that carries the identifier [abc123] twice: with the store
    unreachable the fan-out and the mark run twice for it; with the
    store reachable and no tag in the description, the duplicate check and
    the metadata fetch run twice for it. *)
Lemma repeated_identifier_runs_twice :
  ~ once_per_identifier
      (events_of (WebSub.handleWebSubCallback svDown cfg post) w0) "abc123"
  /\ countb (isMark "abc123")
       (events_of (WebSub.handleWebSubCallback svDown cfg post) w0) = 2
  /\ countb isSend
       (events_of (WebSub.handleWebSubCallback svDown cfg post) w0) = 6
  /\ countb (isDuplicateCheck "abc123")
       (events_of (WebSub.handleWebSubCallback svUntagged cfg post) w0) = 2
  /\ countb (isFetchAttempt "abc123")
       (events_of (WebSub.handleWebSubCallback svUntagged cfg post) w0) = 2.
Proof.
  split; [| repeat split; vm_compute; reflexivity].
  intros (_ & H). vm_compute in H. lia.
Qed.

Lemma callback_status_witness :
  exists response,
    fst (WebSub.handleWebSubCallback svDown cfg post w0) = Ok response
    /\ WebSub.status_code response = 200%Z.
Proof.
  destruct (callback_status svDown cfg post "<feed>...</feed>" w0 eq_refl)
    as (response & Hrun & Hstatus).
  exists response. split; [exact Hrun | exact Hstatus].
Defined.

Lemma hasBeenNotified_fails_open_witness :
  Deduplication.hasBeenNotified svDown "abc123" w0
  = (Ok false, request (RedisExists "youtube-livestream:abc123") w0).
Proof.
  exact (proj1 (hasBeenNotified_fails_open svDown cfg "abc123" w0 eq_refl)).
Defined.

Lemma verification_without_challenge_witness :
  WebSub.handleSubscriptionVerification cfg
    (<["hub.mode" := "subscribe"]>
       (<["hub.topic" :=
            "https://www.youtube.com/xml/feeds/videos.xml?channel_id=UC1453"]> ∅))
  = WebSub.text "" 200.
Proof.
  apply verification_without_challenge; reflexivity.
Defined.

End Scenarios.


(** * Further properties *)

(** ** The context of the tag *)

Section TagContextFacts.
Import Regex RegexExec Marker LiveDetector LiveDetectorContext.

Lemma matchLength_matchHere (ic : bool) (p : list term) : forall prev s,
  is_Some (matchLength ic p prev s) <-> matchHere ic p prev s = true.
Proof.
  induction p as [| [c |] p IH]; intros prev s; cbn [matchLength matchHere].
  - split; [done | by eexists].
  - destruct s as [| d s]; [split; [by intros [? ?] | done] |].
    destruct (Ascii.eqb _ _); cbn [andb].
    + rewrite <- IH. rewrite fmap_is_Some. done.
    + split; [by intros [? ?] | done].
  - destruct (xorb _ _); cbn [andb]; [apply IH |].
    split; [by intros [? ?] | done].
Qed.

Lemma execFrom_searchFrom (ic : bool) (p : list term) : forall s prev index,
  is_Some (execFrom ic p prev s index) <-> searchFrom ic p prev s = true.
Proof.
  induction s as [| d s IH]; intros prev index; cbn [execFrom searchFrom].
  - rewrite orb_false_r, <- matchLength_matchHere.
    destruct (matchLength ic p prev ""); split; try done; by intros [? ?].
  - rewrite orb_true_iff, <- matchLength_matchHere, <- (IH (Some d) (S index)).
    destruct (matchLength ic p prev (String d s)) as [n |].
    + split; [left | ]; by eexists.
    + split; [by right | intros [[? ?] | H]; done].
Qed.

(** X1. The context is [null] exactly for the descriptions the tag filter
    rejects, whatever the context length. *)
Theorem context_none_iff (description : string) (contextLength : Z) :
  extractLiveTagContext description contextLength = None
  <-> containsLiveTag description = false.
Proof.
  unfold extractLiveTagContext, match_, containsLiveTag, test.
  rewrite <- not_true_iff_false.
  cbn [source ignoreCase LIVE_TAG_PATTERN].
  rewrite <- (execFrom_searchFrom true (literal "#live" ++ [WordBoundary])
                description None 0).
  destruct (execFrom true _ None description 0) as [[index n] |]; cbn.
  - split; [done | intros H; destruct H; by eexists].
  - split; [by intros _ [? ?] | done].
Qed.

Lemma la_app (a b : string) :
  list_ascii_of_string (a +:+ b) = list_ascii_of_string a ++ list_ascii_of_string b.
Proof.
  induction a as [| c a IH]; [done |]. rewrite append_cons. cbn. by rewrite IH.
Qed.

Lemma la_length (s : string) :
  List.length (list_ascii_of_string s) = String.length s.
Proof. induction s as [| c s IH]; cbn; [done | by rewrite IH]. Qed.

Lemma sl_app (a b : list ascii) :
  string_of_list_ascii (a ++ b) = string_of_list_ascii a +:+ string_of_list_ascii b.
Proof.
  induction a as [| c a IH]; [done |]. cbn. by rewrite append_cons, IH.
Qed.

Lemma sl_length (l : list ascii) :
  String.length (string_of_list_ascii l) = List.length l.
Proof. induction l as [| c l IH]; cbn; [done | by rewrite IH]. Qed.

Lemma la_substring (s : string) : forall n m,
  list_ascii_of_string (String.substring n m s)
  = take m (drop n (list_ascii_of_string s)).
Proof.
  induction s as [| c s IH]; intros [| n] [| m]; cbn; try done.
  all: by rewrite IH.
Qed.

Lemma matchLength_literal (lits : string) (rest : list term) :
  forall prev s n,
    matchLength true (literal lits ++ rest) prev s = Some n ->
    exists t s' m,
      s = t +:+ s' /\ upper t = upper lits
      /\ matchLength true rest (lastOr prev t) s' = Some m
      /\ n = String.length t + m.
Proof.
  induction lits as [| c lits IH]; intros prev s n.
  - change (literal "" ++ rest) with rest. intros H. by exists "", s, n.
  - change (literal (String c lits) ++ rest)
      with (Char c :: (literal lits ++ rest)).
    cbn [matchLength]. destruct s as [| d s1]; [done |].
    destruct (Ascii.eqb _ _) eqn:Hc; [| done].
    destruct (matchLength true (literal lits ++ rest) (Some d) s1) as [k |] eqn:Hk;
      [| done].
    intros [= <-]. apply IH in Hk as (t & s' & m & -> & Ht & Hm & ->).
    exists (String d t), s', m. repeat split; try done.
    cbn [upper]. apply Ascii.eqb_eq in Hc. cbn in Hc. by rewrite Ht, Hc.
Qed.

Lemma execFrom_spec (p : list term) : forall s prev index i n,
  execFrom true p prev s index = Some (i, n) ->
  exists pre suf,
    s = pre +:+ suf /\ i = index + String.length pre
    /\ matchLength true p (lastOr prev pre) suf = Some n.
Proof.
  induction s as [| d s IH]; intros prev index i n; cbn [execFrom].
  - destruct (matchLength true p prev "") as [k |] eqn:Hk; [| done].
    intros [= <- <-]. exists "", "". cbn. repeat split; [lia | done].
  - destruct (matchLength true p prev (String d s)) as [k |] eqn:Hk.
    + intros [= <- <-]. exists "", (String d s). cbn. repeat split; [lia | done].
    + intros H. apply IH in H as (pre & suf & -> & -> & Hm).
      exists (String d pre), suf. cbn. repeat split; [lia | done].
Qed.

(** The match is the leftmost one: the pattern matches at no earlier
    position. *)
Lemma execFrom_least (p : list term) : forall s prev index i n,
  execFrom true p prev s index = Some (i, n) ->
  forall pre suf,
    s = pre +:+ suf ->
    is_Some (matchLength true p (lastOr prev pre) suf) ->
    i <= index + String.length pre.
Proof.
  induction s as [| d s IH]; intros prev index i n; cbn [execFrom].
  - destruct (matchLength true p prev "") as [k |] eqn:Hk; [| done].
    intros [= <- <-] pre suf _ _. lia.
  - destruct (matchLength true p prev (String d s)) as [k |] eqn:Hk.
    + intros [= <- <-] pre suf _ _. lia.
    + intros H pre suf Hs Hsome. destruct pre as [| d' pre].
      * rewrite append_nil_l in Hs. subst suf. cbn in Hsome.
        rewrite Hk in Hsome. by destruct Hsome.
      * rewrite append_cons in Hs. injection Hs as <- ->.
        specialize (IH _ _ _ _ H pre suf eq_refl Hsome). cbn. lia.
Qed.

(** The pattern matches where the token stands with no word character
    after it. *)
Lemma matchLength_token (prev : option ascii) (t suf : string) :
  isToken t = true -> boundaryAhead suf ->
  is_Some (matchLength true (source LIVE_TAG_PATTERN) prev (t +:+ suf)).
Proof.
  intros Ht Hb. apply matchLength_matchHere.
  unfold LIVE_TAG_PATTERN. cbn [source].
  apply matchHere_literal. exists t, suf.
  apply String.eqb_eq in Ht. repeat split; [done |].
  cbn [matchHere]. rewrite (token_ends_in_word _ t Ht).
  unfold boundaryAhead in Hb. by rewrite Hb.
Qed.

(** Where the pattern is found, the description is the text before the
    match, the token in some letter case, and the rest, which does not
    start with a word character; and no occurrence of the token that is
    followed by such a rest starts further left. *)
Lemma match_spec (d : string) (index : nat) (match0 : string) :
  match_ LIVE_TAG_PATTERN d = Some (index, match0) ->
  exists pre rest,
    d = pre +:+ match0 +:+ rest /\ index = String.length pre
    /\ isToken match0 = true /\ String.length match0 = 5
    /\ boundaryAhead rest
    /\ forall pre' t' rest',
         d = pre' +:+ t' +:+ rest' -> isToken t' = true -> boundaryAhead rest' ->
         String.length pre <= String.length pre'.
Proof.
  unfold match_.
  destruct (execFrom (ignoreCase LIVE_TAG_PATTERN) (source LIVE_TAG_PATTERN)
              None d 0) as [[i n] |] eqn:Hexec; [| done].
  cbn. intros [= <- <-].
  change (ignoreCase LIVE_TAG_PATTERN) with true in Hexec.
  pose proof (execFrom_least _ _ _ _ _ _ Hexec) as Hleast.
  apply execFrom_spec in Hexec as (pre & suf & -> & -> & Hm).
  unfold LIVE_TAG_PATTERN in Hm. cbn [source] in Hm.
  apply matchLength_literal in Hm as (t & rest & m & -> & Ht & Hm & ->).
  cbn [matchLength] in Hm.
  destruct (xorb _ _) eqn:Hx; [| done]. injection Hm as <-.
  rewrite (token_ends_in_word _ t Ht) in Hx.
  assert (Hlen : String.length t = 5).
  { destruct t as [| c1 [| c2 [| c3 [| c4 [| c5 [| c6 t]]]]]]; done. }
  exists pre, rest. cbn [plus].
  assert (Hsub : String.substring (String.length pre) (String.length t + 0)
                   (pre +:+ t +:+ rest) = t).
  { rewrite <- (string_of_list_ascii_of_string (String.substring _ _ _)).
    rewrite la_substring, !la_app, <- (la_length pre), drop_app_length.
    rewrite Nat.add_0_r, <- (la_length t), take_app_length.
    apply string_of_list_ascii_of_string. }
  rewrite Hsub. repeat split; try done.
  - by apply String.eqb_eq.
  - unfold boundaryAhead. by destruct (isWordCharOpt (peek rest)).
  - intros pre' t' rest' Hd Ht' Hb'.
    apply (Hleast pre' (t' +:+ rest') Hd). by apply matchLength_token.
Qed.

(** X2. For a context length that is not negative, the context is the
    match of the pattern (the leftmost occurrence of the token, in any
    letter case, that no word character follows) with the
    [contextLength] characters before it and the [contextLength]
    characters after it, fewer only where the description starts or ends
    first. *)
Theorem context_window (description : string) (contextLength : Z) (context : string) :
  (0 <= contextLength)%Z ->
  extractLiveTagContext description contextLength = Some context ->
  exists pre a t b suf,
    description = pre +:+ a +:+ t +:+ b +:+ suf
    /\ context = a +:+ t +:+ b
    /\ isToken t = true
    /\ boundaryAhead (b +:+ suf)
    /\ (forall pre' t' suf',
          description = pre' +:+ t' +:+ suf' ->
          isToken t' = true -> boundaryAhead suf' ->
          String.length (pre +:+ a) <= String.length pre')
    /\ (Z.of_nat (String.length a) <= contextLength)%Z
    /\ (Z.of_nat (String.length b) <= contextLength)%Z
    /\ (pre = "" \/ Z.of_nat (String.length a) = contextLength)
    /\ (suf = "" \/ Z.of_nat (String.length b) = contextLength).
Proof.
  intros Hc. unfold extractLiveTagContext.
  destruct (match_ LIVE_TAG_PATTERN description) as [[index t] |] eqn:Hm; [| done].
  intros [= <-].
  apply match_spec in Hm as (P & R & -> & -> & Htok & Ht & Hbound & Hleft).
  set (lp := list_ascii_of_string P). set (lr := list_ascii_of_string R).
  set (i := String.length P). set (c := Z.to_nat contextLength).
  assert (Hi : List.length lp = i) by apply la_length.
  assert (Hlen : String.length (P +:+ t +:+ R) = i + 5 + List.length lr).
  { rewrite <- la_length, !la_app, !length_app. fold lp lr.
    rewrite Hi, (la_length t), Ht. lia. }
  assert (HP : string_of_list_ascii (take (i - c) lp)
               +:+ string_of_list_ascii (drop (i - c) lp) = P).
  { rewrite <- sl_app, take_drop. apply string_of_list_ascii_of_string. }
  assert (HR : string_of_list_ascii (take c lr)
               +:+ string_of_list_ascii (drop c lr) = R).
  { rewrite <- sl_app, take_drop. apply string_of_list_ascii_of_string. }
  exists (string_of_list_ascii (take (i - c) lp)),
         (string_of_list_ascii (drop (i - c) lp)),
         t,
         (string_of_list_ascii (take c lr)),
         (string_of_list_ascii (drop c lr)).
  assert (Hctx : JsString.substring (P +:+ t +:+ R)
                   (Z.max 0 (Z.of_nat i - contextLength))
                   (Z.min (Z.of_nat (String.length (P +:+ t +:+ R)))
                      (Z.of_nat i + Z.of_nat (String.length t) + contextLength))
                 = string_of_list_ascii (drop (i - c) lp) +:+ t
                   +:+ string_of_list_ascii (take c lr)).
  { unfold JsString.substring, JsString.clamp. rewrite Hlen, Ht.
    replace (Z.to_nat (Z.min (Z.max (Z.max 0 (Z.of_nat i - contextLength)) 0)
                         (Z.of_nat (i + 5 + List.length lr))))
      with (i - c) by lia.
    replace (Z.to_nat (Z.min (Z.max (Z.min (Z.of_nat (i + 5 + List.length lr))
                                       (Z.of_nat i + Z.of_nat 5 + contextLength)) 0)
                         (Z.of_nat (i + 5 + List.length lr))))
      with (i + 5 + Nat.min c (List.length lr)) by lia.
    rewrite Nat.min_l, Nat.max_r by lia.
    rewrite <- (string_of_list_ascii_of_string (String.substring _ _ _)).
    rewrite la_substring, !la_app. fold lp lr.
    rewrite drop_app_le by lia.
    rewrite take_app_ge by (rewrite length_drop; lia).
    rewrite length_drop, take_app_ge by (rewrite la_length; lia).
    rewrite la_length, Ht.
    replace (i + 5 + Nat.min c (List.length lr) - (i - c) - (List.length lp - (i - c)) - 5)
      with (Nat.min c (List.length lr)) by lia.
    rewrite !sl_app, string_of_list_ascii_of_string.
    f_equal. f_equal. f_equal.
    destruct (Nat.le_ge_cases c (List.length lr)).
    - by rewrite Nat.min_l.
    - by rewrite Nat.min_r, !take_ge by lia. }
  rewrite Hctx. split.
  { rewrite <- (append_assoc (string_of_list_ascii (take (i - c) lp))).
    by rewrite HP, HR. }
  split; [done |]. split; [done |].
  split; [by rewrite HR |].
  split; [by rewrite HP |].
  rewrite !sl_length, length_drop, !length_take.
  repeat split; try lia.
  - destruct (Nat.le_gt_cases i c) as [Hle | Hgt].
    + left. replace (i - c) with 0 by lia. done.
    + right. lia.
  - destruct (Nat.le_gt_cases (List.length lr) c) as [Hle | Hgt].
    + left. by rewrite drop_ge.
    + right. lia.
Qed.

(** Computing the context for the log line does not change the answer. *)
Lemma shouldNotifyForVideo_with_context (md : VideoMetadata) :
  LiveDetectorContext.shouldNotifyForVideo md
  = LiveDetectorService.shouldNotifyForVideo md.
Proof. done. Qed.

End TagContextFacts.

(** ** The duplicate suppressor, further *)

Section DeduplicationMore.
Context (sv : Services).
Import Deduplication.

Lemma live_foreign (videoId : string) (ops : list Clock.StoreOp) (w : World) :
  Forall (Clock.foreign videoId) ops ->
  Clock.elapsed ops = 0%Z ->
  Redis.live (Clock.runOps sv ops w) (KEY_PREFIX +:+ videoId)
  = Redis.live w (KEY_PREFIX +:+ videoId).
Proof.
  intros Hall H0. unfold Redis.live.
  destruct (runOps_foreign sv videoId ops w Hall) as [-> ->].
  rewrite H0. by rewrite Z.add_0_r.
Qed.

(** X3. Marking, clearing or querying other identifiers (reachable store
    or not) never changes the answer of the duplicate check for an
    identifier: the keys of two identifiers never collide. *)
Theorem identifiers_are_independent (videoId : string)
    (ops : list Clock.StoreOp) (w : World) :
  Forall (Clock.foreign videoId) ops ->
  Clock.elapsed ops = 0%Z ->
  redis_up sv (calls w) = redis_up sv (calls (Clock.runOps sv ops w)) ->
  fst (hasBeenNotified sv videoId (Clock.runOps sv ops w))
  = fst (hasBeenNotified sv videoId w).
Proof.
  intros Hall H0 Hsame.
  destruct (redis_up sv (calls w)) eqn:Hup; symmetry in Hsame.
  - rewrite !hasBeenNotified_up by done. cbn [fst]. by rewrite live_foreign.
  - by rewrite !hasBeenNotified_down.
Qed.

(** X4. After [clearNotification] has reached the store, the identifier
    is reported as not notified, whatever was marked before and whatever
    happens to other identifiers afterwards. *)
Theorem clear_forgets (videoId : string) (ops : list Clock.StoreOp) (w : World) :
  redis_up sv (calls w) = true ->
  Forall (Clock.foreign videoId) ops ->
  fst (hasBeenNotified sv videoId
         (Clock.runOps sv ops (snd (clearNotification sv videoId w))))
  = Ok false.
Proof.
  intros Hup Hall.
  set (later := Clock.runOps sv ops (snd (clearNotification sv videoId w))).
  destruct (redis_up sv (calls later)) eqn:Hup';
    [| by rewrite hasBeenNotified_down].
  rewrite hasBeenNotified_up by done. cbn [fst]. f_equal.
  unfold Redis.live, later.
  destruct (runOps_foreign sv videoId ops (snd (clearNotification sv videoId w)) Hall)
    as [-> _].
  unfold clearNotification, try_catch, Redis.del. rewrite Hup. cbn.
  by rewrite lookup_delete_eq.
Qed.

End DeduplicationMore.

(** ** The metadata fetcher, further *)

Section YouTubeMore.
Context (sv : Services).
Import YouTube.

Lemma onRequestError_run e attempt w :
  exists w',
    onRequestError sv e attempt w = (Ok tt, w')
    /\ calls w' = calls w /\ redis w' = redis w
    /\ trace w'
       = trace w
         ++ match isRateLimited e with
            | Some r => [Sleep (rateLimitDelay r attempt)]
            | None =>
                if (attempt <? MAX_RETRIES)%nat
                then [Sleep (RETRY_DELAY_MS * Z.of_nat attempt)]
                else []
            end.
Proof.
  unfold onRequestError. destruct (isRateLimited e); [by eexists |].
  destruct (attempt <? MAX_RETRIES)%nat; eexists; cbn;
    repeat split; by rewrite ?app_nil_r.
Qed.

Lemma axios_get_videos_run videoId w :
  axios_get_videos sv videoId w
  = (match answer sv videoId w 0 with inl e => Throw e | inr r => Ok r end,
     request (AxiosGet (API_BASE_URL +:+ "/videos") videoId) w).
Proof.
  unfold axios_get_videos, answer. rewrite Nat.add_0_r.
  by destruct (axios_get sv (calls w) _ videoId).
Qed.

End YouTubeMore.

Section RetryScript.
Context (sv : Services).
Import YouTube.

Lemma attempts_script {T} (requestFn : M T) (out : nat -> Res T) (ev : Event) :
  (forall w, requestFn w = (out (calls w), request ev w)) ->
  forall remaining attempt lastError w,
    exists w',
      attempts sv requestFn remaining attempt lastError w
        = (fst (retry_script out ev (calls w) remaining attempt lastError), w')
      /\ trace w'
         = trace w ++ snd (retry_script out ev (calls w) remaining attempt lastError)
      /\ redis w' = redis w.
Proof.
  intros Hreq. induction remaining as [| r IH]; intros attempt lastError w.
  - exists w. cbn. by rewrite app_nil_r.
  - rewrite attempts_S. unfold try_catch at 1. rewrite Hreq.
    cbn [retry_script]. destruct (out (calls w)) as [x | e].
    + eexists. cbn. done.
    + unfold bind at 1.
      destruct (onRequestError_run sv e attempt (request ev w))
        as (w1 & -> & Hc & Hr & Htr).
      destruct (IH (S attempt) (Some e) w1) as (w' & -> & Htr' & Hr').
      exists w'. rewrite Hc in *. cbn [request calls] in *.
      destruct (retry_script out ev (S (calls w)) r (S attempt) (Some e))
        as [res evs].
      cbn [fst snd] in *. split; [done |]. split; [| by rewrite Hr', Hr].
      rewrite Htr', Htr. cbn [request trace]. unfold sleeps_after.
      by rewrite <- !app_assoc.
Qed.

Lemma videos_request videoId w :
  axios_get_videos sv videoId w
  = (res_of (axios_get sv (calls w) (API_BASE_URL +:+ "/videos") videoId),
     request (AxiosGet (API_BASE_URL +:+ "/videos") videoId) w).
Proof.
  unfold axios_get_videos. by destruct (axios_get sv (calls w) _ videoId).
Qed.

Lemma makeRequestWithRetry_videos videoId w :
  exists w',
    makeRequestWithRetry sv (axios_get_videos sv videoId) w
      = (fst (retry_script
                (fun n => res_of (axios_get sv n (API_BASE_URL +:+ "/videos") videoId))
                (AxiosGet (API_BASE_URL +:+ "/videos") videoId)
                (calls w) MAX_RETRIES 1 None), w')
    /\ trace w'
       = trace w
         ++ snd (retry_script
                   (fun n => res_of (axios_get sv n (API_BASE_URL +:+ "/videos") videoId))
                   (AxiosGet (API_BASE_URL +:+ "/videos") videoId)
                   (calls w) MAX_RETRIES 1 None)
    /\ redis w' = redis w.
Proof.
  apply (attempts_script (axios_get_videos sv videoId)
           (fun n => res_of (axios_get sv n (API_BASE_URL +:+ "/videos") videoId))).
  apply videos_request.
Qed.

(** X5. The retry loop returns the first answer among its three requests
    and makes no request after it; when all three fail it throws the error
    of the third. *)
Theorem first_answer_wins (videoId : string) (w : World) :
  let run := makeRequestWithRetry sv (axios_get_videos sv videoId) in
  (fst (run w), countb isAnyFetchAttempt (events_of run w))
  = match answer sv videoId w 0 with
    | inr r => (Ok r, 1)
    | inl _ =>
        match answer sv videoId w 1 with
        | inr r => (Ok r, 2)
        | inl _ =>
            match answer sv videoId w 2 with
            | inr r => (Ok r, 3)
            | inl e => (Throw e, 3)
            end
        end
    end.
Proof.
  intros run. unfold run, answer.
  destruct (makeRequestWithRetry_videos videoId w) as (w' & Hrun & Htr & _).
  rewrite (events_of_eq _ _ _ ltac:(rewrite Hrun; exact Htr)), Hrun.
  cbn [fst]. unfold MAX_RETRIES. cbn [retry_script].
  rewrite Nat.add_0_r, !Nat.add_1_r, (Nat.add_comm (calls w) 2).
  cbn [plus].
  destruct (axios_get sv (calls w) _ videoId) as [e1 | r1]; cbn; [| done].
  destruct (axios_get sv (S (calls w)) _ videoId) as [e2 | r2]; cbn.
  2: { f_equal. unfold sleeps_after. destruct (isRateLimited e1); done. }
  destruct (axios_get sv (S (S (calls w))) _ videoId) as [e3 | r3]; cbn.
  all: f_equal; unfold sleeps_after;
    destruct (isRateLimited e1), (isRateLimited e2); try done;
    destruct (isRateLimited e3); done.
Qed.

(** X6. When all three requests fail, the fetcher has slept the backoff
    after the first and the second failure, sleeps after the third one only
    if that one is a rate limit, and [getVideoMetadata] returns [null]. *)
Theorem retries_exhausted (videoId : string) (w : World) (e1 e2 e3 : JsError) :
  answer sv videoId w 0 = inl e1 ->
  answer sv videoId w 1 = inl e2 ->
  answer sv videoId w 2 = inl e3 ->
  let url := API_BASE_URL +:+ "/videos" in
  getVideoMetadata sv videoId w
    = (Ok None, snd (makeRequestWithRetry sv (axios_get_videos sv videoId) w))
  /\ events_of (getVideoMetadata sv videoId) w
     = [AxiosGet url videoId; Sleep (backoff e1 1);
        AxiosGet url videoId; Sleep (backoff e2 2);
        AxiosGet url videoId]
       ++ match isRateLimited e3 with
          | Some r => [Sleep (rateLimitDelay r 3)]
          | None => []
          end.
Proof.
  unfold answer. rewrite Nat.add_0_r, Nat.add_1_r, (Nat.add_comm (calls w) 2).
  cbn [plus]. intros H1 H2 H3.
  destruct (makeRequestWithRetry_videos videoId w) as (w' & Hrun & Htr & _).
  revert Hrun Htr. unfold MAX_RETRIES. cbn [retry_script].
  rewrite H1. cbn [res_of]. rewrite H2. cbn [res_of]. rewrite H3.
  cbn [res_of fst snd default]. intros Hrun Htr.
  assert (Hget : getVideoMetadata sv videoId w = (Ok None, w')).
  { unfold getVideoMetadata, try_catch, bind. by rewrite Hrun. }
  split; [by rewrite Hget, Hrun |].
  apply events_of_eq. rewrite Hget. cbn [snd]. rewrite Htr. f_equal.
  unfold sleeps_after, backoff.
  destruct (isRateLimited e1), (isRateLimited e2), (isRateLimited e3); done.
Qed.

Lemma getVideoMetadata_never_throws (videoId : string) (w : World) :
  exists result, fst (getVideoMetadata sv videoId w) = Ok result.
Proof.
  unfold getVideoMetadata, try_catch, bind.
  destruct (makeRequestWithRetry sv (axios_get_videos sv videoId) w)
    as [[response | e] w']; [| by eexists].
  destruct (items response) as [[| item rest] |]; try by eexists.
  destruct (snippet item); by eexists.
Qed.

(** X7. [getVideoMetadata] never throws; metadata it returns is that of
    the first item of an answered request, under the identifier that was
    asked for. *)
Theorem metadata_is_of_first_item (videoId : string) (w : World) :
  exists result,
    fst (getVideoMetadata sv videoId w) = Ok result
    /\ forall md,
         result = Some md ->
         id md = videoId
         /\ exists response item rest sn,
              fst (makeRequestWithRetry sv (axios_get_videos sv videoId) w)
                = Ok response
              /\ items response = Some (item :: rest)
              /\ snippet item = Some sn
              /\ title md = snippet_title sn
              /\ description md = snippet_description sn
              /\ publishedAt md = snippet_publishedAt sn.
Proof.
  unfold getVideoMetadata, try_catch, bind.
  destruct (makeRequestWithRetry sv (axios_get_videos sv videoId) w)
    as [[response | e] w'].
  2: { exists None. split; [done | by intros md [=]]. }
  destruct (items response) as [[| item rest] |] eqn:Hitems.
  1, 3: exists None; split; [done | by intros md [=]].
  destruct (snippet item) as [sn |] eqn:Hsn.
  2: { exists None. split; [done | by intros md [=]]. }
  eexists. split; [done |]. intros md [= <-]. split; [done |].
  exists response, item, rest, sn. done.
Qed.

End RetryScript.

(** ** The channel listing *)

Section ChannelFacts.
Context (cs : ChannelServices).
Import YouTubeSearch.

Lemma mapItems_spec (items : list SearchItem) : forall videos,
  mapItems items = Ok videos ->
  Forall2 (fun v item =>
             search_videoId item = Some (id v)
             /\ exists sn, search_snippet item = Some sn
                  /\ title v = snippet_title sn
                  /\ description v = snippet_description sn)
          videos items.
Proof.
  induction items as [| item rest IH]; intros videos; cbn [mapItems].
  - intros [= <-]. constructor.
  - unfold toVideoMetadata.
    destruct (search_videoId item) as [videoId |] eqn:Hid,
             (search_snippet item) as [sn |] eqn:Hsn; try done.
    destruct (mapItems rest) as [vs | e]; [| done].
    intros [= <-]. constructor; [| by apply IH].
    split; [done |]. by exists sn.
Qed.

(** X8. [getChannelVideos] never throws and makes at most three requests.
    What it returns is all or nothing: either the empty list, or one
    metadata per item of the answer, in the order of the answer, each under
    the [id.videoId] of its item. *)
Theorem channel_videos_all_or_nothing (channelId : string) (maxResults : Z)
    (w : World) :
  countb isAnyFetchAttempt (events_of (getChannelVideos cs channelId maxResults) w)
    <= 3
  /\ exists videos,
       fst (getChannelVideos cs channelId maxResults w) = Ok videos
       /\ (videos = []
           \/ exists response items,
                fst (YouTube.makeRequestWithRetry (base cs)
                       (axios_get_search_ cs channelId maxResults) w) = Ok response
                /\ search_items response = Some items
                /\ Forall2 (fun v item =>
                              search_videoId item = Some (id v)
                              /\ exists sn, search_snippet item = Some sn
                                   /\ title v = snippet_title sn
                                   /\ description v = snippet_description sn)
                           videos items).
Proof.
  split.
  - apply (events_of_spec isAnyFetchAttempt _ 3 w).
    unfold getChannelVideos, YouTube.makeRequestWithRetry.
    apply emits_try_quiet; [| intros; apply emits_ret].
    eapply emits_mono; [| apply emits_bind with (n2 := 0);
      [apply (emits_attempts isAnyFetchAttempt (fun _ => eq_refl) (base cs)
                (axios_get_search_ cs channelId maxResults) 1 3) |]].
    + cbn. lia.
    + intros w0. exists [AxiosGet (YouTube.API_BASE_URL +:+ "/search") channelId].
      unfold axios_get_search_.
      by destruct (axios_get_search cs (calls w0) _ channelId maxResults).
    + intros r. destruct (search_items r) as [[| item rest] |]; try apply emits_ret.
      intros w0. exists []. cbn. by rewrite app_nil_r.
  - unfold getChannelVideos, try_catch, bind.
    destruct (YouTube.makeRequestWithRetry (base cs)
                (axios_get_search_ cs channelId maxResults) w)
      as [[response | e] w'].
    2: { exists []. split; [done | by left]. }
    destruct (search_items response) as [[| item rest] |] eqn:Hitems.
    1, 3: exists []; split; [done | by left].
    destruct (mapItems (item :: rest)) as [videos | e] eqn:Hmap.
    + exists videos. split; [done |]. right.
      exists response, (item :: rest). repeat split; [done |].
      by apply mapItems_spec.
    + exists []. split; [done | by left].
Qed.

End ChannelFacts.

(** ** The delivery fan-out, further *)

Section TelegramMore.
Context (sv : Services) (config : AppConfig).
Import Telegram.

Lemma sendAttempts_trace chat notification ts remaining :
  forall attempt lastError w,
    exists r w',
      sendAttempts sv chat notification ts remaining attempt lastError w
        = (Ok r, w')
      /\ trace w'
         = trace w
           ++ send_script sv chat (formatNotificationMessage sv notification)
                (calls w) remaining attempt
      /\ calls w'
         = calls w + sends_used sv chat (formatNotificationMessage sv notification)
                       (calls w) remaining
      /\ redis w' = redis w.
Proof.
  induction remaining as [| rem IH]; intros attempt lastError w.
  - eexists _, w. cbn. rewrite app_nil_r. repeat split; first [done | lia].
  - cbn [sendAttempts send_script sends_used].
    unfold try_catch, bind at 1, bot_api_sendMessage, delivered.
    destruct (api_sendMessage sv (calls w) chat _) as [e |].
    + unfold bind.
      destruct (attempt <? MAX_RETRIES)%nat; cbn [sleep ret].
      * destruct (IH (S attempt) (Some e)
                    (mkWorld
                       (now (request (SendMessage chat
                               (formatNotificationMessage sv notification)) w)
                        + setTimeout_elapsed sv (RETRY_DELAY_MS * Z.of_nat attempt))
                       (redis w) (S (calls w))
                       (trace (request (SendMessage chat
                                 (formatNotificationMessage sv notification)) w)
                        ++ [Sleep (RETRY_DELAY_MS * Z.of_nat attempt)])))
          as (r & w' & Hrun & Htr & Hc & Hr).
        exists r, w'. cbn [request now redis calls trace] in *.
        rewrite Hrun, Htr, Hc, Hr. repeat split; [| lia].
        by rewrite <- !app_assoc.
      * destruct (IH (S attempt) (Some e)
                    (request (SendMessage chat
                       (formatNotificationMessage sv notification)) w))
          as (r & w' & Hrun & Htr & Hc & Hr).
        exists r, w'. cbn [request now redis calls trace] in *.
        rewrite Hrun, Htr, Hc, Hr. repeat split; [| lia].
        by rewrite <- !app_assoc.
    + eexists _, _. cbn. repeat split; first [done | cbn; lia].
Qed.

(** X9. The attempts for one destination follow a fixed schedule: a send;
    if it fails, 2000 ms and a second send; if that fails, 4000 ms and a
    third send, after which nothing is slept or sent whatever its
    outcome. *)
Theorem send_schedule (chat : string) (notification : LivestreamNotification)
    (w : World) :
  let text := formatNotificationMessage sv notification in
  events_of (sendToChatWithRetry sv chat notification) w
  = if delivered sv chat text (calls w) then [SendMessage chat text]
    else if delivered sv chat text (S (calls w))
         then [SendMessage chat text; Sleep 2000; SendMessage chat text]
         else [SendMessage chat text; Sleep 2000; SendMessage chat text;
               Sleep 4000; SendMessage chat text].
Proof.
  intros text. apply events_of_eq.
  unfold sendToChatWithRetry, bind, new_Date.
  destruct (sendAttempts_trace chat notification (now w) MAX_RETRIES 1 None w)
    as (r & w' & Hrun & Htr & _).
  rewrite Hrun. cbn [snd]. rewrite Htr. f_equal.
  unfold MAX_RETRIES. cbn [send_script]. fold text.
  destruct (delivered sv chat text (calls w)); [done |].
  destruct (delivered sv chat text (S (calls w))); [done |].
  cbn. by destruct (delivered sv chat text (S (S (calls w)))).
Qed.

Lemma send_script_effects chats chat text : chat ∈ chats ->
  forall remaining n attempt,
    1 <= attempt -> attempt + remaining = 4 ->
    Forall (fanout_effect chats text) (send_script sv chat text n remaining attempt)
    /\ countb isSend (send_script sv chat text n remaining attempt)
       = sends_used sv chat text n remaining.
Proof.
  intros Hin. induction remaining as [| r IH]; intros n attempt H1 H4.
  - split; [constructor | done].
  - cbn [send_script sends_used].
    assert (Hsend : fanout_effect chats text (SendMessage chat text))
      by (left; by exists chat).
    destruct (delivered sv chat text n).
    + split; [constructor; [done | constructor] | done].
    + destruct r as [| r].
      * assert (attempt = 3) as -> by lia. cbn.
        split; [constructor; [done | constructor] | done].
      * destruct (IH (S n) (S attempt) ltac:(lia) ltac:(lia)) as [Hall Hcount].
        assert (attempt = 1 \/ attempt = 2) as [-> | ->] by lia.
        -- split.
           ++ constructor; [done |]. constructor; [right; by left | done].
           ++ unfold countb in *. cbn in *. by rewrite Hcount.
        -- split.
           ++ constructor; [done |]. constructor; [right; by right | done].
           ++ unfold countb in *. cbn in *. by rewrite Hcount.
Qed.

Lemma sends_used_bounds chat text n remaining :
  Nat.min 1 remaining <= sends_used sv chat text n remaining <= remaining.
Proof.
  revert n. induction remaining as [| r IH]; intros n; cbn; [lia |].
  destruct (delivered sv chat text n); [lia |]. specialize (IH (S n)). lia.
Qed.

Lemma forEachChat_trace notification chats :
  forall results w,
    exists rs w',
      forEachChat sv notification chats results w = (Ok rs, w')
      /\ trace w'
         = trace w
           ++ fanout_script sv (formatNotificationMessage sv notification)
                (calls w) chats
      /\ redis w' = redis w.
Proof.
  induction chats as [| chat rest IH]; intros results w.
  - exists results, w. cbn. by rewrite app_nil_r.
  - cbn [forEachChat fanout_script]. unfold bind at 1.
    unfold sendToChatWithRetry, bind at 1, new_Date.
    destruct (sendAttempts_trace chat notification (now w) MAX_RETRIES 1 None w)
      as (r & w1 & -> & Htr & Hc & Hr).
    destruct (IH (results ++ [r]) w1) as (rs & w' & -> & Htr' & Hr').
    exists rs, w'. rewrite Htr', Htr, Hc, Hr', Hr. by rewrite <- !app_assoc.
Qed.

Lemma fanout_script_effects text (all : list string) : forall chats n,
  chats ⊆ all ->
  Forall (fanout_effect all text) (fanout_script sv text n chats)
  /\ List.length chats <= countb isSend (fanout_script sv text n chats)
     <= 3 * List.length chats.
Proof.
  induction chats as [| chat rest IH]; intros n Hsub.
  - split; [constructor | cbn; lia].
  - cbn [fanout_script].
    assert (Hin : chat ∈ all) by (apply Hsub; left).
    assert (Hsub' : rest ⊆ all) by (intros c Hc; apply Hsub; by right).
    destruct (send_script_effects all chat text Hin 3 n 1
                ltac:(lia) ltac:(lia)) as [Hall Hcount].
    destruct (IH (n + sends_used sv chat text n MAX_RETRIES) Hsub')
      as [Hall' Hcount'].
    pose proof (sends_used_bounds chat text n 3) as Hb.
    change (Nat.min 1 3) with 1 in Hb.
    unfold MAX_RETRIES in *. split; [by apply Forall_app |].
    rewrite countb_app, Hcount. cbn [List.length]. lia.
Qed.

(** X10. The fan-out does nothing but send the one formatted message to
    configured destinations and sleep the two backoff delays: it makes at
    least as many sends as there are destinations and at most three times
    as many, and the store is not touched. *)
Theorem fan_out_effects (notification : LivestreamNotification) (w : World) :
  let evs := events_of (sendLivestreamNotification sv config notification) w in
  let w' := snd (sendLivestreamNotification sv config notification w) in
  Forall (fanout_effect (telegram_chatIds config)
            (formatNotificationMessage sv notification)) evs
  /\ List.length (telegram_chatIds config) <= countb isSend evs
     <= 3 * List.length (telegram_chatIds config)
  /\ redis w' = redis w.
Proof.
  intros evs w'. unfold evs, w', sendLivestreamNotification.
  destruct (forEachChat_trace notification (telegram_chatIds config) [] w)
    as (rs & w1 & Hrun & Htr & Hr).
  rewrite (events_of_eq _ _ _ ltac:(rewrite Hrun; exact Htr)), Hrun.
  destruct (fanout_script_effects (formatNotificationMessage sv notification)
              (telegram_chatIds config) (telegram_chatIds config) (calls w)
              ltac:(done)) as [Hall Hcount].
  done.
Qed.

End TelegramMore.

(** ** The manual override *)

Section CommandFacts.
Context (cs : ChannelServices) (config : AppConfig).
Import TelegramCommands.

Lemma emits_sendManualNotification (p : Event -> bool) videoId :
  (forall ms, p (Sleep ms) = false) ->
  (forall chat text, p (SendMessage chat text) = false) ->
  emits_at_most p (sendManualNotification cs config videoId)
    (YouTube.MAX_RETRIES
     * Nat.b2n (p (AxiosGet (YouTube.API_BASE_URL +:+ "/videos") videoId))
     + Nat.b2n (p (RedisSetex (Deduplication.KEY_PREFIX +:+ videoId)
                     Deduplication.TTL_SECONDS "1"))).
Proof.
  intros Hsleep Hsend. unfold sendManualNotification.
  apply emits_try_quiet; [| intros; apply emits_ret].
  apply emits_bind; [by apply emits_getVideoMetadata |].
  intros [md |]; [| apply emits_ret_any].
  apply emits_bind_quiet; [by apply emits_shouldNotifyForVideo |].
  intros [|]; cbn [negb]; [| apply emits_ret_any].
  apply emits_bind_quiet; [apply emits_new_Date |]. intros detectedAt.
  apply emits_bind_quiet; [by apply emits_forEachChat |]. intros results.
  eapply emits_mono; [| apply emits_bind with (n2 := 0);
    [apply emits_markAsNotified | intros; apply emits_ret]].
  lia.
Qed.

(** X11. The manual notification never consults the duplicate
    suppressor and never throws.  It returns the empty list, without a
    send or a mark, when the metadata is missing or lacks the tag;
    otherwise it returns the outcomes of the fan-out and marks the
    identifier afterwards. *)
Theorem manual_override (videoId : string) (w w1 : World)
    (fetched : option VideoMetadata) :
  YouTube.getVideoMetadata (base cs) videoId w = (Ok fetched, w1) ->
  countb isAnyDuplicateCheck
    (events_of (sendManualNotification cs config videoId) w) = 0
  /\ match fetched with
     | Some md =>
         if LiveDetector.containsLiveTag (description md)
         then exists results w2,
                Telegram.sendLivestreamNotification (base cs) config
                  (mkLivestreamNotification md (config_platforms config) (now w1))
                  w1 = (Ok results, w2)
                /\ sendManualNotification cs config videoId w
                   = (Ok results,
                      snd (Deduplication.markAsNotified (base cs) videoId w2))
         else sendManualNotification cs config videoId w = (Ok [], w1)
     | None => sendManualNotification cs config videoId w = (Ok [], w1)
     end.
Proof.
  intros Hfetch. split.
  - apply Nat.le_0_r.
    apply (events_of_spec isAnyDuplicateCheck _ 0 w).
    by apply (emits_sendManualNotification isAnyDuplicateCheck videoId).
  - destruct fetched as [md |];
      [destruct (LiveDetector.containsLiveTag (description md)) eqn:Htag |].
    + destruct (sendLivestreamNotification_run (base cs) config
                  (mkLivestreamNotification md (config_platforms config) (now w1)) w1)
        as (results & w2 & Hsend & _).
      exists results, w2. split; [done |].
      unfold sendManualNotification, try_catch. unfold bind at 1. rewrite Hfetch.
      unfold bind at 1. rewrite shouldNotifyForVideo_eq, Htag. cbn [negb].
      unfold bind at 1, new_Date at 1. unfold bind at 1. rewrite Hsend.
      unfold bind.
      unfold Deduplication.markAsNotified, try_catch, Redis.setex, ret.
      by destruct (redis_up (base cs) (calls w2)).
    + unfold sendManualNotification, try_catch. unfold bind at 1. rewrite Hfetch.
      unfold bind at 1. by rewrite shouldNotifyForVideo_eq, Htag.
    + unfold sendManualNotification, try_catch, bind. by rewrite Hfetch.
Qed.

(** X12. [/notify] from a user without an identifier, or with the
    identifier 0, is answered with the refusal and nothing else happens:
    no request to YouTube, no fan-out, no mark (only the error reply if the
    refusal itself cannot be delivered). *)
Theorem notify_refuses (ctx : CommandContext) (w : World) :
  from_id ctx = None \/ from_id ctx = Some 0%Z ->
  let refusal := "⚠️ Bu komutu kullanma yetkiniz yok." in
  events_of (notifyCommand cs config ctx) w
  = SendMessage (chat_id ctx) refusal
    :: if delivered (base cs) (chat_id ctx) refusal (calls w) then []
       else [SendMessage (chat_id ctx) "⚠️ Bildirim gönderilirken bir hata oluştu."].
Proof.
  intros Hfrom refusal. apply events_of_eq.
  unfold notifyCommand.
  assert (isAuthorizedUser (from_id ctx) = false) as ->
    by (destruct Hfrom as [-> | ->]; done).
  cbn [negb]. fold refusal.
  unfold try_catch, reply, Telegram.bot_api_sendMessage, delivered.
  destruct (api_sendMessage (base cs) (calls w) (chat_id ctx) refusal); [| done].
  cbn [request calls trace].
  destruct (api_sendMessage (base cs) (S (calls w)) (chat_id ctx) _);
    cbn; by rewrite <- app_assoc.
Qed.

(** X13. When the channel listing comes back empty (no video, a malformed
    answer, or three failed requests), [/notify] from an authorized user
    answers that no video was found and does nothing else. *)
Theorem notify_without_videos (ctx : CommandContext) (w : World) :
  isAuthorizedUser (from_id ctx) = true ->
  fst (YouTubeSearch.getChannelVideos cs (youtube_channelId config) 1 w) = Ok [] ->
  let w1 := snd (YouTubeSearch.getChannelVideos cs (youtube_channelId config) 1 w) in
  let notFound := "⚠️ Kanalda video bulunamadı." in
  trace (snd (notifyCommand cs config ctx w))
  = trace w1
    ++ SendMessage (chat_id ctx) notFound
       :: if delivered (base cs) (chat_id ctx) notFound (calls w1) then []
          else [SendMessage (chat_id ctx) "⚠️ Bildirim gönderilirken bir hata oluştu."].
Proof.
  intros Hauth Hnone w1 notFound. unfold notifyCommand. rewrite Hauth. cbn [negb].
  unfold try_catch at 1. unfold bind at 1.
  destruct (YouTubeSearch.getChannelVideos cs (youtube_channelId config) 1 w)
    as [res w1'] eqn:Hrun.
  cbn [fst snd] in *. subst res w1. fold notFound.
  unfold reply, Telegram.bot_api_sendMessage, delivered.
  destruct (api_sendMessage (base cs) (calls w1') (chat_id ctx) notFound); [| done].
  cbn [request calls trace].
  destruct (api_sendMessage (base cs) (S (calls w1')) (chat_id ctx) _);
    cbn; by rewrite <- app_assoc.
Qed.

End CommandFacts.

(** ** The feed ingestion controller, further *)

Section WebSubMore.
Context (sv : Services) (config : AppConfig).
Import WebSub.

(** X14. The callback never throws.  It answers 500 exactly when reading
    the request body throws, and a request that is not answered 200 leaves
    the world as it was. *)
Theorem callback_rejections (c : PostRequest) (w : World) :
  exists response,
    fst (handleWebSubCallback sv config c w) = Ok response
    /\ (status_code response = 500%Z <-> exists e, req_text c = inl e)
    /\ (status_code response <> 200%Z ->
        snd (handleWebSubCallback sv config c w) = w).
Proof.
  destruct (req_text c) as [e | body] eqn:Hbody.
  - exists (text "Internal Server Error" 500).
    unfold handleWebSubCallback, try_catch, bind. rewrite Hbody. cbn.
    repeat split; try done. by exists e.
  - rewrite (handleWebSubCallback_eq sv config c body w Hbody).
    destruct (payload_entries (parseStringPromise sv body)); eexists;
      (split; [done |]); cbn; split; try done.
    all: split; [done | by intros [? [=]]].
Qed.

(** X15. The entries of a payload are processed one after the other:
    processing a payload is processing a first part of it and then the
    rest from the world the first part left. *)
Theorem entries_in_sequence (es1 es2 : list FeedEntry) (w : World) :
  forEachEntry sv config (es1 ++ es2) w
  = forEachEntry sv config es2 (snd (forEachEntry sv config es1 w)).
Proof.
  revert w. induction es1 as [| e es1 IH]; intros w; [done |].
  cbn [app forEachEntry]. unfold bind.
  generalize (processFeedEntry_ok sv config e w).
  destruct (processFeedEntry sv config e w) as [[[] | err] w1]; [| done].
  intros _. apply IH.
Qed.

Lemma emits_hasBeenNotified_quiet (p : Event -> bool) videoId :
  (forall k, p (RedisExists k) = false) ->
  emits_at_most p (Deduplication.hasBeenNotified sv videoId) 0.
Proof.
  intros Hp. generalize (emits_hasBeenNotified p sv videoId). by rewrite Hp.
Qed.

Lemma emits_getVideoMetadata_quiet (p : Event -> bool) videoId :
  (forall ms, p (Sleep ms) = false) ->
  (forall url v, p (AxiosGet url v) = false) ->
  emits_at_most p (YouTube.getVideoMetadata sv videoId) 0.
Proof.
  intros Hs Hp. generalize (emits_getVideoMetadata p Hs sv videoId).
  by rewrite Hp.
Qed.

(** X16. An entry leads to a Telegram send or to a mark only if it carries
    an identifier that the suppressor did not report as notified, its
    metadata was fetched, and the description carries the tag. *)
Theorem send_or_mark_requires_tag (e : FeedEntry) (w : World) :
  let evs := events_of (processFeedEntry sv config e) w in
  0 < countb (fun ev => isSend ev || isAnyMark ev) evs ->
  exists videoId md w1 w2,
    videoId_of e = Some videoId
    /\ videoId <> ""
    /\ Deduplication.hasBeenNotified sv videoId w = (Ok false, w1)
    /\ YouTube.getVideoMetadata sv videoId w1 = (Ok (Some md), w2)
    /\ LiveDetector.containsLiveTag (description md) = true.
Proof.
  intros evs. unfold evs. clear evs.
  set (p := fun ev => isSend ev || isAnyMark ev).
  assert (Hquiet : forall w', snd (processFeedEntry sv config e w) = w' ->
            (exists evs', trace w' = trace w ++ evs' /\ countb p evs' = 0) ->
            0 < countb p (events_of (processFeedEntry sv config e) w) -> False).
  { intros w' Hw' (evs' & Htr & H0) Hpos.
    rewrite (events_of_eq _ _ evs') in Hpos by (by rewrite Hw'). lia. }
  unfold processFeedEntry in *.
  destruct (videoId_of e) as [[| c v] |] eqn:Hid.
  1, 3: intros Hpos; exfalso; apply (Hquiet w); [done | | done];
        exists []; by rewrite app_nil_r.
  set (videoId := String c v) in *.
  destruct (emits_hasBeenNotified_quiet p videoId ltac:(done) w)
    as (evs1 & Htr1 & Hn1).
  destruct (Deduplication.hasBeenNotified sv videoId w) as [r1 w1] eqn:Hdup.
  assert (exists b, r1 = Ok b) as [b ->].
  { revert Hdup. unfold Deduplication.hasBeenNotified, try_catch, bind, Redis.exists_, ret.
    destruct (redis_up sv (calls w)); intros [= <- _]; by eexists. }
  cbn [snd] in Htr1.
  destruct b.
  { intros Hpos; exfalso.
    apply (Hquiet w1); [by unfold try_catch, bind; rewrite Hdup | | done].
    exists evs1. split; [done | lia]. }
  destruct (emits_getVideoMetadata_quiet p videoId ltac:(done) ltac:(done) w1)
    as (evs2 & Htr2 & Hn2).
  destruct (YouTube.getVideoMetadata sv videoId w1) as [r2 w2] eqn:Hfetch.
  assert (exists mdo, r2 = Ok mdo) as [mdo ->].
  { destruct (getVideoMetadata_never_throws sv videoId w1) as (res & Hres).
    rewrite Hfetch in Hres. by exists res. }
  cbn [snd] in Htr2.
  assert (Hskip : exists evs', trace w2 = trace w ++ evs' /\ countb p evs' = 0).
  { exists (evs1 ++ evs2). rewrite Htr2, Htr1, countb_app, <- app_assoc.
    split; [done | lia]. }
  destruct mdo as [md |].
  2: { intros Hpos; exfalso.
       apply (Hquiet w2); [| done | done].
       unfold try_catch, bind. by rewrite Hdup, Hfetch. }
  destruct (LiveDetector.containsLiveTag (description md)) eqn:Htag.
  - intros _. by exists videoId, md, w1, w2.
  - intros Hpos; exfalso.
    apply (Hquiet w2); [| done | done].
    unfold try_catch, bind. rewrite Hdup, Hfetch.
    by rewrite shouldNotifyForVideo_eq, Htag.
Qed.

End WebSubMore.

Section ReplayFacts.
Context (sv : Services) (config : AppConfig).
Import WebSub.

Lemma processFeedEntry_run (e : FeedEntry) (videoId : string)
    (md : VideoMetadata) (w w1 w2 : World) :
  videoId_of e = Some videoId ->
  videoId <> "" ->
  Deduplication.hasBeenNotified sv videoId w = (Ok false, w1) ->
  YouTube.getVideoMetadata sv videoId w1 = (Ok (Some md), w2) ->
  LiveDetector.containsLiveTag (description md) = true ->
  processFeedEntry sv config e w
  = Deduplication.markAsNotified sv videoId
      (snd (Telegram.sendLivestreamNotification sv config
              (mkLivestreamNotification md (config_platforms config) (now w2)) w2)).
Proof.
  intros Hid Hne Hdup Hfetch Htag.
  destruct (sendLivestreamNotification_run sv config
              (mkLivestreamNotification md (config_platforms config) (now w2)) w2)
    as (results & w3 & Hsend & _).
  rewrite Hsend. cbn [snd].
  unfold processFeedEntry. rewrite Hid.
  destruct videoId as [| c v]; [done |].
  unfold try_catch at 1, bind at 1. rewrite Hdup.
  unfold bind at 1. rewrite Hfetch.
  unfold bind at 1. rewrite shouldNotifyForVideo_eq, Htag. cbn [negb].
  unfold bind at 1, new_Date at 1. unfold bind at 1. rewrite Hsend.
  unfold Deduplication.markAsNotified, try_catch, Redis.setex, ret.
  by destruct (redis_up sv (calls w3)).
Qed.

(** X17. When an entry has been fanned out and its mark has reached the
    store, processing the same entry again right away stops at the
    duplicate check: no metadata fetch, no send, no second mark. *)
Theorem replay_stops_at_duplicate_check (e : FeedEntry) (videoId : string)
    (md : VideoMetadata) (w w1 w2 : World) :
  videoId_of e = Some videoId ->
  videoId <> "" ->
  Deduplication.hasBeenNotified sv videoId w = (Ok false, w1) ->
  YouTube.getVideoMetadata sv videoId w1 = (Ok (Some md), w2) ->
  LiveDetector.containsLiveTag (description md) = true ->
  let after := snd (processFeedEntry sv config e w) in
  redis_up sv (Nat.pred (calls after)) = true ->
  redis_up sv (calls after) = true ->
  events_of (processFeedEntry sv config e) after
  = [RedisExists (Deduplication.KEY_PREFIX +:+ videoId)].
Proof.
  intros Hid Hne Hdup Hfetch Htag after.
  unfold after. rewrite (processFeedEntry_run e videoId md w w1 w2) by done.
  set (w3 := snd (Telegram.sendLivestreamNotification sv config _ w2)).
  assert (Hcalls : calls (snd (Deduplication.markAsNotified sv videoId w3))
                   = S (calls w3)).
  { unfold Deduplication.markAsNotified, try_catch, Redis.setex, ret.
    by destruct (redis_up sv (calls w3)). }
  rewrite Hcalls. cbn [Nat.pred]. intros Hup Hup'.
  apply processFeedEntry_notified.
  - unfold names. rewrite Hid. destruct videoId; [done |].
    by apply bool_decide_eq_true_2.
  - rewrite hasBeenNotified_up by (by rewrite Hcalls).
    cbn [fst]. f_equal. rewrite (markAsNotified_up sv _ _ Hup).
    unfold Redis.live. cbn. rewrite lookup_insert_eq.
    apply Z.leb_le. unfold Deduplication.TTL_SECONDS. lia.
Qed.

End ReplayFacts.

(** ** The pipeline, once per entry *)

Section PipelineFacts.
Context (sv : Services) (config : AppConfig).
Import WebSub.

Lemma sends_bot_api_sendMessage chat message :
  emits_at_most isSend (Telegram.bot_api_sendMessage sv chat message) 1.
Proof.
  intros w. exists [SendMessage chat message]. unfold Telegram.bot_api_sendMessage.
  by destruct (api_sendMessage sv (calls w) chat message).
Qed.

Lemma sends_sendAttempts chat notification ts remaining :
  forall attempt lastError,
    emits_at_most isSend
      (Telegram.sendAttempts sv chat notification ts remaining attempt lastError)
      remaining.
Proof.
  induction remaining as [| r IH]; intros attempt lastError;
    cbn [Telegram.sendAttempts].
  - apply emits_ret.
  - change (S r) with (1 + r). apply emits_try_catch.
    + apply emits_mono with (n := 1 + 0); [lia |].
      apply emits_bind; [apply sends_bot_api_sendMessage | intros; apply emits_ret].
    + intros e. apply emits_bind_quiet; [| intros; apply IH].
      case_match; [apply (emits_sleep isSend) | apply emits_ret].
Qed.

Lemma sends_forEachChat notification chats :
  forall results,
    emits_at_most isSend (Telegram.forEachChat sv notification chats results)
      (3 * List.length chats).
Proof.
  induction chats as [| chat rest IH]; intros results; cbn [Telegram.forEachChat].
  - apply emits_ret.
  - apply emits_mono with (n := 3 + 3 * List.length rest); [cbn; lia |].
    apply emits_bind; [| intros; apply IH].
    apply emits_bind_quiet; [apply emits_new_Date |].
    intros ts. apply sends_sendAttempts.
Qed.

Lemma sends_processFeedEntry e :
  emits_at_most isSend (processFeedEntry sv config e)
    (3 * List.length (telegram_chatIds config)).
Proof.
  unfold processFeedEntry.
  apply emits_try_quiet; [| intros; apply emits_ret].
  destruct (videoId_of e) as [[| c v] |]; try apply emits_ret_any.
  apply emits_bind_quiet; [by apply emits_hasBeenNotified_quiet |].
  intros [|]; [apply emits_ret_any |].
  apply emits_bind_quiet; [by apply emits_getVideoMetadata_quiet |].
  intros [md |]; [| apply emits_ret_any].
  apply emits_bind_quiet; [by apply emits_shouldNotifyForVideo |].
  intros [|]; cbn [negb]; [| apply emits_ret_any].
  apply emits_bind_quiet; [apply emits_new_Date |].
  intros detectedAt.
  apply emits_mono with (n := 3 * List.length (telegram_chatIds config) + 0);
    [lia |].
  apply emits_bind; [apply sends_forEachChat |].
  intros _. apply (emits_markAsNotified isSend).
Qed.

Lemma sends_forEachEntry entries :
  emits_at_most isSend (forEachEntry sv config entries)
    (3 * List.length (telegram_chatIds config) * List.length entries).
Proof.
  induction entries as [| e rest IH]; cbn [forEachEntry].
  - apply emits_ret_any.
  - apply emits_mono
      with (n := 3 * List.length (telegram_chatIds config)
                 + 3 * List.length (telegram_chatIds config) * List.length rest);
      [cbn [List.length]; lia |].
    apply emits_bind; [apply sends_processFeedEntry | intros; apply IH].
Qed.

Lemma hasBeenNotified_never_throws (videoId : string) (w : World) :
  exists notified, fst (Deduplication.hasBeenNotified sv videoId w) = Ok notified.
Proof.
  unfold Deduplication.hasBeenNotified, try_catch, bind, Redis.exists_, ret.
  destruct (redis_up sv (calls w)); by eexists.
Qed.

(** Processing an entry is one run of the pipeline for its identifier. *)
Lemma processFeedEntry_entry_run (e : FeedEntry) (w : World) :
  snd (processFeedEntry sv config e w) = entry_run sv config e w.
Proof.
  unfold processFeedEntry, entry_run, identifier.
  destruct (videoId_of e) as [[| c v] |]; [done | | done].
  unfold pipeline_run, try_catch at 1, bind at 1.
  destruct (hasBeenNotified_never_throws (String c v) w) as (notified & Hdup).
  destruct (Deduplication.hasBeenNotified sv (String c v) w) as [r1 w1].
  cbn [fst] in Hdup. subst r1. destruct notified; [done |].
  unfold bind at 1.
  destruct (YouTube.getVideoMetadata sv (String c v) w1) as [[[md |] | err] w2];
    [| done | done].
  unfold bind at 1. rewrite shouldNotifyForVideo_eq.
  destruct (LiveDetector.containsLiveTag (description md)); cbn [negb]; [| done].
  unfold bind at 1, new_Date at 1. unfold bind at 1.
  destruct (sendLivestreamNotification_run sv config
              (mkLivestreamNotification md (config_platforms config) (now w2)) w2)
    as (results & w3 & Hsend & _).
  rewrite Hsend. cbn [snd].
  by destruct (Deduplication.markAsNotified sv (String c v) w3) as [[[] | err] w4].
Qed.

Lemma forEachEntry_payload_run (entries : list FeedEntry) : forall w,
  snd (forEachEntry sv config entries w) = payload_run sv config entries w.
Proof.
  unfold payload_run.
  induction entries as [| e rest IH]; intros w; [done |].
  cbn [forEachEntry foldl]. rewrite <- processFeedEntry_entry_run, <- IH.
  unfold bind. generalize (processFeedEntry_ok sv config e w).
  by destruct (processFeedEntry sv config e w) as [[[] | err] w1].
Qed.

Lemma identifier_names (videoId : string) (e : FeedEntry) :
  names videoId e = bool_decide (identifier e = Some videoId).
Proof.
  unfold names, identifier. destruct (videoId_of e) as [[| c v] |].
  - by rewrite bool_decide_eq_false_2.
  - apply bool_decide_ext. split; [by intros -> | by intros [= ->]].
  - by rewrite bool_decide_eq_false_2.
Qed.

(** C5 (as amended). One invocation of the callback on a payload of N
    entries runs the pipeline at most N times: it leaves the world that
    one run of the pipeline (duplicate check, metadata fetch, tag filter,
    fan-out with its mark) for every entry with an identifier leaves, the
    entries taken once each in the order of the payload.  So there are at
    most N duplicate checks, 3N fetch attempts, N marks and, a fan-out
    making at most three sends for each configured destination, 3N sends
    times the number of destinations; and for every identifier the pipeline runs as
    many times as the entries of the payload carry it: at most that many
    duplicate checks and marks and three times that many fetch attempts
    are for it.  An entry whose identifier the suppressor reports as
    notified adds nothing beyond its duplicate check. *)
Theorem pipeline_runs_per_payload (c : PostRequest) (body : string)
    (entries : list FeedEntry) (w : World) :
  req_text c = inr body ->
  payload_entries (parseStringPromise sv body) = Some entries ->
  let evs := events_of (handleWebSubCallback sv config c) w in
  let N := List.length entries in
  snd (handleWebSubCallback sv config c w) = payload_run sv config entries w
  /\ (forall e w0,
        snd (processFeedEntry sv config e w0) = entry_run sv config e w0)
  /\ trace (payload_run sv config entries w) = trace w ++ evs
  /\ countb isAnyDuplicateCheck evs <= N
  /\ countb isAnyFetchAttempt evs <= 3 * N
  /\ countb isSend evs <= 3 * List.length (telegram_chatIds config) * N
  /\ countb isAnyMark evs <= N
  /\ (forall videoId,
        List.length (List.filter (fun e => bool_decide (identifier e = Some videoId))
                       entries)
        = occurrences videoId entries
        /\ countb (isDuplicateCheck videoId) evs <= occurrences videoId entries
        /\ countb (isFetchAttempt videoId) evs <= 3 * occurrences videoId entries
        /\ countb (isMark videoId) evs <= occurrences videoId entries)
  /\ (forall e videoId w0,
        names videoId e = true ->
        fst (Deduplication.hasBeenNotified sv videoId w0) = Ok true ->
        events_of (processFeedEntry sv config e) w0
          = [RedisExists (Deduplication.KEY_PREFIX +:+ videoId)]).
Proof.
  intros Hbody Hentries evs N.
  assert (Hevs : evs = events_of (forEachEntry sv config entries) w).
  { unfold evs, events_of.
    by rewrite (handleWebSubCallback_eq sv config c body w Hbody), Hentries. }
  assert (Hsnd : snd (handleWebSubCallback sv config c w)
                 = snd (forEachEntry sv config entries w)).
  { by rewrite (handleWebSubCallback_eq sv config c body w Hbody), Hentries. }
  rewrite Hsnd, Hevs. unfold N. clear evs Hevs N.
  split; [apply forEachEntry_payload_run |].
  split; [apply processFeedEntry_entry_run |].
  rewrite <- forEachEntry_payload_run.
  split.
  { apply (events_of_spec (fun _ => false) _ _ w
             (emits_forEachEntry (fun _ => false) (fun _ => eq_refl)
                (fun _ _ => eq_refl) sv config entries)). }
  split.
  { rewrite <- (filter_all_length entries), <- (Nat.mul_1_l (List.length _)).
    apply forEachEntry_bound; auto using budget_any_check. }
  split.
  { rewrite <- (filter_all_length entries).
    apply forEachEntry_bound; auto using budget_any_fetch. }
  split.
  { apply (events_of_spec isSend _ _ w (sends_forEachEntry entries)). }
  split.
  { rewrite <- (filter_all_length entries), <- (Nat.mul_1_l (List.length _)).
    apply forEachEntry_bound; auto using budget_any_mark. }
  split.
  - intros videoId. unfold occurrences. repeat split.
    + f_equal. apply List.filter_ext. intros e. by rewrite identifier_names.
    + rewrite <- (Nat.mul_1_l (List.length _)).
      apply forEachEntry_bound; auto using budget_check.
    + apply forEachEntry_bound; auto using budget_fetch.
    + rewrite <- (Nat.mul_1_l (List.length _)).
      apply forEachEntry_bound; auto using budget_mark.
  - apply processFeedEntry_notified.
Qed.

End PipelineFacts.

(** ** The configuration *)

Section ConfigFacts.
Context (ps : Config.Parsers).
Import Config.

Lemma filter_nil_all {A} (f : A -> bool) (l : list A) :
  List.length (List.filter f l) = 0 -> Forall (fun a => f a = false) l.
Proof.
  induction l as [| a l IH]; cbn; [constructor |].
  destruct (f a) eqn:Hf; cbn; [lia |]. intros H. constructor; auto.
Qed.

Lemma nonEmpty_spec (s : string) : nonEmpty s = true <-> s <> "".
Proof.
  unfold nonEmpty. rewrite negb_true_iff. apply String.eqb_neq.
Qed.

Lemma split_on_nonempty (sep : ascii) (s : string) : forall cur,
  split_on sep cur s <> [].
Proof.
  induction s as [| c s IH]; intros cur; cbn; [done |].
  destruct (Ascii.eqb c sep); [done | apply IH].
Qed.

(** X18. A configuration that [loadConfig] returns is complete: every
    required variable is set and not empty, there is at least one
    destination and no destination is the empty string, the port is
    between 1 and 65535, the log level is one of the four known levels and
    the six links passed the URL check. *)
Theorem loaded_config_is_valid (env : gmap string string) (cfg : AppConfig) :
  loadConfig ps env = Ok cfg ->
  Forall (fun name => exists v, env !! name = Some v /\ v <> "") requiredEnvVars
  /\ telegram_chatIds cfg <> []
  /\ Forall (fun chat => chat <> "") (telegram_chatIds cfg)
  /\ (1 <= server_port cfg <= 65535)%Z
  /\ logging_level cfg ∈ levels
  /\ Forall (fun url => isUrl ps url = true)
       [PlatformLinks.youtube (config_platforms cfg);
        PlatformLinks.x (config_platforms cfg);
        PlatformLinks.kick (config_platforms cfg);
        PlatformLinks.twitch (config_platforms cfg);
        PlatformLinks.instagram (config_platforms cfg);
        PlatformLinks.linkedin (config_platforms cfg)].
Proof.
  unfold loadConfig.
  destruct (0 <? List.length (List.filter (unset env) requiredEnvVars))%nat eqn:Hmiss;
    [done |].
  apply Nat.ltb_ge in Hmiss.
  assert (Hset : Forall (fun name => unset env name = false) requiredEnvVars)
    by (apply filter_nil_all; lia).
  destruct (parsePlatformLinks ps (env_get env "PLATFORM_LINKS")) as [links | e];
    [| done].
  unfold appConfigSchema_parse.
  destruct (Js.parseInt10 (env_get env "PORT")) as [| negative | p]; [done | done |].
  match goal with |- (if ?b then _ else _) = _ -> _ => destruct b eqn:Hchecks end;
    [| done].
  intros [= <-]. cbn [telegram_chatIds server_port logging_level config_platforms].
  rewrite !andb_true_iff in Hchecks.
  destruct Hchecks as (((((((((_ & _) & _) & Hids) & Hlinks) & Hp1) & Hp2) & _) & Hlevel) & _).
  split.
  { eapply Forall_impl; [exact Hset |]. cbn. intros name Hname.
    unfold unset, env_get in Hname. apply bool_decide_eq_false_1 in Hname.
    destruct (env !! name) as [v |]; [| done]. by exists v. }
  split.
  { pose proof (split_on_nonempty "," (env_get env "TELEGRAM_CHAT_IDS") "") as Hne.
    unfold split. by destruct (split_on "," "" (env_get env "TELEGRAM_CHAT_IDS")). }
  split.
  { apply Forall_forall. intros chat Hin.
    rewrite forallb_forall in Hids. apply nonEmpty_spec, Hids.
    by apply list_elem_of_In. }
  split; [lia |]. split.
  { apply existsb_exists in Hlevel as (l & Hin & Heq).
    apply String.eqb_eq in Heq as ->. by apply list_elem_of_In. }
  unfold platformLinks_valid in Hlinks.
  rewrite !andb_true_iff in Hlinks.
  destruct Hlinks as (((((? & ?) & ?) & ?) & ?) & ?).
  repeat (constructor; [done |]). constructor.
Qed.

Lemma trimStart_plain (s : string) : plain s -> Js.trimStart s = s.
Proof.
  destruct s as [| c s]; [done |]. intros H. inversion H as [| ? ? [Hc _] _]; subst.
  cbn. by rewrite Hc.
Qed.

Lemma reverse_plain (s : string) : plain s -> plain (reverse s).
Proof.
  unfold plain, reverse. rewrite list_ascii_of_string_of_list_ascii.
  apply List.Forall_rev.
Qed.

Lemma reverse_involutive (s : string) : reverse (reverse s) = s.
Proof.
  unfold reverse. rewrite list_ascii_of_string_of_list_ascii, rev_involutive.
  apply string_of_list_ascii_of_string.
Qed.

Lemma trim_plain (s : string) : plain s -> trim s = s /\ trim (" " +:+ s) = s.
Proof.
  intros H.
  assert (Hend : trimEnd s = s).
  { unfold trimEnd. rewrite (trimStart_plain _ (reverse_plain s H)).
    apply reverse_involutive. }
  unfold trim. split.
  - by rewrite (trimStart_plain s H).
  - rewrite append_cons, append_nil_l. cbn [Js.trimStart].
    change (Js.isStrWhiteSpace " ") with true. cbn iota.
    by rewrite (trimStart_plain s H).
Qed.

Lemma split_on_plain (a : string) : forall cur s,
  plain a -> split_on "," cur (a +:+ s) = split_on "," (cur +:+ a) s.
Proof.
  induction a as [| c a IH]; intros cur s H.
  - by rewrite append_nil_l, append_nil_r.
  - inversion H as [| ? ? [_ Hc] Ha]; subst.
    rewrite append_cons. cbn [split_on].
    destruct (Ascii.eqb_spec c ","); [done |].
    rewrite IH by done. f_equal.
    rewrite append_assoc. by rewrite append_cons, append_nil_l.
Qed.

Lemma split_join (rest : list string) : forall a cur,
  plain a -> Forall plain rest ->
  split_on "," cur (join ", " (a :: rest))
  = (cur +:+ a) :: ((fun s => " " +:+ s) <$> rest).
Proof.
  induction rest as [| b rest IH]; intros a cur Ha Hrest.
  - cbn [join fmap list_fmap].
    rewrite <- (append_nil_r a) at 1. rewrite split_on_plain by done. done.
  - inversion Hrest as [| ? ? Hb Hrest']; subst.
    change (join ", " (a :: b :: rest))
      with (a +:+ ", " +:+ join ", " (b :: rest)).
    rewrite split_on_plain by done.
    change (", " +:+ join ", " (b :: rest))
      with (String "," (String " " (join ", " (b :: rest)))).
    cbn [split_on]. change (Ascii.eqb "," ",") with true. cbn iota.
    change (Ascii.eqb " " ",") with false. cbn iota.
    rewrite append_nil_l. rewrite IH by done. done.
Qed.

(** X19. Destinations written as a list separated by a comma and a space
    are read back as they were, in order: for identifiers free of commas and
    white space, splitting and trimming undoes the joining. *)
Theorem chat_ids_round_trip (ids : list string) :
  ids <> [] ->
  Forall plain ids ->
  trim <$> split "," (join ", " ids) = ids.
Proof.
  destruct ids as [| a rest]; [done |]. intros _ Hall.
  inversion Hall as [| ? ? Ha Hrest]; subst.
  unfold split. rewrite split_join by done. rewrite append_nil_l.
  cbn [fmap list_fmap]. rewrite (proj1 (trim_plain a Ha)). f_equal.
  rewrite <- list_fmap_compose.
  induction rest as [| b rest IH]; [done |].
  inversion Hrest as [| ? ? Hb Hrest']; subst.
  cbn [fmap list_fmap compose]. rewrite (proj2 (trim_plain b Hb)). f_equal.
  apply IH; [by constructor | done].
Qed.

End ConfigFacts.

(** ** The further properties on the scenarios *)

Section Scenarios2.
Import Scenario Scenario2.

Lemma context_none_iff_witness :
  LiveDetectorContext.extractLiveTagContext "#livestream tonight" 50 = None.
Proof. apply (context_none_iff "#livestream tonight" 50). reflexivity. Defined.

(** The token inside a longer word is passed over: the context is cut
    around the match. *)
Example context_of_second_occurrence :
  LiveDetectorContext.extractLiveTagContext "#livestream #live" 1 = Some " #live".
Proof. reflexivity. Qed.

Lemma context_window_witness :
  exists pre a t b suf,
    "#livestream #live" = pre +:+ a +:+ t +:+ b +:+ suf
    /\ Some (a +:+ t +:+ b)
       = LiveDetectorContext.extractLiveTagContext "#livestream #live" 1
    /\ Marker.isToken t = true
    /\ Marker.boundaryAhead (b +:+ suf)
    /\ String.length (pre +:+ a) <= 12.
Proof.
  destruct (context_window "#livestream #live" 1 " #live"
              ltac:(lia) eq_refl)
    as (pre & a & t & b & suf & Hd & Hctx & Htok & Hbound & Hleft & _).
  exists pre, a, t, b, suf. rewrite <- Hctx.
  repeat split; try assumption.
  exact (Hleft "#livestream " "#live" "" eq_refl eq_refl eq_refl).
Defined.

Lemma identifiers_are_independent_witness :
  fst (Deduplication.hasBeenNotified svB "abc123"
         (Clock.runOps svB [Clock.Mark "other"; Clock.Clear "third"] w0))
  = fst (Deduplication.hasBeenNotified svB "abc123" w0).
Proof.
  apply (identifiers_are_independent svB "abc123"
           [Clock.Mark "other"; Clock.Clear "third"] w0); [| reflexivity ..].
  repeat constructor; discriminate.
Defined.

Lemma clear_forgets_witness :
  fst (Deduplication.hasBeenNotified svB "abc123"
         (Clock.runOps svB [Clock.Tick 5; Clock.Mark "other"]
            (snd (Deduplication.clearNotification svB "abc123"
                    (snd (Deduplication.markAsNotified svB "abc123" w0))))))
  = Ok false.
Proof.
  apply (clear_forgets svB "abc123" [Clock.Tick 5; Clock.Mark "other"]
           (snd (Deduplication.markAsNotified svB "abc123" w0)) eq_refl).
  repeat constructor; cbn; first [lia | discriminate].
Defined.

Lemma retries_exhausted_witness :
  events_of (YouTube.getVideoMetadata svFailing "abc123") w0
  = [AxiosGet "https://www.googleapis.com/youtube/v3/videos" "abc123";
     Sleep 1000;
     AxiosGet "https://www.googleapis.com/youtube/v3/videos" "abc123";
     Sleep 2000;
     AxiosGet "https://www.googleapis.com/youtube/v3/videos" "abc123";
     Sleep 1000000].
Proof.
  exact (proj2 (retries_exhausted svFailing "abc123" w0 _ _ _
                  eq_refl eq_refl eq_refl)).
Defined.

Lemma metadata_is_of_first_item_witness :
  exists result,
    fst (YouTube.getVideoMetadata svB "abc123" w0) = Ok result
    /\ (result = Some tagged_metadata -> id tagged_metadata = "abc123").
Proof.
  destruct (metadata_is_of_first_item svB "abc123" w0) as (result & Hrun & Hmd).
  exists result. split; [exact Hrun |].
  intros H. exact (proj1 (Hmd tagged_metadata H)).
Defined.

Lemma manual_override_witness :
  countb isAnyDuplicateCheck
    (events_of (TelegramCommands.sendManualNotification csEmpty cfg "abc123") w0)
  = 0.
Proof.
  exact (proj1 (manual_override csEmpty cfg "abc123" w0
                  (snd (YouTube.getVideoMetadata svB "abc123" w0))
                  (Some tagged_metadata) eq_refl)).
Defined.

Lemma notify_refuses_witness :
  events_of (TelegramCommands.notifyCommand csEmpty cfg stranger) w0
  = [SendMessage "4242" "⚠️ Bu komutu kullanma yetkiniz yok."].
Proof.
  exact (notify_refuses csEmpty cfg stranger w0 (or_intror eq_refl)).
Defined.

Lemma notify_without_videos_witness :
  trace (snd (TelegramCommands.notifyCommand csEmpty cfg admin w0))
  = [AxiosGet "https://www.googleapis.com/youtube/v3/search" "UC1453";
     SendMessage "4242" "⚠️ Kanalda video bulunamadı."].
Proof.
  exact (notify_without_videos csEmpty cfg admin w0 eq_refl eq_refl).
Defined.

Lemma callback_rejections_witness :
  exists response,
    fst (WebSub.handleWebSubCallback svB cfg unreadable w0) = Ok response
    /\ WebSub.status_code response = 500%Z.
Proof.
  destruct (callback_rejections svB cfg unreadable w0)
    as (response & Hrun & H500 & _).
  exists response. split; [exact Hrun |].
  apply H500. exists (Error "aborted"). reflexivity.
Defined.

Lemma send_or_mark_requires_tag_witness :
  exists videoId md w1 w2,
    WebSub.videoId_of entry_abc = Some videoId
    /\ YouTube.getVideoMetadata svB videoId w1 = (Ok (Some md), w2)
    /\ LiveDetector.containsLiveTag (description md) = true.
Proof.
  destruct (send_or_mark_requires_tag svB cfg entry_abc w0)
    as (videoId & md & w1 & w2 & Hid & _ & _ & Hfetch & Htag).
  - vm_compute. lia.
  - exists videoId, md, w1, w2. repeat split; assumption.
Defined.

Lemma replay_stops_at_duplicate_check_witness :
  events_of (WebSub.processFeedEntry svB cfg entry_abc)
    (snd (WebSub.processFeedEntry svB cfg entry_abc w0))
  = [RedisExists "youtube-livestream:abc123"].
Proof.
  exact (replay_stops_at_duplicate_check svB cfg entry_abc "abc123"
           tagged_metadata w0
           (snd (Deduplication.hasBeenNotified svB "abc123" w0))
           (snd (YouTube.getVideoMetadata svB "abc123"
                   (snd (Deduplication.hasBeenNotified svB "abc123" w0))))
           eq_refl ltac:(discriminate) eq_refl eq_refl eq_refl eq_refl eq_refl).
Defined.

Lemma pipeline_runs_per_payload_witness :
  let evs := events_of (WebSub.handleWebSubCallback svB cfg post) w0 in
  snd (WebSub.handleWebSubCallback svB cfg post w0)
    = payload_run svB cfg [entry_abc; entry_abc] w0
  /\ countb isAnyDuplicateCheck evs <= 2
  /\ countb isSend evs <= 3 * 3 * 2
  /\ countb isAnyMark evs <= 2
  /\ countb (isMark "abc123") evs <= occurrences "abc123" [entry_abc; entry_abc].
Proof.
  intros evs.
  destruct (pipeline_runs_per_payload svB cfg post "<feed>...</feed>"
              [entry_abc; entry_abc] w0 eq_refl eq_refl)
    as (Hrun & _ & _ & Hchecks & _ & Hsends & Hmarks & Hid & _).
  destruct (Hid "abc123") as (_ & _ & _ & Hmark).
  repeat split; assumption.
Defined.

(** A no-break space around a value is white space to [trim] and to
    [parseInt]: a destination list that is one no-break space is refused
    (its only destination is empty after [trim]), and a port written after
    a no-break space is read. *)
Example loadConfig_no_break_space :
  Config.loadConfig parsers (<["TELEGRAM_CHAT_IDS" := String "160" ""]> env)
    = Throw (Error "ZodError")
  /\ server_port <$> (match Config.loadConfig parsers
                              (<["PORT" := String "160" "3000"]> env) with
                      | Ok c => Some c
                      | Throw _ => None
                      end) = Some 3000%Z
  /\ Config.trim (String "160" " @team" +:+ String "160" "") = "@team".
Proof. repeat split; vm_compute; reflexivity. Qed.

(** A text that is not JSON, or whose links are not all URLs, is
    refused. *)
Example loadConfig_bad_links :
  Config.loadConfig parsers (<["PLATFORM_LINKS" := "{...}"]> env)
    = Throw (Error "Invalid PLATFORM_LINKS format: SyntaxError: Unexpected token")
  /\ Config.loadConfig parsers
       (<["PLATFORM_LINKS" := "{" +:+ member "youtube" "1453ai" +:+ "}"]> env)
     = Throw (Error "Invalid PLATFORM_LINKS format: ZodError").
Proof. repeat split; vm_compute; reflexivity. Qed.

Lemma loaded_config_is_valid_witness :
  exists cfg',
    Config.loadConfig parsers env = Ok cfg'
    /\ telegram_chatIds cfg' = ["-1001"; "@team"]
    /\ (1 <= server_port cfg' <= 65535)%Z.
Proof.
  eexists. split; [reflexivity |]. split; [reflexivity |].
  exact (proj1 (proj2 (proj2 (proj2
           (loaded_config_is_valid parsers env _ eq_refl))))).
Defined.

Lemma chat_ids_round_trip_witness :
  Config.trim <$> Config.split "," "-1001, @team, 42" = ["-1001"; "@team"; "42"].
Proof.
  apply (chat_ids_round_trip ["-1001"; "@team"; "42"]); [discriminate |].
  repeat constructor; discriminate.
Defined.

End Scenarios2.
